(** * Cassandra nodetool MCP server: command registry and nodetool executor

    A shallow embedding of [src/command_registry.py] (class
    [CommandRegistry]) and [src/nodetool_executor.py] (class
    [NodeToolExecutor]), with the properties of the validation and
    execution core proved about it.

    Conventions of the embedding.
    - A Python [str] is a [string]; each [ascii] stands for one code point
      below 256 (values of the text that need larger code points are outside
      the model).
    - A dynamically typed Python value ([Any], a JSON value of a tool call) is
      a [PyVal]; floats are not modelled.
    - A raised exception is the [Raise] case of [Result]; only subclasses of
      [Exception] are modelled (no [KeyboardInterrupt], no task cancellation).
    - The operating system (clock, environment, child processes) is a
      [Platform] of oracles; the calls made to it are written to a journal.
      Log records are not part of the model. *)

From Stdlib Require Import ZArith QArith String Ascii List Lia Bool.
From stdpp Require Import gmap strings list fin_maps pretty.

Set Warnings "-register-all".

(** ** Python values and builtins *)

Module Py.

Inductive PyVal :=
| PyNone
| PyBool (b : bool)
| PyInt (z : Z)
| PyStr (s : string)
| PyList (l : list PyVal)
| PyDict (m : gmap string PyVal).

(** [bool(v)]: the truth value Python's [if v:] and [not v] test. *)
Definition truthy (v : PyVal) : bool :=
  match v with
  | PyNone => false
  | PyBool b => b
  | PyInt z => negb (z =? 0)%Z
  | PyStr s => negb (String.eqb s "")
  | PyList l => match l with [] => false | _ => true end
  | PyDict m => negb (bool_decide (m = ∅))
  end.

(** [isinstance(v, str)] *)
Definition isinstance_str (v : PyVal) : bool :=
  match v with PyStr _ => true | _ => false end.

(** [isinstance(v, dict)] *)
Definition isinstance_dict (v : PyVal) : bool :=
  match v with PyDict _ => true | _ => false end.

(** [d.get(key, default)] on a dict with string keys. *)
Definition dict_get (d : gmap string PyVal) (key : string) (dflt : PyVal) : PyVal :=
  default dflt (d !! key).

(** Exceptions: the class decides which [except] clause takes it, the message
    is [str(e)]. *)
Inductive ExnClass :=
| ValueError
| TypeError
| IndexError
| FileNotFoundError
| AsyncioTimeoutError
| OtherException (name : string).

#[global] Instance ExnClass_eq_dec : EqDecision ExnClass.
Proof. solve_decision. Defined.

Record Exn := mkExn { exn_class : ExnClass; exn_msg : string }.

Inductive Result (A : Type) :=
| Ok (a : A)
| Raise (e : Exn).
Arguments Ok {A} a.
Arguments Raise {A} e.

Definition rbind {A B} (m : Result A) (f : A -> Result B) : Result B :=
  match m with Ok a => f a | Raise e => Raise e end.

(** An insertion-ordered dict with string keys ([Dict[str, V]]): assigning to
    a key that is present keeps its position, a new key goes last. *)
Definition odict (V : Type) := list (string * V).

Fixpoint odict_get {V} (d : odict V) (k : string) : option V :=
  match d with
  | [] => None
  | (k', v) :: d' => if String.eqb k' k then Some v else odict_get d' k
  end.

Fixpoint odict_set {V} (d : odict V) (k : string) (v : V) : odict V :=
  match d with
  | [] => [(k, v)]
  | (k', v') :: d' =>
      if String.eqb k' k then (k', v) :: d' else (k', v') :: odict_set d' k v
  end.

(** [list(d.keys())] *)
Definition odict_keys {V} (d : odict V) : list string := map fst d.

(** [str.isspace] on one character, for code points below 256. *)
Definition isspace (c : ascii) : bool :=
  let n := nat_of_ascii c in
  ((9 <=? n) && (n <=? 13)) || ((28 <=? n) && (n <=? 32)) || (n =? 133) || (n =? 160).

Definition isdigit (c : ascii) : bool :=
  let n := nat_of_ascii c in (48 <=? n) && (n <=? 57).

Definition ishex (c : ascii) : bool :=
  let n := nat_of_ascii c in
  ((48 <=? n) && (n <=? 57)) || ((97 <=? n) && (n <=? 102)) || ((65 <=? n) && (n <=? 70)).

(** [s.lstrip()], [s.rstrip()], [s.strip()] *)
Fixpoint lstrip (s : string) : string :=
  match s with
  | EmptyString => EmptyString
  | String c s' => if isspace c then lstrip s' else s
  end.

Fixpoint rstrip (s : string) : string :=
  match s with
  | EmptyString => EmptyString
  | String c s' =>
      match rstrip s' with
      | EmptyString => if isspace c then EmptyString else String c EmptyString
      | r => String c r
      end
  end.

Definition strip (s : string) : string := lstrip (rstrip s).

(** [s.split(sep)] for a one-character separator: never the empty list. *)
Fixpoint split_on (sep : ascii) (s : string) : list string :=
  match s with
  | EmptyString => [EmptyString]
  | String c s' =>
      if Ascii.eqb c sep then EmptyString :: split_on sep s'
      else match split_on sep s' with
           | h :: t => String c h :: t
           | [] => [String c EmptyString]
           end
  end.

(** [s.split(sep, 1)]: cut at the first separator only. *)
Fixpoint split_on_first (sep : ascii) (s : string) : list string :=
  match s with
  | EmptyString => [EmptyString]
  | String c s' =>
      if Ascii.eqb c sep then [EmptyString; s']
      else match split_on_first sep s' with
           | h :: t => String c h :: t
           | [] => [String c EmptyString]
           end
  end.

(** [s.split()]: the maximal runs of characters that are not whitespace. *)
Fixpoint split_ws (s : string) : list string :=
  match s with
  | EmptyString => []
  | String c s' =>
      if isspace c then split_ws s'
      else match s' with
           | EmptyString => [String c EmptyString]
           | String c' _ =>
               if isspace c' then String c EmptyString :: split_ws s'
               else match split_ws s' with
                    | h :: t => String c h :: t
                    | [] => [String c EmptyString]
                    end
           end
  end.

(** [s.startswith(p)] *)
Definition startswith (s p : string) : bool := String.prefix p s.

(** [l[i]] on a list: [IndexError] out of range (no negative indices here). *)
Definition getitem {A} (l : list A) (i : nat) : Result A :=
  match nth_error l i with
  | Some x => Ok x
  | None => Raise (mkExn IndexError "list index out of range")
  end.

(** [s[i]] on a string: a one-character string, [IndexError] out of range. *)
Definition str_getitem (s : string) (i : nat) : Result string :=
  match String.get i s with
  | Some c => Ok (String c EmptyString)
  | None => Raise (mkExn IndexError "string index out of range")
  end.

(** Whitespace as [int] drops it at the two ends of its argument: below 127
    the white space of C (tab to carriage return, and the space), from 127 on
    what [str.isspace] says. The separators 28 to 31 are white space for
    [str.strip] and [str.split], not for [int]. *)
Definition int_isspace (c : ascii) : bool :=
  let n := nat_of_ascii c in
  if n <? 127 then ((9 <=? n) && (n <=? 13)) || (n =? 32) else isspace c.

Fixpoint int_lstrip (s : string) : string :=
  match s with
  | EmptyString => EmptyString
  | String c s' => if int_isspace c then int_lstrip s' else s
  end.

Fixpoint int_rstrip (s : string) : string :=
  match s with
  | EmptyString => EmptyString
  | String c s' =>
      match int_rstrip s' with
      | EmptyString => if int_isspace c then EmptyString else String c EmptyString
      | r => String c r
      end
  end.

Definition int_strip (s : string) : string := int_lstrip (int_rstrip s).

(** [int(s)]: surrounding whitespace is dropped, one sign is allowed, then
    decimal digits, with single underscores between digits. Among the code
    points below 256 the decimal digits are [0] to [9]. The message of the
    [ValueError] ends with the text itself, where Python writes [repr(s)]. *)
Fixpoint parse_digits (acc : Z) (after_digit : bool) (s : string) : option Z :=
  match s with
  | EmptyString => if after_digit then Some acc else None
  | String c s' =>
      if isdigit c
      then parse_digits (10 * acc + (Z.of_nat (nat_of_ascii c) - 48))%Z true s'
      else if Ascii.eqb c "_" && after_digit then parse_digits acc false s'
      else None
  end.

Definition int_of_str (s : string) : Result Z :=
  let t := int_strip s in
  let parsed :=
    match t with
    | String "+" r => parse_digits 0 false r
    | String "-" r => Z.opp <$> parse_digits 0 false r
    | _ => parse_digits 0 false t
    end in
  match parsed with
  | Some z => Ok z
  | None => Raise (mkExn ValueError ("invalid literal for int() with base 10: " +:+ s))
  end.

(** [all(f(x) for x in l)], where [f] may raise: stops at the first element
    that is false or raises. *)
Fixpoint all_of {A} (f : A -> Result bool) (l : list A) : Result bool :=
  match l with
  | [] => Ok true
  | x :: l' =>
      match f x with
      | Ok true => all_of f l'
      | Ok false => Ok false
      | Raise e => Raise e
      end
  end.

(** [c in s], for a one-character [c] *)
Fixpoint contains (c : ascii) (s : string) : bool :=
  match s with
  | EmptyString => false
  | String c' s' => Ascii.eqb c' c || contains c s'
  end.

(** [s * n] *)
Fixpoint str_repeat (s : string) (n : nat) : string :=
  match n with
  | O => EmptyString
  | S n' => s +:+ str_repeat s n'
  end.

(** [s[n:]], [s[:n]] and, for [n] above 0, [s[-n:]] *)
Definition str_from (n : nat) (s : string) : string :=
  String.substring n (String.length s - n) s.

Definition str_upto (n : nat) (s : string) : string := String.substring 0 n s.

Definition str_last (n : nat) (s : string) : string := str_from (String.length s - n) s.

(** [l[-1]] *)
Definition getitem_last {A} (l : list A) : Result A :=
  match last l with
  | Some x => Ok x
  | None => Raise (mkExn IndexError "list index out of range")
  end.

(** Values that can be keys of a dict: a list or a dict cannot be hashed. *)
Definition hashable (v : PyVal) : bool :=
  match v with
  | PyList _ | PyDict _ => false
  | _ => true
  end.

(** The number a truth value or an integer is, as a key: [True] is 1. *)
Definition key_number (v : PyVal) : option Z :=
  match v with
  | PyBool b => Some (if b then 1 else 0)%Z
  | PyInt z => Some z
  | _ => None
  end.

(** [a == b] on keys *)
Definition key_eqb (a b : PyVal) : bool :=
  match a, b with
  | PyNone, PyNone => true
  | PyStr s, PyStr t => String.eqb s t
  | _, _ =>
      match key_number a, key_number b with
      | Some x, Some y => (x =? y)%Z
      | _, _ => false
      end
  end.

(** [str(v)] of a key; nothing for a value that cannot be one. *)
Definition str_of_key (v : PyVal) : option string :=
  match v with
  | PyNone => Some "None"
  | PyBool true => Some "True"
  | PyBool false => Some "False"
  | PyInt z => Some (pretty z)
  | PyStr s => Some s
  | PyList _ | PyDict _ => None
  end.

(** A dict with keys of any hashable type, in insertion order, and [d[k] = v]
    on it: a key that is present keeps its place (and the key object it was
    first given). *)
Definition pydict (V : Type) := list (PyVal * V).

Fixpoint pydict_set {V} (d : pydict V) (k : PyVal) (v : V) : pydict V :=
  match d with
  | [] => [(k, v)]
  | (k', v') :: d' =>
      if key_eqb k' k then (k', v) :: d' else (k', v') :: pydict_set d' k v
  end.

End Py.

(** ** Regular expressions, as far as the two patterns of the executor need *)

Module Regex.

Inductive regex :=
| Void
| Eps
| Class (p : ascii -> bool)
| Seq (r1 r2 : regex)
| Alt (r1 r2 : regex).

Definition Chr (c : ascii) : regex := Class (Ascii.eqb c).

(** [r{n}] *)
Fixpoint Power (n : nat) (r : regex) : regex :=
  match n with
  | O => Eps
  | S n' => Seq r (Power n' r)
  end.

(** [r{0,n}] *)
Fixpoint UpTo (n : nat) (r : regex) : regex :=
  match n with
  | O => Eps
  | S n' => Alt Eps (Seq r (UpTo n' r))
  end.

(** [r{lo,hi}] *)
Definition Repeat (lo hi : nat) (r : regex) : regex :=
  Seq (Power lo r) (UpTo (hi - lo) r).

Fixpoint nullable (r : regex) : bool :=
  match r with
  | Void => false
  | Eps => true
  | Class _ => false
  | Seq r1 r2 => nullable r1 && nullable r2
  | Alt r1 r2 => nullable r1 || nullable r2
  end.

Fixpoint deriv (c : ascii) (r : regex) : regex :=
  match r with
  | Void => Void
  | Eps => Void
  | Class p => if p c then Eps else Void
  | Seq r1 r2 =>
      if nullable r1 then Alt (Seq (deriv c r1) r2) (deriv c r2)
      else Seq (deriv c r1) r2
  | Alt r1 r2 => Alt (deriv c r1) (deriv c r2)
  end.

(** The whole of [s] is a word of [r]. *)
Fixpoint fullmatch (r : regex) (s : string) : bool :=
  match s with
  | EmptyString => nullable r
  | String c s' => fullmatch (deriv c r) s'
  end.

(** The words of [r]. *)
Inductive lang : regex -> string -> Prop :=
| lang_eps : lang Eps EmptyString
| lang_class p c : p c = true -> lang (Class p) (String c EmptyString)
| lang_seq r1 r2 s1 s2 : lang r1 s1 -> lang r2 s2 -> lang (Seq r1 r2) (s1 +:+ s2)
| lang_alt_l r1 r2 s : lang r1 s -> lang (Alt r1 r2) s
| lang_alt_r r1 r2 s : lang r2 s -> lang (Alt r1 r2) s.

(** [s[:-1]] when [s] ends with a newline. *)
Fixpoint chop_newline (s : string) : option string :=
  match s with
  | EmptyString => None
  | String c EmptyString => if Ascii.eqb c "010" then Some EmptyString else None
  | String c s' => String c <$> chop_newline s'
  end.

(** [re.match('^' + r + '$', s) is not None], without re.MULTILINE: [$] holds
    at the end of the string and also just before a newline that ends it. *)
Definition re_match_anchored (r : regex) (s : string) : bool :=
  fullmatch r s ||
  match chop_newline s with
  | Some s' => fullmatch r s'
  | None => false
  end.

End Regex.

(** ** [src/models.py] *)

Module Models.
Import Py.

(** A [datetime]: microseconds since the epoch. *)
Definition datetime := Z.

(** [Config]; the defaults are the dataclass's. *)
Record Config := mkConfig {
  java_home : string;
  cassandra_bin_path : string;
  api_keys : list string;
  log_level : string;
  log_file : string;
  max_log_size : Z;
  health_check_interval : Z
}.

Definition default_Config : Config :=
  {| java_home := "/opt/jdk/";
     cassandra_bin_path := "/usr/local/cassandra/bin";
     api_keys := [];
     log_level := "INFO";
     log_file := "cassandra-mcp.log";
     max_log_size := 10485760;
     health_check_interval := 30 |}.

(** [CommandResult]. [execution_time] is a difference of clock readings, kept
    exact (as a rational) instead of rounded to a float. *)
Record CommandResult := mkCommandResult {
  success : bool;
  command : string;
  stdout : string;
  stderr : string;
  execution_time : Q;
  timestamp : datetime;
  target_host : PyVal
}.

(** [MCPTool]. The input schema is the dict [_create_tool_definition]
    builds: type "object", the properties (each of type "string", with a
    description) and the names that are required. *)
Module MCPTool.

Record PropertySchema := mkPropertySchema {
  property_type : string;
  property_description : string
}.

Record InputSchema := mkInputSchema {
  schema_type : string;
  properties : pydict PropertySchema;
  required : list PyVal
}.

Record t := mk {
  name : string;
  description : PyVal;
  input_schema : InputSchema
}.

End MCPTool.

End Models.

(** ** The platform: clock, environment and child processes *)

Module Sys.
Import Py.

(** A spawned child, as [asyncio.subprocess.Process] shows it to the caller:
    what [wait_for(process.communicate(), timeout)] gives for a timeout,
    [process.returncode] once that has returned, and whether [process.kill()]
    and [await process.wait()] raise. *)
Record Process := mkProcess {
  communicate : Z -> Result (list Byte.byte * list Byte.byte);
  returncode : option Z;
  kill : Result unit;
  wait : Result unit
}.

Record Platform := mkPlatform {
  (** the clock at its k-th reading: [time.time()] and [datetime.now()] *)
  time_time : nat -> Q;
  datetime_now : nat -> Models.datetime;
  (** [os.environ] *)
  environ : gmap string string;
  (** [str(Path(a) / b)] *)
  path_join : string -> string -> string;
  (** [bytes.decode('utf-8', errors='replace')], which never raises *)
  decode_utf8 : list Byte.byte -> string;
  (** [asyncio.create_subprocess_exec] on the argument vector and [env] *)
  create_subprocess_exec : list string -> gmap string string -> Result Process
}.

(** What a run does to the outside, in order. *)
Inductive Event :=
| EvExecutor (command : string) (target_host : PyVal)
| EvSpawn (argv : list string) (env : gmap string string)
| EvCommunicate (timeout : Z)
| EvKill
| EvWait.

Record World := mkWorld {
  clock_reads : nat;
  journal : list Event
}.

Definition initial_World : World := {| clock_reads := 0; journal := [] |}.

(** Computations that read the clock, write the journal and may raise. A
    raise keeps what was journalled before it. *)
Definition M (A : Type) : Type := World -> Result A * World.

#[global] Instance M_ret : MRet M := fun A a w => (Ok a, w).

#[global] Instance M_bind : MBind M := fun A B f m w =>
  match m w with
  | (Ok a, w') => f a w'
  | (Raise e, w') => (Raise e, w')
  end.

#[global] Instance Result_ret : MRet Result := fun A a => Ok a.

#[global] Instance Result_bind : MBind Result := fun A B f m => rbind m f.

Definition lift {A} (r : Result A) : M A := fun w => (r, w).

Definition emit (ev : Event) : M unit :=
  fun w => (Ok tt, {| clock_reads := clock_reads w; journal := journal w ++ [ev] |}).

(** [try: body / except ...: handler]; the handler answers [None] for an
    exception no [except] clause takes, which then goes on up. *)
Definition try_except {A} (body : M A) (handler : Exn -> option (M A)) : M A :=
  fun w =>
    match body w with
    | (Ok a, w') => (Ok a, w')
    | (Raise e, w') =>
        match handler e with
        | Some h => h w'
        | None => (Raise e, w')
        end
    end.

Section Calls.
Variable os : Platform.

Definition read_time : M Q :=
  fun w => (Ok (time_time os (clock_reads w)),
            {| clock_reads := S (clock_reads w); journal := journal w |}).

Definition read_datetime : M Models.datetime :=
  fun w => (Ok (datetime_now os (clock_reads w)),
            {| clock_reads := S (clock_reads w); journal := journal w |}).

Definition spawn (argv : list string) (env : gmap string string) : M Process :=
  emit (EvSpawn argv env) ;; lift (create_subprocess_exec os argv env).

Definition wait_for_communicate (p : Process) (timeout : Z) : M (list Byte.byte * list Byte.byte) :=
  emit (EvCommunicate timeout) ;; lift (communicate p timeout).

Definition process_kill (p : Process) : M unit := emit EvKill ;; lift (kill p).

Definition process_wait (p : Process) : M unit := emit EvWait ;; lift (wait p).

End Calls.

End Sys.

(** ** [src/interfaces.py]: the configuration manager, as the executor sees it *)

Class IConfigurationManager (C : Type) := {
  get_java_home : C -> string;
  get_cassandra_bin_path : C -> string
}.

(** A [ConfigurationManager] whose configuration is loaded. *)
#[global] Instance ConfigurationManager : IConfigurationManager Models.Config := {
  get_java_home := Models.java_home;
  get_cassandra_bin_path := Models.cassandra_bin_path
}.

(** ** [src/nodetool_executor.py]: class [NodeToolExecutor] *)

Module NodeToolExecutor.
Import Py Models Sys Regex.

Record t (C : Type) := mk {
  config_manager : C;
  timeout : Z
}.
Arguments mk {C} _ _.
Arguments config_manager {C} _.
Arguments timeout {C} _.

(** [__init__(self, config_manager, timeout=300)] *)
Definition __init__ {C} (config_manager : C) (timeout : option Z) : t C :=
  mk config_manager (default 300%Z timeout).

(** [r'^(\d{1,3}\.){3}\d{1,3}$'], between its anchors. On a [str] pattern
    [\d] is every Unicode decimal digit; among the code points below 256, the
    characters of a [string], these are [0] to [9]. *)
Definition ipv4_pattern : regex :=
  Seq (Repeat 3 3 (Seq (Repeat 1 3 (Class isdigit)) (Chr ".")))
      (Repeat 1 3 (Class isdigit)).

(** [r'^([0-9a-fA-F]{0,4}:){2,7}[0-9a-fA-F]{0,4}$'], between its anchors *)
Definition ipv6_pattern : regex :=
  Seq (Repeat 2 7 (Seq (Repeat 0 4 (Class ishex)) (Chr ":")))
      (Repeat 0 4 (Class ishex)).

Definition _validate_ip_format (ip : string) : Result bool :=
  if re_match_anchored ipv4_pattern ip then
    let octets := split_on "." ip in
    all_of (fun octet => n ← int_of_str octet; Ok ((0 <=? n)%Z && (n <=? 255)%Z)) octets
  else if re_match_anchored ipv6_pattern ip then Ok true
  else Ok false.

Section Methods.
Context {C : Type} `{IConfigurationManager C}.
Variable os : Platform.

Definition build_command (self : t C) (base_command : string) (args : list string)
    (host : option string) : list string :=
  let cassandra_bin_path := get_cassandra_bin_path (config_manager self) in
  let nodetool_path := path_join os cassandra_bin_path "nodetool" in
  let cmd_parts := [nodetool_path] in
  let cmd_parts :=
    match host with
    | Some h => if truthy (PyStr h) then cmd_parts ++ ["-h"; h] else cmd_parts
    | None => cmd_parts
    end in
  let cmd_parts := cmd_parts ++ [base_command] in
  cmd_parts ++ args.

Definition _get_environment (self : t C) : gmap string string :=
  let env := environ os in
  let java_home := get_java_home (config_manager self) in
  let env := <["JAVA_HOME" := java_home]> env in
  let java_bin := path_join os java_home "bin" in
  match env !! "PATH" with
  | Some path => <["PATH" := java_bin +:+ ":" +:+ path]> env
  | None => <["PATH" := java_bin]> env
  end.

(** The value handed on as [host: Optional[str]]: where [build_command] is
    reached, [target_host] is false or a [str], and a false host is not used. *)
Definition host_arg (target_host : PyVal) : option string :=
  match target_host with
  | PyStr s => Some s
  | _ => None
  end.

Definition execute_command (self : t C) (command : string) (target_host : PyVal)
    : M CommandResult :=
  start_time ← read_time os;
  timestamp ← read_datetime os;
  invalid ←
    (if truthy target_host then
       match target_host with
       | PyStr ip =>
           ok ← lift (_validate_ip_format ip);
           mret (if ok : bool then None else Some ("Invalid IP format: " +:+ ip))
       | _ => lift (Raise (mkExn TypeError "expected string or bytes-like object"))
       end
     else mret None) : M (option string);
  match invalid with
  | Some error_msg =>
      now ← read_time os;
      mret {| success := false; command := command; stdout := ""; stderr := error_msg;
              execution_time := (now - start_time)%Q; timestamp := timestamp;
              target_host := target_host |}
  | None =>
      let cmd_parts := build_command self command [] (host_arg target_host) in
      try_except
        (process ← spawn os cmd_parts (_get_environment self);
         outcome ←
           try_except
             ('(stdout_bytes, stderr_bytes) ← wait_for_communicate process (timeout self);
              mret (inl (decode_utf8 os stdout_bytes, decode_utf8 os stderr_bytes)))
             (fun e =>
                match exn_class e with
                | AsyncioTimeoutError => Some (
                    try_except (process_kill process ;; process_wait process)
                               (fun kill_error => Some (mret tt)) ;;
                    let error_msg :=
                      "Command timed out after " +:+ pretty (timeout self) +:+ " seconds" in
                    now ← read_time os;
                    mret (inr {| success := false; command := command; stdout := "";
                                 stderr := error_msg;
                                 execution_time := (now - start_time)%Q;
                                 timestamp := timestamp; target_host := target_host |}))
                | _ => None
                end);
         match outcome with
         | inr timed_out => mret timed_out
         | inl (stdout, stderr) =>
             now ← read_time os;
             let success := bool_decide (returncode process = Some 0%Z) in
             mret {| success := success; command := command; stdout := stdout;
                     stderr := stderr; execution_time := (now - start_time)%Q;
                     timestamp := timestamp; target_host := target_host |}
         end)
        (fun e =>
           match exn_class e with
           | FileNotFoundError => Some (
               let error_msg := "nodetool executable not found: " +:+ exn_msg e in
               now ← read_time os;
               mret {| success := false; command := command; stdout := "";
                       stderr := error_msg; execution_time := (now - start_time)%Q;
                       timestamp := timestamp; target_host := target_host |})
           | _ => Some (
               let error_msg := "Unexpected error executing command: " +:+ exn_msg e in
               now ← read_time os;
               mret {| success := false; command := command; stdout := "";
                       stderr := error_msg; execution_time := (now - start_time)%Q;
                       timestamp := timestamp; target_host := target_host |})
           end)
  end.

End Methods.

(** One node of [nodetool status], as the dict [_parse_status_output] builds. *)
Record StatusNode := mkStatusNode {
  status : string;
  state : string;
  address : string;
  load : string;
  tokens : string;
  owns : string;
  host_id : string;
  rack : string;
  datacenter : option string
}.

Record StatusReport := mkStatusReport {
  nodes : list StatusNode;
  total_nodes : nat
}.

(** [line and line[0] in chars] *)
Definition first_char_in (line : string) (chars : list string) : bool :=
  match line with
  | EmptyString => false
  | String c _ => existsb (String.eqb (String c EmptyString)) chars
  end.

(** One turn of the loop of [_parse_status_output], on the variables
    [datacenter] and [nodes]. *)
Definition parse_status_line (vars : option string * list StatusNode) (line : string)
    : Result (option string * list StatusNode) :=
  let '(datacenter, nodes) := vars in
  let line := strip line in
  if startswith line "Datacenter:" then
    rest ← getitem (split_on_first ":" line) 1;
    Ok (Some (strip rest), nodes)
  else if first_char_in line ["U"; "D"; "N"] then
    let parts := split_ws line in
    if 6 <=? length parts then
      part0 ← getitem parts 0;
      status ← str_getitem part0 0;
      state ← (if 1 <? String.length part0 then str_getitem part0 1 else Ok "");
      address ← getitem parts 1;
      load ← getitem parts 2;
      tokens ← getitem parts 3;
      owns ← (if 4 <? length parts then getitem parts 4 else Ok "");
      host_id ← (if 5 <? length parts then getitem parts 5 else Ok "");
      rack ← (if 6 <? length parts then getitem parts 6 else Ok "");
      Ok (datacenter,
          nodes ++ [ {| status := status; state := state; address := address;
                        load := load; tokens := tokens; owns := owns;
                        host_id := host_id; rack := rack;
                        datacenter := datacenter |} ])
    else Ok (datacenter, nodes)
  else Ok (datacenter, nodes).

Fixpoint parse_status_lines (vars : option string * list StatusNode) (lines : list string)
    : Result (option string * list StatusNode) :=
  match lines with
  | [] => Ok vars
  | line :: lines' =>
      vars' ← parse_status_line vars line;
      parse_status_lines vars' lines'
  end.

Definition _parse_status_output (output : string) : Result StatusReport :=
  let lines := split_on "010" (strip output) in
  '(_, nodes) ← parse_status_lines (None, []) lines;
  Ok {| nodes := nodes; total_nodes := length nodes |}.

(** The dict [_parse_status_output] returns, from its record. *)
Definition status_node_dict (node : StatusNode) : gmap string PyVal :=
  {[ "status" := PyStr (status node); "state" := PyStr (state node);
     "address" := PyStr (address node); "load" := PyStr (load node);
     "tokens" := PyStr (tokens node); "owns" := PyStr (owns node);
     "host_id" := PyStr (host_id node); "rack" := PyStr (rack node);
     "datacenter" := match datacenter node with Some dc => PyStr dc | None => PyNone end ]}.

Definition status_report_dict (report : StatusReport) : gmap string PyVal :=
  {[ "nodes" := PyList ((fun node => PyDict (status_node_dict node)) <$> nodes report);
     "total_nodes" := PyInt (Z.of_nat (total_nodes report)) ]}.

(** One turn of the loop of [_parse_ring_output], on the list [tokens]. *)
Definition parse_ring_line (ring : list (gmap string PyVal)) (line : string)
    : Result (list (gmap string PyVal)) :=
  let line := strip line in
  if String.eqb line "" || startswith line "Datacenter:" || startswith line "Address" then
    Ok ring
  else
    let parts := split_ws line in
    if 6 <=? length parts then
      address ← getitem parts 0;
      rack ← getitem parts 1;
      status ← getitem parts 2;
      state ← getitem parts 3;
      load ← getitem parts 4;
      owns ← getitem parts 5;
      token ← (if 6 <? length parts then getitem parts 6 else Ok "");
      Ok (ring ++ [ {[ "address" := PyStr address; "rack" := PyStr rack;
                       "status" := PyStr status; "state" := PyStr state;
                       "load" := PyStr load; "owns" := PyStr owns;
                       "token" := PyStr token ]} ])
    else Ok ring.

Fixpoint parse_ring_lines (ring : list (gmap string PyVal)) (lines : list string)
    : Result (list (gmap string PyVal)) :=
  match lines with
  | [] => Ok ring
  | line :: lines' =>
      ring' ← parse_ring_line ring line;
      parse_ring_lines ring' lines'
  end.

Definition _parse_ring_output (output : string) : Result (gmap string PyVal) :=
  let lines := split_on "010" (strip output) in
  ring ← parse_ring_lines [] lines;
  Ok ({[ "tokens" := PyList (PyDict <$> ring);
         "total_tokens" := PyInt (Z.of_nat (length ring)) ]} : gmap string PyVal).

(** One turn of the loop of [_parse_info_output], on the dict [info]. The
    unpacking [key, value = ...] raises unless the split gives two parts. *)
Definition parse_info_line (info : gmap string string) (line : string)
    : Result (gmap string string) :=
  if contains ":" line then
    match split_on_first ":" line with
    | [key; value] => Ok (<[strip key := strip value]> info)
    | _ => Raise (mkExn ValueError "wrong number of values to unpack")
    end
  else Ok info.

Fixpoint parse_info_lines (info : gmap string string) (lines : list string)
    : Result (gmap string string) :=
  match lines with
  | [] => Ok info
  | line :: lines' =>
      info' ← parse_info_line info line;
      parse_info_lines info' lines'
  end.

Definition _parse_info_output (output : string) : Result (gmap string string) :=
  let lines := split_on "010" (strip output) in
  parse_info_lines ∅ lines.

(** The variables of the loop of [_parse_netstats_output]. *)
Record NetstatsVars := mkNetstatsVars {
  sections : gmap string string;
  current_section : option string;
  section_content : list string
}.

(** [if current_section: sections[current_section] = join(section_content)] *)
Definition flush_section (vars : NetstatsVars) : gmap string string :=
  match current_section vars with
  | Some name =>
      if truthy (PyStr name)
      then <[name := String.concat (String "010" "") (section_content vars)]> (sections vars)
      else sections vars
  | None => sections vars
  end.

Definition parse_netstats_line (vars : NetstatsVars) (line : string) : NetstatsVars :=
  if truthy (PyStr line) && negb (startswith line " ") then
    {| sections := flush_section vars;
       current_section := Some (strip line);
       section_content := [] |}
  else
    {| sections := sections vars;
       current_section := current_section vars;
       section_content := section_content vars ++ [line] |}.

Definition _parse_netstats_output (output : string) : gmap string string :=
  let vars :=
    fold_left parse_netstats_line (split_on "010" (strip output))
      {| sections := ∅; current_section := None; section_content := [] |} in
  flush_section vars.

Definition parse_output (command stdout stderr : string) : Result (gmap string PyVal) :=
  let parsed : gmap string PyVal :=
    {[ "command" := PyStr command; "raw_output" := PyStr stdout;
       "error_output" := PyStr stderr ]} in
  parsed_data ←
    (if String.eqb command "status" then
       report ← _parse_status_output stdout; Ok (status_report_dict report)
     else if String.eqb command "ring" then _parse_ring_output stdout
     else if String.eqb command "info" then
       info ← _parse_info_output stdout; Ok (PyStr <$> (info : gmap string string))
     else if String.eqb command "netstats" then
       Ok (PyStr <$> _parse_netstats_output stdout)
     else Ok ({[ "output" := PyStr (strip stdout) ]} : gmap string PyVal));
  Ok (<["parsed_data" := PyDict parsed_data]> parsed).

End NodeToolExecutor.

(** ** [src/health_check.py]: class [HealthCheck], its status parser and counts *)

Module HealthCheck.
Import Py Models Sys.

(** [NodeStatus] of [src/models.py]. *)
Record NodeStatus := mkNodeStatus {
  address : string;
  status : string;
  state : string;
  load : string;
  datacenter : option string;
  rack : option string
}.

Record t := mk {
  executor : string -> PyVal -> M CommandResult
}.

(** One turn of the loop of [_parse_status_output], on the variables
    [current_datacenter] and [nodes]. *)
Definition parse_status_line (vars : option string * list NodeStatus) (line : string)
    : Result (option string * list NodeStatus) :=
  let '(current_datacenter, nodes) := vars in
  let line := strip line in
  if startswith line "Datacenter:" then
    rest ← getitem (split_on_first ":" line) 1;
    Ok (Some (strip rest), nodes)
  else if NodeToolExecutor.first_char_in line ["U"; "D"; "N"] then
    let parts := split_ws line in
    if 6 <=? length parts then
      status_state ← getitem parts 0;
      status ← (if 0 <? String.length status_state then str_getitem status_state 0 else Ok "?");
      state ← (if 1 <? String.length status_state then str_getitem status_state 1 else Ok "?");
      rack ← (if 6 <? length parts then r ← getitem_last parts; Ok (Some r) else Ok None);
      address ← getitem parts 1;
      load ← getitem parts 2;
      Ok (current_datacenter,
          nodes ++ [ {| address := address; status := status; state := state; load := load;
                        datacenter := current_datacenter; rack := rack |} ])
    else Ok (current_datacenter, nodes)
  else Ok (current_datacenter, nodes).

Fixpoint parse_status_lines (vars : option string * list NodeStatus) (lines : list string)
    : Result (option string * list NodeStatus) :=
  match lines with
  | [] => Ok vars
  | line :: lines' =>
      vars' ← parse_status_line vars line;
      parse_status_lines vars' lines'
  end.

Definition _parse_status_output (output : string) : Result (list NodeStatus) :=
  '(_, nodes) ← parse_status_lines (None, []) (split_on "010" (strip output));
  Ok nodes.

(** [sum(1 for node in nodes if node.status == s)] *)
Definition count_status (s : string) (nodes : list NodeStatus) : nat :=
  length (filter (fun node => String.eqb (status node) s = true) nodes).

(** [_get_cluster_status]: the nodes, their number, and how many are up and
    down; the call is [execute_command("status")], with no target host. *)
Definition _get_cluster_status (self : t) : M (list NodeStatus * nat * nat * nat) :=
  try_except
    (emit (EvExecutor "status" PyNone) ;;
     result ← executor self "status" PyNone;
     if negb (success result) then mret ([], 0, 0, 0)
     else
       nodes ← lift (_parse_status_output (stdout result));
       let node_count := length nodes in
       let up_nodes := count_status "U" nodes in
       let down_nodes := count_status "D" nodes in
       mret (nodes, node_count, up_nodes, down_nodes))
    (fun e => Some (mret ([], 0, 0, 0))).

End HealthCheck.

(** ** [src/command_registry.py]: class [CommandRegistry] *)

Module CommandRegistry.
Import Py Models Sys.

(** Command metadata is a free-form dict; the catalog [_commands] maps names
    to metadata and keeps insertion order. The executor is any object with an
    [execute_command(name, target_host)] method. *)
Record t := mk {
  executor : string -> PyVal -> M CommandResult;
  _commands : odict (gmap string PyVal)
}.

Definition SAFE_COMMANDS : gset string :=
  {[ "status"; "ring"; "info"; "netstats";
     "repair"; "snapshot"; "cleanup"; "compact";
     "getsstables"; "getcompactionthroughput"; "getconcurrentcompactors" ]}.

Definition strs (l : list string) : PyVal := PyList (PyStr <$> l).

Definition _register_monitoring_commands (cmds : odict (gmap string PyVal))
    : odict (gmap string PyVal) :=
  let cmds := odict_set cmds "status"
    {[ "description" := PyStr "Get cluster status and node information";
       "category" := PyStr "monitoring";
       "requires_args" := PyBool false;
       "safe" := PyBool true ]} in
  let cmds := odict_set cmds "ring"
    {[ "description" := PyStr "Get token ring information";
       "category" := PyStr "monitoring";
       "requires_args" := PyBool false;
       "safe" := PyBool true ]} in
  let cmds := odict_set cmds "info"
    {[ "description" := PyStr "Get node information";
       "category" := PyStr "monitoring";
       "requires_args" := PyBool false;
       "safe" := PyBool true ]} in
  odict_set cmds "netstats"
    {[ "description" := PyStr "Get network statistics";
       "category" := PyStr "monitoring";
       "requires_args" := PyBool false;
       "safe" := PyBool true ]}.

Definition _register_maintenance_commands (cmds : odict (gmap string PyVal))
    : odict (gmap string PyVal) :=
  let cmds := odict_set cmds "repair"
    {[ "description" := PyStr "Repair one or more tables";
       "category" := PyStr "maintenance";
       "requires_args" := PyBool false;
       "safe" := PyBool true;
       "optional_args" := strs ["keyspace"; "table"] ]} in
  let cmds := odict_set cmds "snapshot"
    {[ "description" := PyStr "Take a snapshot of specified keyspaces";
       "category" := PyStr "maintenance";
       "requires_args" := PyBool false;
       "safe" := PyBool true;
       "optional_args" := strs ["tag"; "keyspace"] ]} in
  let cmds := odict_set cmds "cleanup"
    {[ "description" := PyStr "Cleanup keys no longer belonging to a node";
       "category" := PyStr "maintenance";
       "requires_args" := PyBool false;
       "safe" := PyBool true;
       "optional_args" := strs ["keyspace"; "table"] ]} in
  odict_set cmds "compact"
    {[ "description" := PyStr "Force a major compaction";
       "category" := PyStr "maintenance";
       "requires_args" := PyBool false;
       "safe" := PyBool true;
       "optional_args" := strs ["keyspace"; "table"] ]}.

Definition _register_extended_commands (cmds : odict (gmap string PyVal))
    : odict (gmap string PyVal) :=
  let cmds := odict_set cmds "getsstables"
    {[ "description" := PyStr "Get SSTables for a given key";
       "category" := PyStr "extended";
       "requires_args" := PyBool true;
       "safe" := PyBool true;
       "required_args" := strs ["keyspace"; "table"; "key"] ]} in
  let cmds := odict_set cmds "getcompactionthroughput"
    {[ "description" := PyStr "Get compaction throughput in MB/s";
       "category" := PyStr "extended";
       "requires_args" := PyBool false;
       "safe" := PyBool true ]} in
  odict_set cmds "getconcurrentcompactors"
    {[ "description" := PyStr "Get number of concurrent compactors";
       "category" := PyStr "extended";
       "requires_args" := PyBool false;
       "safe" := PyBool true ]}.

Definition _initialize_commands (cmds : odict (gmap string PyVal))
    : odict (gmap string PyVal) :=
  _register_extended_commands
    (_register_maintenance_commands
       (_register_monitoring_commands cmds)).

Definition __init__ (executor : string -> PyVal -> M CommandResult) : t :=
  {| executor := executor; _commands := _initialize_commands [] |}.

(** [register_command]: the registry after the call, or the exception; a
    raise leaves the registry as it was. *)
Definition register_command (self : t) (name : string) (handler : PyVal) : Result t :=
  match handler with
  | PyDict meta =>
      if negb (bool_decide (name ∈ SAFE_COMMANDS)) then
        Raise (mkExn ValueError ("Command '" +:+ name +:+ "' is not in the safe commands list"))
      else
        Ok {| executor := executor self;
              _commands := odict_set (_commands self) name meta |}
  | _ => Raise (mkExn ValueError "Handler must be a dictionary with command metadata")
  end.

Definition get_available_commands (self : t) : list string :=
  odict_keys (_commands self).

Definition get_command_metadata (self : t) (name : string) : option (gmap string PyVal) :=
  odict_get (_commands self) name.

(** [for arg in v]: the elements a [for] loop over [v] visits. A dict gives
    its keys; they come here in the order of the map, where Python gives them
    in insertion order: which keys are visited is the same, and the loops
    below over a dict of names raise on none of them. *)
Definition iterate (v : PyVal) : Result (list PyVal) :=
  match v with
  | PyList l => Ok l
  | PyStr s => Ok ((fun c => PyStr (String c EmptyString)) <$> list_ascii_of_string s)
  | PyDict m => Ok (PyStr <$> (map_to_list m).*1)
  | PyNone => Raise (mkExn TypeError "'NoneType' object is not iterable")
  | PyBool _ => Raise (mkExn TypeError "'bool' object is not iterable")
  | PyInt _ => Raise (mkExn TypeError "'int' object is not iterable")
  end.

(** [not (arg not in args or not args[arg])]; a list or a dict cannot be
    looked up as a key, and no other value equals a string key. *)
Definition has_argument (args : gmap string PyVal) (arg : PyVal) : Result bool :=
  match arg with
  | PyStr a =>
      Ok match args !! a with
         | Some v => truthy v
         | None => false
         end
  | PyList _ | PyDict _ => Raise (mkExn TypeError "unhashable type")
  | _ => Ok false
  end.

Definition validate_command (self : t) (name : string) (args : gmap string PyVal)
    : Result bool :=
  match odict_get (_commands self) name with
  | None => Ok false
  | Some command_meta =>
      if negb (truthy (dict_get command_meta "safe" (PyBool false))) then Ok false
      else
        required_ok ←
          (if truthy (dict_get command_meta "requires_args" (PyBool false)) then
             required_args ← iterate (dict_get command_meta "required_args" (PyList []));
             all_of (has_argument args) required_args
           else Ok true);
        if negb (required_ok : bool) then Ok false
        else
          match args !! "target_host" with
          | Some host =>
              if truthy host && negb (isinstance_str host) then Ok false else Ok true
          | None => Ok true
          end
  end.

Section Methods.
Variable os : Platform.

Definition execute_command (self : t) (name : string) (args : gmap string PyVal)
    : M CommandResult :=
  valid ← lift (validate_command self name args);
  if negb (valid : bool) then
    now ← read_datetime os;
    mret {| success := false; command := name; stdout := "";
            stderr := "Command validation failed for '" +:+ name +:+ "'";
            execution_time := 0%Q; timestamp := now;
            target_host := dict_get args "target_host" PyNone |}
  else
    let target_host := dict_get args "target_host" PyNone in
    emit (EvExecutor name target_host) ;;
    executor self name target_host.

End Methods.

End CommandRegistry.

(** ** [src/authentication.py]: class [AuthenticationManager] *)

Module AuthenticationManager.
Import Py Models Sys.

Record t := mk {
  config : Config;
  _api_keys : list string
}.

Definition _load_api_keys_from_config (self : t) : t :=
  {| config := config self; _api_keys := api_keys (config self) |}.

Definition __init__ (config : Config) : t :=
  _load_api_keys_from_config {| config := config; _api_keys := [] |}.

(** [load_api_keys]: the manager after the call, and the list returned. *)
Definition load_api_keys (self : t) : t * list string :=
  let self' := _load_api_keys_from_config self in (self', _api_keys self').

Definition reload_api_keys (self : t) (config : Config) : t :=
  _load_api_keys_from_config {| config := config; _api_keys := _api_keys self |}.

(** [validate_api_key], on a value of any type: in [api_key in self._api_keys]
    only a string equals one of the keys, which are strings. *)
Definition validate_api_key (self : t) (api_key : PyVal) : bool :=
  if negb (truthy api_key) then false
  else
    match api_key with
    | PyStr key => bool_decide (key ∈ _api_keys self)
    | _ => false
    end.

Definition get_http_status_code (self : t) (api_key : PyVal) : Z :=
  if negb (truthy api_key) then 401%Z
  else if negb (validate_api_key self api_key) then 403%Z
  else 200%Z.

(** [_mask_api_key] on a string, the declared type of [api_key]. *)
Definition _mask_api_key (api_key : string) : string :=
  match api_key with
  | EmptyString => "[empty]"
  | String first _ =>
      if String.length api_key <=? 8
      then String first EmptyString +:+ str_repeat "*" (String.length api_key - 1)
      else str_upto 4 api_key +:+ "..." +:+ str_last 4 api_key
  end.

(** [_mask_api_key] on a value of any type. The masked text goes to a log
    record only, so what is kept is whether computing it raises: a number has
    no [len]; a short list gives its first element, which [+] joins to the
    stars only if it is a string; a long list is sliced and formatted; a dict
    with string keys has neither the key [0] nor a slice (the latter is a
    [TypeError] up to Python 3.11). For a list or a dict the class of the
    exception is kept, and its message is not. *)
Definition mask_check (api_key : PyVal) : Result unit :=
  if negb (truthy api_key) then Ok tt
  else
    match api_key with
    | PyNone => Ok tt
    | PyStr key => Ok tt
    | PyBool _ => Raise (mkExn TypeError "object of type 'bool' has no len()")
    | PyInt _ => Raise (mkExn TypeError "object of type 'int' has no len()")
    | PyList l =>
        if length l <=? 8 then
          match l with
          | PyStr _ :: _ => Ok tt
          | _ => Raise (mkExn TypeError "unsupported operand type(s) for +")
          end
        else Ok tt
    | PyDict m =>
        if size m <=? 8 then Raise (mkExn (OtherException "KeyError") "0")
        else Raise (mkExn TypeError "unhashable type: 'slice'")
    end.

Section Methods.
Variable os : Platform.

(** [log_auth_attempt]: the key is masked, then the clock is read; the log
    record itself is not modelled. *)
Definition log_auth_attempt (self : t) (api_key : PyVal) (success : bool) (ip : PyVal)
    : M unit :=
  lift (mask_check api_key) ;;
  read_datetime os ;;
  mret tt.

End Methods.

End AuthenticationManager.

(** ** [src/models.py]: what goes on the wire *)

Module Responses.
Import Py Models.

(** The dict [CommandResult.to_dict()] returns; the timestamp stands for its
    [isoformat()]. *)
Record result_dict := mk_result_dict {
  status : string;
  data : option string;
  error : option string;
  execution_time : Q;
  timestamp : datetime;
  target_host : PyVal
}.

Definition to_dict (self : CommandResult) : result_dict :=
  {| status := if success self then "success" else "error";
     data := if success self then Some (stdout self) else None;
     error := if negb (success self) then Some (stderr self) else None;
     execution_time := Models.execution_time self;
     timestamp := Models.timestamp self;
     target_host := Models.target_host self |}.

(** The dict [ErrorResponse(error_code=..., message=..., timestamp=...).to_dict()]
    returns: status is "error" and details stays None. *)
Record error_dict := mk_error_dict {
  error_status : string;
  error_code : string;
  error_message : string;
  error_details : option (gmap string PyVal);
  error_timestamp : datetime
}.

Definition error_response (code message : string) (now : datetime) : error_dict :=
  {| error_status := "error"; error_code := code; error_message := message;
     error_details := None; error_timestamp := now |}.

(** [TextContent(type="text", text=json.dumps(d, indent=2))], with the dict
    [d] in place of its JSON text. *)
Inductive TextContent :=
| TextResult (d : result_dict)
| TextError (d : error_dict).

End Responses.

(** ** [src/mcp_server.py]: class [MCPServer], the tool call *)

Module MCPServer.
Import Py Models Sys Responses.

(** The server. Its list [_tools] is made once, by the constructor, from the
    registry ([_initialize_tools] below) and is read by the listing only, not
    by a tool call; it is kept apart from this record. *)
Record t := mk {
  command_registry : CommandRegistry.t;
  auth_manager : AuthenticationManager.t
}.

(** One turn of a loop [for arg in ...: properties[arg] = {...}] of
    [_create_tool_definition]: the description is formatted from the
    argument, and the store raises for an argument that cannot be a key. *)
Definition describe_arg (label : string) (properties : pydict MCPTool.PropertySchema)
    (arg : PyVal) : Result (pydict MCPTool.PropertySchema) :=
  match str_of_key arg with
  | Some text =>
      Ok (pydict_set properties arg
            {| MCPTool.property_type := "string";
               MCPTool.property_description := label +:+ text |})
  | None => Raise (mkExn TypeError "unhashable type")
  end.

Fixpoint describe_args (label : string) (properties : pydict MCPTool.PropertySchema)
    (args : list PyVal) : Result (pydict MCPTool.PropertySchema) :=
  match args with
  | [] => Ok properties
  | arg :: args' =>
      properties' ← describe_arg label properties arg;
      describe_args label properties' args'
  end.

Definition _create_tool_definition (name : string) (metadata : gmap string PyVal)
    : Result MCPTool.t :=
  let properties : pydict MCPTool.PropertySchema :=
    [(PyStr "target_host",
      {| MCPTool.property_type := "string";
         MCPTool.property_description := "Optional target Cassandra node IP address" |})] in
  '(properties, required) ←
    (if truthy (dict_get metadata "requires_args" PyNone) &&
        bool_decide (is_Some (metadata !! "required_args"))
     then
       args ← CommandRegistry.iterate (dict_get metadata "required_args" PyNone);
       properties ← describe_args "Required argument: " properties args;
       Ok (properties, args)
     else Ok (properties, []));
  properties ←
    match metadata !! "optional_args" with
    | Some optional_args =>
        args ← CommandRegistry.iterate optional_args;
        describe_args "Optional argument: " properties args
    | None => Ok properties
    end;
  let input_schema :=
    {| MCPTool.schema_type := "object"; MCPTool.properties := properties;
       MCPTool.required := required |} in
  let description :=
    dict_get metadata "description" (PyStr ("Execute nodetool " +:+ name +:+ " command")) in
  Ok {| MCPTool.name := "cassandra_" +:+ name; MCPTool.description := description;
        MCPTool.input_schema := input_schema |}.

(** The loop of [_initialize_tools] over the available commands, on the list
    [_tools]; [if metadata:] passes over a command without metadata or with
    an empty dict. *)
Fixpoint initialize_tools_loop (registry : CommandRegistry.t) (available_commands : list string)
    (tools : list MCPTool.t) : Result (list MCPTool.t) :=
  match available_commands with
  | [] => Ok tools
  | cmd_name :: rest =>
      match CommandRegistry.get_command_metadata registry cmd_name with
      | Some metadata =>
          if truthy (PyDict metadata) then
            tool ← _create_tool_definition cmd_name metadata;
            initialize_tools_loop registry rest (tools ++ [tool])
          else initialize_tools_loop registry rest tools
      | None => initialize_tools_loop registry rest tools
      end
  end.

(** [_initialize_tools]: the list [_tools] of a server constructed on
    [registry], or what the constructor raises. *)
Definition _initialize_tools (registry : CommandRegistry.t) : Result (list MCPTool.t) :=
  initialize_tools_loop registry (CommandRegistry.get_available_commands registry) [].

Definition get_tool_count (tools : list MCPTool.t) : nat := length tools.

Definition get_tool_names (tools : list MCPTool.t) : list string := MCPTool.name <$> tools.

Section Methods.
Variable os : Platform.

Definition handle_call_tool (self : t) (name : string) (arguments : gmap string PyVal)
    : M (list TextContent) :=
  let api_key := dict_get arguments "api_key" PyNone in
  let client_ip := dict_get arguments "client_ip" (PyStr "unknown") in
  let auth_status := AuthenticationManager.get_http_status_code (auth_manager self) api_key in
  AuthenticationManager.log_auth_attempt os (auth_manager self)
    (if truthy api_key then api_key else PyStr "") (auth_status =? 200)%Z client_ip ;;
  if (auth_status =? 401)%Z then
    now ← read_datetime os;
    mret [TextError (error_response "UNAUTHORIZED" "API key is required" now)]
  else if (auth_status =? 403)%Z then
    now ← read_datetime os;
    mret [TextError (error_response "FORBIDDEN" "Invalid API key" now)]
  else if startswith name "cassandra_" then
    let command_name := str_from (String.length "cassandra_") name in
    let command_args :=
      filter (fun kv : string * PyVal => kv.1 ∉ ["api_key"; "client_ip"]) arguments in
    try_except
      (result ← CommandRegistry.execute_command os (command_registry self)
                  command_name command_args;
       let response := to_dict result in
       mret [TextResult response])
      (fun e => Some (
         now ← read_datetime os;
         mret [TextError (error_response "EXECUTION_ERROR"
                            ("Error executing command: " +:+ exn_msg e) now)]))
  else
    now ← read_datetime os;
    mret [TextError (error_response "INVALID_TOOL" ("Unknown tool: " +:+ name) now)].

End Methods.

End MCPServer.

(** ** The statements of the specification, in its own words *)

Module Spec.
Import Py Models Sys Regex.

(** *** Validation of a request *)

(** A required argument is supplied: it names a key of [args] whose value is
    not empty (empty being what Python's [not] takes for false). *)
Definition supplied (args : gmap string PyVal) (arg : PyVal) : Prop :=
  exists a v, arg = PyStr a /\ args !! a = Some v /\ truthy v = true.

Definition marked_safe (meta : gmap string PyVal) : Prop :=
  truthy (dict_get meta "safe" (PyBool false)) = true.

Definition requires_args (meta : gmap string PyVal) : Prop :=
  truthy (dict_get meta "requires_args" (PyBool false)) = true.

(** The required argument names an entry declares. *)
Definition declares_required (meta : gmap string PyVal) (names : list PyVal) : Prop :=
  CommandRegistry.iterate (dict_get meta "required_args" (PyList [])) = Ok names.

(** The four conditions of a valid request. *)
Definition valid_request (self : CommandRegistry.t) (name : string)
    (args : gmap string PyVal) : Prop :=
  exists meta,
    CommandRegistry.get_command_metadata self name = Some meta /\
    marked_safe meta /\
    (requires_args meta ->
       exists names, declares_required meta names /\ Forall (supplied args) names) /\
    (forall host, args !! "target_host" = Some host -> truthy host = true ->
       isinstance_str host = true).

(** An argument is missing or empty. *)
Definition missing_or_empty (args : gmap string PyVal) (a : string) : Prop :=
  args !! a = None \/ exists v, args !! a = Some v /\ truthy v = false.

(** The validation steps, and the first one a request fails. *)
Inductive ValidationStep :=
| StepInCatalog
| StepSafe
| StepRequiredArgs
| StepTargetHostType.

Definition failed_step (self : CommandRegistry.t) (name : string)
    (args : gmap string PyVal) : option ValidationStep :=
  match CommandRegistry.get_command_metadata self name with
  | None => Some StepInCatalog
  | Some meta =>
      if negb (truthy (dict_get meta "safe" (PyBool false))) then Some StepSafe
      else if truthy (dict_get meta "requires_args" (PyBool false)) &&
              negb (match CommandRegistry.iterate (dict_get meta "required_args" (PyList [])) with
                    | Ok names =>
                        forallb (fun arg =>
                                   match arg with
                                   | PyStr a => match args !! a with
                                                | Some v => truthy v
                                                | None => false
                                                end
                                   | _ => false
                                   end) names
                    | Raise _ => false
                    end)
      then Some StepRequiredArgs
      else match args !! "target_host" with
           | Some host =>
               if truthy host && negb (isinstance_str host) then Some StepTargetHostType
               else None
           | None => None
           end
  end.

(** The [stderr] of a failed dispatch tells which step failed: the step can
    be read off the message. *)
Definition stderr_explains_failed_step (os : Platform) (self : CommandRegistry.t) : Prop :=
  exists explain : string -> option ValidationStep,
    forall name args w r w',
      CommandRegistry.validate_command self name args = Ok false ->
      CommandRegistry.execute_command os self name args w = (Ok r, w') ->
      explain (stderr r) = failed_step self name args.

(** *** Addresses *)

Fixpoint all_chars (p : ascii -> bool) (s : string) : bool :=
  match s with
  | EmptyString => true
  | String c s' => p c && all_chars p s'
  end.

(** The character [c] does not occur in [s]. *)
Definition lacks (c : ascii) (s : string) : bool :=
  all_chars (fun ch => negb (Ascii.eqb ch c)) s.

(** The parts one after the other, nothing between them. *)
Fixpoint flatten (parts : list string) : string :=
  match parts with
  | [] => ""
  | part :: parts' => part +:+ flatten parts'
  end.

(** The number a string of decimal digits writes. *)
Fixpoint decimal_from (acc : Z) (s : string) : Z :=
  match s with
  | EmptyString => acc
  | String c s' => decimal_from (10 * acc + (Z.of_nat (nat_of_ascii c) - 48)) s'
  end.

Definition decimal_value (s : string) : Z := decimal_from 0 s.

(** A group of 1 to 3 decimal digits, and one whose value is in [0,255]. *)
Definition digit_group (g : string) : Prop :=
  1 <= String.length g <= 3 /\ all_chars isdigit g = true.

Definition octet_in_range (g : string) : bool :=
  (0 <=? decimal_value g)%Z && (decimal_value g <=? 255)%Z.

Definition octet (g : string) : Prop :=
  1 <= String.length g <= 3 /\ all_chars isdigit g = true /\
  (0 <= decimal_value g <= 255)%Z.

(** An IPv4 literal: exactly four octets with dots between them. *)
Definition ipv4_literal (s : string) : Prop :=
  exists groups, length groups = 4 /\ Forall octet groups /\ s = String.concat "." groups.

(** A group of 0 to 4 hexadecimal digits. *)
Definition hex_group (g : string) : Prop :=
  String.length g <= 4 /\ all_chars ishex g = true.

(** A permissive IPv6 literal: [lo] to [hi] hexadecimal groups with colons
    between them. *)
Definition ipv6_literal (lo hi : nat) (s : string) : Prop :=
  exists groups, lo <= length groups <= hi /\ Forall hex_group groups /\
                 s = String.concat ":" groups.

Definition ends_with_newline (s : string) : Prop :=
  exists s', s = s' +:+ String "010" "".

(** [_validate_ip_format] accepts exactly the IPv4 literals and the IPv6
    literals of [lo] to 8 groups. *)
Definition accepts_exactly_literals (lo : nat) : Prop :=
  forall ip, NodeToolExecutor._validate_ip_format ip = Ok true <->
             ipv4_literal ip \/ ipv6_literal lo 8 ip.

(** [s] without the newline that ends it, if one does. *)
Definition core (s : string) : string :=
  match chop_newline s with
  | Some s' => s'
  | None => s
  end.

(** Every character class of [r] lies within [q]. *)
Fixpoint alphabet (q : ascii -> bool) (r : regex) : Prop :=
  match r with
  | Class p => forall c, p c = true -> q c = true
  | Seq r1 r2 | Alt r1 r2 => alphabet q r1 /\ alphabet q r2
  | _ => True
  end.

Definition ipv4_char (c : ascii) : bool := isdigit c || Ascii.eqb "." c.

Definition ipv6_char (c : ascii) : bool := ishex c || Ascii.eqb ":" c.

(** *** Execution of a command *)

Section Execution.
Context {C : Type} `{IConfigurationManager C}.
Variable os : Platform.
Variable self : NodeToolExecutor.t C.

(** The declared type of [target_host]: [Optional[str]]. *)
Definition optional_str (v : PyVal) : Prop := v = PyNone \/ exists s, v = PyStr s.

(** No invalid-target-host error: no host is given (the value is false), or
    the host is a valid address. *)
Definition host_passes (target_host : PyVal) : Prop :=
  truthy target_host = false \/
  exists ip, target_host = PyStr ip /\ NodeToolExecutor._validate_ip_format ip = Ok true.

Definition host_rejected (target_host : PyVal) (ip : string) : Prop :=
  target_host = PyStr ip /\ truthy target_host = true /\
  NodeToolExecutor._validate_ip_format ip = Ok false.

(** The argument vector the executor builds, and what spawning it gives. *)
Definition argv (command : string) (target_host : PyVal) : list string :=
  NodeToolExecutor.build_command os self command [] (NodeToolExecutor.host_arg target_host).

Definition spawned (command : string) (target_host : PyVal) : Result Process :=
  create_subprocess_exec os (argv command target_host) (NodeToolExecutor._get_environment os self).

(** The argument vector of the specification: the binary, the host option
    when a host is given, the command. *)
Definition expected_argv (command : string) (target_host : PyVal) : list string :=
  [path_join os (get_cassandra_bin_path (NodeToolExecutor.config_manager self)) "nodetool"] ++
  match target_host with
  | PyStr h => if String.eqb h "" then [] else ["-h"; h]
  | _ => []
  end ++
  [command].

(** The messages of the failure paths. *)
Definition fault_message (e : Exn) : string :=
  match exn_class e with
  | FileNotFoundError => "nodetool executable not found: " +:+ exn_msg e
  | _ => "Unexpected error executing command: " +:+ exn_msg e
  end.

Definition timeout_message : string :=
  "Command timed out after " +:+ pretty (NodeToolExecutor.timeout self) +:+ " seconds".

Definition failed (command : string) (target_host : PyVal) (start_time : Q) (now : Q)
    (ts : datetime) (msg : string) : CommandResult :=
  {| success := false; command := command; stdout := ""; stderr := msg;
     execution_time := (now - start_time)%Q; timestamp := ts; target_host := target_host |}.

(** The process was spawned, finished before the timeout and exited with
    code 0, and the target host was not in error. *)
Definition exited_zero (command : string) (target_host : PyVal) : Prop :=
  host_passes target_host /\
  exists p out err,
    spawned command target_host = Ok p /\
    communicate p (NodeToolExecutor.timeout self) = Ok (out, err) /\
    returncode p = Some 0%Z.

(** The failure paths and the stderr each one reports: invalid address,
    spawn failure, timeout, unexpected fault while waiting, exit code other
    than 0 (the process's own stderr). *)
Inductive failure_cause (command : string) (target_host : PyVal) : string -> Prop :=
| cause_invalid_host ip :
    host_rejected target_host ip ->
    failure_cause command target_host ("Invalid IP format: " +:+ ip)
| cause_spawn e :
    host_passes target_host ->
    spawned command target_host = Raise e ->
    failure_cause command target_host (fault_message e)
| cause_timeout p e :
    host_passes target_host ->
    spawned command target_host = Ok p ->
    communicate p (NodeToolExecutor.timeout self) = Raise e ->
    exn_class e = AsyncioTimeoutError ->
    failure_cause command target_host timeout_message
| cause_fault p e :
    host_passes target_host ->
    spawned command target_host = Ok p ->
    communicate p (NodeToolExecutor.timeout self) = Raise e ->
    exn_class e <> AsyncioTimeoutError ->
    failure_cause command target_host (fault_message e)
| cause_exit_code p out err :
    host_passes target_host ->
    spawned command target_host = Ok p ->
    communicate p (NodeToolExecutor.timeout self) = Ok (out, err) ->
    returncode p <> Some 0%Z ->
    failure_cause command target_host (decode_utf8 os err).

(** On every timeout the process is killed and then waited for. *)
Definition kills_and_waits_on_timeout : Prop :=
  forall command target_host w p e,
    host_passes target_host ->
    spawned command target_host = Ok p ->
    communicate p (NodeToolExecutor.timeout self) = Raise e ->
    exn_class e = AsyncioTimeoutError ->
    exists before,
      journal (snd (NodeToolExecutor.execute_command os self command target_host w)) =
      before ++ [EvKill; EvWait].

(** The registry in front of this executor, with any catalog. *)
Definition system (cmds : odict (gmap string PyVal)) : CommandRegistry.t :=
  {| CommandRegistry.executor := NodeToolExecutor.execute_command os self;
     CommandRegistry._commands := cmds |}.

End Execution.

(** Every spawn among the events has the argument vector [argv]. *)
Definition spawns_only (evs : list Event) (argv : list string) : Prop :=
  forall a env, EvSpawn a env ∈ evs -> a = argv.

(** A run with the echoed target host left out: of the result, and of the
    record of the call to the executor. *)
Definition forget_host (r : CommandResult) : CommandResult :=
  {| success := success r; command := command r; stdout := stdout r; stderr := stderr r;
     execution_time := execution_time r; timestamp := timestamp r; target_host := PyNone |}.

Definition forget_host_event (ev : Event) : Event :=
  match ev with
  | EvExecutor c _ => EvExecutor c PyNone
  | _ => ev
  end.

Definition forget_hosts (run : Result CommandResult * World) : Result CommandResult * World :=
  (match fst run with
   | Ok r => Ok (forget_host r)
   | Raise e => Raise e
   end,
   {| clock_reads := clock_reads (snd run);
      journal := forget_host_event <$> journal (snd run) |}).

(** A dispatch with [target_host] bound to the empty string is in every
    respect the dispatch without [target_host]. *)
Definition empty_host_exactly_as_absent (os : Platform) (reg : CommandRegistry.t) : Prop :=
  forall name args w,
    CommandRegistry.execute_command os reg name (<["target_host" := PyStr ""]> args) w =
    CommandRegistry.execute_command os reg name (delete "target_host" args) w.

(** *** The status listing *)

Section StatusListing.
Import NodeToolExecutor.

(** The character of [s] at index [i] as a string; empty when there is none. *)
Definition char_at (s : string) (i : nat) : string :=
  match String.get i s with
  | Some c => String c ""
  | None => ""
  end.

(** The rack, from the tokens after the sixth: the last of them, or the
    first of them (the seventh token). *)
Definition rack_last (rest : list string) : string := List.last rest "".

Definition rack_seventh (rest : list string) : string := hd "" rest.

(** The node a line of at least 6 tokens gives. *)
Definition node_of_tokens (rack_of : list string -> string) (dc : option string)
    (toks : list string) : option StatusNode :=
  match toks with
  | t0 :: t1 :: t2 :: t3 :: t4 :: t5 :: rest =>
      Some {| status := char_at t0 0; state := char_at t0 1; address := t1; load := t2;
              tokens := t3; owns := t4; host_id := t5; rack := rack_of rest;
              datacenter := dc |}
  | _ => None
  end.

(** The first character is one of U, D, N. *)
Definition is_node_line (line : string) : bool :=
  match line with
  | String c _ => Ascii.eqb c "U" || Ascii.eqb c "D" || Ascii.eqb c "N"
  | EmptyString => false
  end.

(** The datacenter a [Datacenter:] line names: what follows the prefix. *)
Definition after_datacenter (line : string) : string :=
  strip (String.substring 11 (String.length line - 11) line).

(** The nodes of the lines, each line taken without surrounding whitespace,
    under the datacenter in force. *)
Fixpoint status_nodes (rack_of : list string -> string) (dc : option string)
    (lines : list string) : list StatusNode :=
  match lines with
  | [] => []
  | raw :: lines' =>
      let line := strip raw in
      if startswith line "Datacenter:" then
        status_nodes rack_of (Some (after_datacenter line)) lines'
      else if is_node_line line then
        match node_of_tokens rack_of dc (split_ws line) with
        | Some node => node :: status_nodes rack_of dc lines'
        | None => status_nodes rack_of dc lines'
        end
      else status_nodes rack_of dc lines'
  end.

Definition status_report (rack_of : list string -> string) (output : string) : StatusReport :=
  let found := status_nodes rack_of None (split_on "010" (strip output)) in
  {| nodes := found; total_nodes := length found |}.

Definition parses_status_as (rack_of : list string -> string) : Prop :=
  forall output, _parse_status_output output = Ok (status_report rack_of output).

End StatusListing.

(** *** The catalog over time *)

(** The public operations of a registry, and a run of them one after the
    other on a registry and a world. An operation that raises leaves the
    registry as it was. *)
Inductive Op :=
| OpValidate (name : string) (args : gmap string PyVal)
| OpDispatch (name : string) (args : gmap string PyVal)
| OpList
| OpMetadata (name : string)
| OpRegister (name : string) (handler : PyVal).

Definition apply_op (os : Platform) (self : CommandRegistry.t) (op : Op) (w : World)
    : CommandRegistry.t * World :=
  match op with
  | OpValidate name args => (self, w)
  | OpDispatch name args => (self, snd (CommandRegistry.execute_command os self name args w))
  | OpList => (self, w)
  | OpMetadata name => (self, w)
  | OpRegister name handler =>
      match CommandRegistry.register_command self name handler with
      | Ok self' => (self', w)
      | Raise _ => (self, w)
      end
  end.

Fixpoint run_ops (os : Platform) (self : CommandRegistry.t) (ops : list Op) (w : World)
    : CommandRegistry.t * World :=
  match ops with
  | [] => (self, w)
  | op :: ops' => let '(self', w') := apply_op os self op w in run_ops os self' ops' w'
  end.

(** The catalog never changes: after any run of public operations on a
    freshly constructed registry it is what the constructor made it. *)
Definition catalog_immutable (os : Platform)
    (executor : string -> PyVal -> M CommandResult) : Prop :=
  forall ops w,
    CommandRegistry._commands
      (fst (run_ops os (CommandRegistry.__init__ executor) ops w)) =
    CommandRegistry._commands (CommandRegistry.__init__ executor).

(** Every allow-listed name is in the catalog: then no registration adds a
    name. *)
Definition covers_allow_list (self : CommandRegistry.t) : Prop :=
  forall name, name ∈ CommandRegistry.SAFE_COMMANDS ->
               name ∈ CommandRegistry.get_available_commands self.

End Spec.

(** ** Concrete platforms and requests, for the examples *)

Module Demo.
Import Py Models Sys.

(** A child that prints [out] and exits with [rc]. *)
Definition exiting (out : list Byte.byte) (rc : Z) : Process :=
  {| communicate := fun _ => Ok (out, []);
     returncode := Some rc;
     kill := Ok tt;
     wait := Ok tt |}.

(** A child that never finishes; killing it works. *)
Definition hanging : Process :=
  {| communicate := fun _ => Raise (mkExn AsyncioTimeoutError "");
     returncode := None;
     kill := Ok tt;
     wait := Ok tt |}.

(** A child that misses the deadline and is gone when [kill] is called. *)
Definition vanishing : Process :=
  {| communicate := fun _ => Raise (mkExn AsyncioTimeoutError "");
     returncode := None;
     kill := Raise (mkExn (OtherException "ProcessLookupError") "");
     wait := Ok tt |}.

Definition platform_with (p : Result Process) : Platform :=
  {| time_time := fun k => inject_Z (Z.of_nat k);
     datetime_now := fun k => Z.of_nat k;
     environ := {[ "PATH" := "/usr/bin" ]};
     path_join := fun a b => a +:+ "/" +:+ b;
     decode_utf8 := String.string_of_list_byte;
     create_subprocess_exec := fun _ _ => p |}.

Definition os_ok : Platform := platform_with (Ok (exiting [] 0)).
Definition os_hang : Platform := platform_with (Ok hanging).
Definition os_vanish : Platform := platform_with (Ok vanishing).

Definition nodetool : NodeToolExecutor.t Config :=
  NodeToolExecutor.__init__ default_Config None.

(** The registry in front of the nodetool executor. *)
Definition registry (os : Platform) : CommandRegistry.t :=
  CommandRegistry.__init__ (NodeToolExecutor.execute_command os nodetool).

Definition sstables_args : gmap string PyVal :=
  {[ "keyspace" := PyStr "test"; "table" := PyStr "users"; "key" := PyStr "123" ]}.

(** The metadata the constructor gives [getsstables]. *)
Definition getsstables_meta : gmap string PyVal :=
  {[ "description" := PyStr "Get SSTables for a given key";
     "category" := PyStr "extended";
     "requires_args" := PyBool true;
     "safe" := PyBool true;
     "required_args" := CommandRegistry.strs ["keyspace"; "table"; "key"] ]}.

(** The handler of the registry's own test of a successful registration. *)
Definition test_handler : gmap string PyVal :=
  {[ "description" := PyStr "Test command";
     "category" := PyStr "test";
     "requires_args" := PyBool false;
     "safe" := PyBool true ]}.

End Demo.

(** ** What the further properties speak of *)

Module Shape.
Import Py Models Sys Spec.

(** A token: not empty, no whitespace in it. *)
Definition token (t : string) : Prop :=
  t <> "" /\ all_chars (fun c => negb (isspace c)) t = true.

(** An entry of the ring listing: the seven keys, the first six bound to
    tokens and "token" to a token or to the empty string. *)
Definition ring_entry (d : gmap string PyVal) : Prop :=
  exists address rack status state load owns tok,
    d = {[ "address" := PyStr address; "rack" := PyStr rack;
           "status" := PyStr status; "state" := PyStr state;
           "load" := PyStr load; "owns" := PyStr owns;
           "token" := PyStr tok ]} /\
    Forall token [address; rack; status; state; load; owns] /\
    (tok = "" \/ token tok).

(** No line of [lines] binds the key [k]: none is [key:value] with [key],
    cut at the first colon and taken without surrounding whitespace, being
    [k]. *)
Definition no_entry_for (k : string) (lines : list string) : Prop :=
  forall key value,
    (key +:+ String ":" value) ∈ lines -> lacks ":" key = true -> strip key <> k.

Definition blank_or_indented (line : string) : Prop :=
  line = "" \/ startswith line " " = true.

(** [name] is a header among [lines]: a line that is not empty and does not
    start with a space, taken without surrounding whitespace. *)
Definition header_of (lines : list string) (name : string) : Prop :=
  exists line, line ∈ lines /\ line <> "" /\ startswith line " " = false /\
               name = strip line.

(** A section of the netstats listing: its name is a header that is not
    empty once stripped, its body is made of blank or indented lines. *)
Definition netstats_section (lines : list string) (name body : string) : Prop :=
  name <> "" /\ strip name = name /\ header_of lines name /\
  Forall blank_or_indented (split_on "010" body).

(** What the loop of [_parse_netstats_output] keeps true of its variables. *)
Record netstats_inv (lines : list string) (vars : NodeToolExecutor.NetstatsVars) : Prop := {
  inv_sections : forall k v, NodeToolExecutor.sections vars !! k = Some v ->
                             netstats_section lines k v;
  inv_current : forall name, NodeToolExecutor.current_section vars = Some name ->
                             strip name = name /\ header_of lines name;
  inv_lack : Forall (fun p => lacks "010" p = true) (NodeToolExecutor.section_content vars);
  inv_content : Forall blank_or_indented (NodeToolExecutor.section_content vars)
}.

(** The health check's node and the executor's node of the same line: the
    same address, status letter, load and datacenter; the state "?" where the
    executor's is empty; a rack exactly when the executor's has one. *)
Definition same_node (h : HealthCheck.NodeStatus) (n : NodeToolExecutor.StatusNode) : Prop :=
  HealthCheck.address h = NodeToolExecutor.address n /\
  HealthCheck.status h = NodeToolExecutor.status n /\
  HealthCheck.load h = NodeToolExecutor.load n /\
  HealthCheck.datacenter h = NodeToolExecutor.datacenter n /\
  HealthCheck.state h =
    (if String.eqb (NodeToolExecutor.state n) "" then "?" else NodeToolExecutor.state n) /\
  (HealthCheck.rack h = None <-> NodeToolExecutor.rack n = "").

(** The status letter is one of those a node line starts with. *)
Definition status_letter (h : HealthCheck.NodeStatus) : Prop :=
  HealthCheck.status h = "U" \/ HealthCheck.status h = "D" \/ HealthCheck.status h = "N".

(** The key of a tool call, and a key that opens the door: a string that is
    not empty and is one of the manager's keys. *)
Definition api_key_of (arguments : gmap string PyVal) : PyVal :=
  dict_get arguments "api_key" PyNone.

Definition valid_key (self : AuthenticationManager.t) (api_key : PyVal) : Prop :=
  exists key, api_key = PyStr key /\ key <> "" /\ key ∈ AuthenticationManager._api_keys self.

(** The answer of a call that is turned away: one error text, stamped with
    the second clock reading of the call (the first goes to the log record of
    the authentication attempt), and nothing journalled. *)
Definition error_reply (os : Platform) (code message : string) (w : World)
    : Result (list Responses.TextContent) * World :=
  (Ok [Responses.TextError
         (Responses.error_response code message (datetime_now os (S (clock_reads w))))],
   {| clock_reads := S (S (clock_reads w)); journal := journal w |}).

(** A server as [Application.initialize] of [src/main.py] assembles it
    around an executor and an authentication manager: the registry is
    constructed on the executor. *)
Definition assembled {C} `{IConfigurationManager C} (os : Platform)
    (nodetool : NodeToolExecutor.t C) (auth : AuthenticationManager.t) : MCPServer.t :=
  {| MCPServer.command_registry :=
       CommandRegistry.__init__ (NodeToolExecutor.execute_command os nodetool);
     MCPServer.auth_manager := auth |}.

(** The command has metadata that is not the empty dict. *)
Definition has_metadata (registry : CommandRegistry.t) (cmd : string) : bool :=
  match CommandRegistry.get_command_metadata registry cmd with
  | Some metadata => truthy (PyDict metadata)
  | None => false
  end.

(** The schema describes the key [k]: it has a property under a key equal
    to [k]. *)
Definition described (schema : MCPTool.InputSchema) (k : PyVal) : Prop :=
  exists k' p, (k', p) ∈ MCPTool.properties schema /\ key_eqb k' k = true.

End Shape.

(** ** Concrete handlers, keys and servers, for the examples *)

Module Samples.
Import Py Models Sys.

(** A handler without the "safe" attribute. *)
Definition unmarked_handler : gmap string PyVal :=
  {[ "description" := PyStr "Get cluster status"; "category" := PyStr "monitoring" ]}.

(** The first node line of the status listings in
    [tests/test_nodetool_executor.py] and [tests/test_health_check.py], and
    the listing of its datacenter line and that node line. *)
Definition node_line : string :=
  "UN  127.0.0.1  100 KB     256     100%    abc123                                rack1".

Definition status_listing : string :=
  "Datacenter: datacenter1" +:+ String "010" node_line.

(** A handler whose required arguments are a number. *)
Definition numbered_handler : gmap string PyVal :=
  {[ "safe" := PyBool true; "requires_args" := PyBool true; "required_args" := PyInt 3 ]}.

(** The configuration of [tests/test_mcp_server.py]: two keys. *)
Definition keyed_config : Config :=
  {| java_home := "/opt/jdk/"; cassandra_bin_path := "/usr/local/cassandra/bin";
     api_keys := ["test-key-123"; "test-key-456"]; log_level := "INFO";
     log_file := "cassandra-mcp.log"; max_log_size := 10485760;
     health_check_interval := 30 |}.

Definition auth : AuthenticationManager.t := AuthenticationManager.__init__ keyed_config.

Definition server (os : Platform) : MCPServer.t := Shape.assembled os Demo.nodetool auth.

Definition with_key : gmap string PyVal := {[ "api_key" := PyStr "test-key-123" ]}.

(** The tools of a server on the constructed registry. *)
Definition tools : list MCPTool.t :=
  match MCPServer._initialize_tools (Demo.registry Demo.os_ok) with
  | Ok tools => tools
  | Raise _ => []
  end.

(** The tool of [getsstables]. *)
Definition sstables_tool : MCPTool.t :=
  {| MCPTool.name := "cassandra_getsstables";
     MCPTool.description := PyStr "Get SSTables for a given key";
     MCPTool.input_schema :=
       {| MCPTool.schema_type := "object";
          MCPTool.properties :=
            [(PyStr "target_host",
              {| MCPTool.property_type := "string";
                 MCPTool.property_description := "Optional target Cassandra node IP address" |});
             (PyStr "keyspace",
              {| MCPTool.property_type := "string";
                 MCPTool.property_description := "Required argument: keyspace" |});
             (PyStr "table",
              {| MCPTool.property_type := "string";
                 MCPTool.property_description := "Required argument: table" |});
             (PyStr "key",
              {| MCPTool.property_type := "string";
                 MCPTool.property_description := "Required argument: key" |})];
          MCPTool.required := [PyStr "keyspace"; PyStr "table"; PyStr "key"] |} |}.

End Samples.

(** * Properties *)

Import Py Models Sys Regex Spec.

(** ** Helper lemmas: Python builtins *)

Lemma all_of_true {A} (f : A -> Result bool) (l : list A) :
  all_of f l = Ok true <-> Forall (fun x => f x = Ok true) l.
Proof.
  induction l as [|x l IH]; simpl.
  - split; [constructor | reflexivity].
  - destruct (f x) as [[|]|e] eqn:Hx.
    + rewrite IH. split.
      * intros Hl. constructor; assumption.
      * intros Hl. inversion Hl; assumption.
    + split; [discriminate | intros Hl; inversion Hl; congruence].
    + split; [discriminate | intros Hl; inversion Hl; congruence].
Qed.

Lemma all_of_forallb {A} (f : A -> Result bool) (g : A -> bool) (l : list A) :
  (forall x, f x = Ok (g x)) -> all_of f l = Ok (forallb g l).
Proof.
  intros Hfg. induction l as [|x l IH]; simpl; [reflexivity|].
  rewrite Hfg. destruct (g x); simpl; [exact IH | reflexivity].
Qed.

Lemma odict_get_set_eq {V} (d : odict V) (k : string) (v : V) :
  odict_get (odict_set d k v) k = Some v.
Proof.
  induction d as [|[k' v'] d IH]; simpl.
  - rewrite String.eqb_refl. reflexivity.
  - destruct (String.eqb k' k) eqn:E; simpl; rewrite E; [reflexivity | exact IH].
Qed.

Lemma odict_get_set_ne {V} (d : odict V) (k k' : string) (v : V) :
  k <> k' -> odict_get (odict_set d k v) k' = odict_get d k'.
Proof.
  intros Hne. induction d as [|[k0 v0] d IH]; simpl.
  - destruct (String.eqb k k') eqn:E; [apply String.eqb_eq in E; contradiction | reflexivity].
  - destruct (String.eqb k0 k) eqn:E; simpl.
    + apply String.eqb_eq in E. subst k0.
      destruct (String.eqb k k') eqn:E'; [apply String.eqb_eq in E'; contradiction | reflexivity].
    + destruct (String.eqb k0 k'); [reflexivity | exact IH].
Qed.

Lemma odict_get_None_keys {V} (d : odict V) (k : string) :
  odict_get d k = None <-> k ∉ odict_keys d.
Proof.
  induction d as [|[k' v'] d IH]; simpl.
  - split; [intros _; apply not_elem_of_nil | reflexivity].
  - destruct (String.eqb k' k) eqn:E.
    + apply String.eqb_eq in E. subst k'. split; [discriminate|].
      intros Hn. exfalso. apply Hn. apply list_elem_of_here.
    + apply String.eqb_neq in E. rewrite IH. split.
      * intros Hn Hin. apply elem_of_cons in Hin as [->|Hin]; [congruence | auto].
      * intros Hn Hin. apply Hn. apply list_elem_of_further. exact Hin.
Qed.

Lemma odict_keys_set_present {V} (d : odict V) (k : string) (v : V) :
  k ∈ odict_keys d -> odict_keys (odict_set d k v) = odict_keys d.
Proof.
  induction d as [|[k' v'] d IH]; simpl.
  - intros Hin. apply elem_of_nil in Hin. contradiction.
  - intros Hin. destruct (String.eqb k' k) eqn:E; simpl; [reflexivity|].
    apply String.eqb_neq in E. f_equal. apply IH.
    apply elem_of_cons in Hin as [->|Hin]; [congruence | exact Hin].
Qed.

(** ** The command registry: validation *)

Lemma has_argument_supplied (args : gmap string PyVal) (arg : PyVal) :
  CommandRegistry.has_argument args arg = Ok true <-> Spec.supplied args arg.
Proof.
  unfold Spec.supplied. split.
  - destruct arg as [| | |a| |]; simpl; try discriminate.
    destruct (args !! a) as [v|] eqn:Hv; [|discriminate].
    intros [= Ht]. exists a, v. auto.
  - intros (a & v & -> & Hv & Ht). simpl. rewrite Hv, Ht. reflexivity.
Qed.

Lemma required_check_true (meta args : gmap string PyVal) :
  (required_args ← CommandRegistry.iterate (dict_get meta "required_args" (PyList []));
   all_of (CommandRegistry.has_argument args) required_args) = Ok true <->
  exists names, Spec.declares_required meta names /\ Forall (Spec.supplied args) names.
Proof.
  unfold Spec.declares_required, mbind, Result_bind, rbind.
  destruct (CommandRegistry.iterate _) as [names|e].
  - rewrite all_of_true. split.
    + intros Hall. exists names. split; [reflexivity|].
      eapply Forall_impl; [exact Hall|]. intros x. apply has_argument_supplied.
    + intros (names' & [= <-] & Hall).
      eapply Forall_impl; [exact Hall|]. intros x. apply has_argument_supplied.
  - split; [discriminate | intros (names & Hn & _); discriminate].
Qed.

Lemma target_host_check (args : gmap string PyVal) :
  match args !! "target_host" with
  | Some host => if truthy host && negb (isinstance_str host) then Ok false else Ok true
  | None => Ok true
  end = Ok true <->
  (forall host, args !! "target_host" = Some host -> truthy host = true ->
     isinstance_str host = true).
Proof.
  destruct (args !! "target_host") as [host|].
  - destruct (truthy host) eqn:Ht, (isinstance_str host) eqn:Hs; simpl; split;
      try discriminate; try reflexivity.
    + intros _ h [= <-] _. exact Hs.
    + intros Hh. specialize (Hh host eq_refl Ht). congruence.
    + intros _ h [= <-] Hth. congruence.
    + intros _ h [= <-] Hth. congruence.
  - split; [intros _ h; discriminate | reflexivity].
Qed.

Lemma validate_command_true_iff (self : CommandRegistry.t) (name : string)
    (args : gmap string PyVal) :
  CommandRegistry.validate_command self name args = Ok true <->
  Spec.valid_request self name args.
Proof.
  unfold CommandRegistry.validate_command, Spec.valid_request,
    CommandRegistry.get_command_metadata, Spec.marked_safe, Spec.requires_args.
  destruct (odict_get _ name) as [meta|].
  2:{ split; [discriminate | intros (meta & Hm & _); discriminate]. }
  destruct (truthy (dict_get meta "safe" (PyBool false))) eqn:Hsafe; simpl.
  2:{ split; [discriminate | intros (m & [= <-] & Hs & _); congruence]. }
  destruct (truthy (dict_get meta "requires_args" (PyBool false))) eqn:Hreq.
  - pose proof (required_check_true meta args) as Hchk.
    destruct (_ ← CommandRegistry.iterate _; all_of _ _) as [[|]|e] eqn:Hrun.
    + simpl. rewrite target_host_check. split.
      * intros Hhost. exists meta. repeat split; try assumption.
        intros _. apply Hchk. reflexivity.
      * intros (m & [= <-] & _ & _ & Hhost). exact Hhost.
    + simpl. split; [discriminate|].
      intros (m & [= <-] & _ & Hr & _). specialize (Hr Hreq).
      apply Hchk in Hr. discriminate.
    + simpl. split; [discriminate|].
      intros (m & [= <-] & _ & Hr & _). specialize (Hr Hreq).
      apply Hchk in Hr. discriminate.
  - simpl. rewrite target_host_check. split.
    + intros Hhost. exists meta. repeat split; try assumption. congruence.
    + intros (m & [= <-] & _ & _ & Hhost). exact Hhost.
Qed.

Lemma init_getsstables exec :
  odict_get (CommandRegistry._commands (CommandRegistry.__init__ exec)) "getsstables"
  = Some Demo.getsstables_meta.
Proof. reflexivity. Qed.

Lemma validate_getsstables exec (args : gmap string PyVal) :
  CommandRegistry.validate_command (CommandRegistry.__init__ exec) "getsstables" args =
  if forallb (fun a => match args !! a with Some v => truthy v | None => false end)
             ["keyspace"; "table"; "key"]
  then match args !! "target_host" with
       | Some host => if truthy host && negb (isinstance_str host) then Ok false else Ok true
       | None => Ok true
       end
  else Ok false.
Proof.
  unfold CommandRegistry.validate_command. rewrite init_getsstables.
  change (dict_get Demo.getsstables_meta "safe" (PyBool false)) with (PyBool true).
  change (dict_get Demo.getsstables_meta "requires_args" (PyBool false)) with (PyBool true).
  change (dict_get Demo.getsstables_meta "required_args" (PyList []))
    with (CommandRegistry.strs ["keyspace"; "table"; "key"]).
  simpl.
  destruct (args !! "keyspace") as [v1|]; [destruct (truthy v1)|]; simpl; try reflexivity.
  destruct (args !! "table") as [v2|]; [destruct (truthy v2)|]; simpl; try reflexivity.
  destruct (args !! "key") as [v3|]; [destruct (truthy v3)|]; simpl; reflexivity.
Qed.

(** C2. [validate_command] answers true exactly when the name is in the
    catalog, the entry is marked safe, every required argument the entry
    declares (when it requires arguments) is in [args] with a non-empty value,
    and a [target_host] that is present and non-empty is a string. For
    [getsstables], whose required arguments are keyspace, table and key, a
    missing or empty one of them makes it answer false. *)
Theorem validate_command_valid_request :
  (forall self name args,
     CommandRegistry.validate_command self name args = Ok true <->
     Spec.valid_request self name args) /\
  (forall exec args a,
     a ∈ ["keyspace"; "table"; "key"] ->
     Spec.missing_or_empty args a ->
     CommandRegistry.validate_command (CommandRegistry.__init__ exec) "getsstables" args
     = Ok false).
Proof.
  split; [apply validate_command_true_iff|].
  intros exec args a Ha Hmiss. rewrite validate_getsstables.
  assert (Hlook : match args !! a with Some v => truthy v | None => false end = false).
  { destruct Hmiss as [-> | (v & -> & Hv)]; [reflexivity | exact Hv]. }
  repeat (apply elem_of_cons in Ha as [-> | Ha]);
    [ | | | apply elem_of_nil in Ha; contradiction ]; simpl; rewrite Hlook; simpl.
  - reflexivity.
  - destruct (match args !! "keyspace" with Some v => truthy v | None => false end); reflexivity.
  - destruct (match args !! "keyspace" with Some v => truthy v | None => false end),
      (match args !! "table" with Some v => truthy v | None => false end); reflexivity.
Qed.

Lemma validate_command_valid_request_witness :
  CommandRegistry.validate_command
    (CommandRegistry.__init__ (fun _ _ => lift (Raise (mkExn ValueError ""))))
    "getsstables" (delete "key" Demo.sstables_args) = Ok false.
Proof.
  apply (proj2 validate_command_valid_request _ _ "key").
  - apply (bool_decide_unpack _). vm_compute. exact I.
  - left. reflexivity.
Defined.

(** ** The command registry: dispatch of a request that fails validation *)

Lemma validate_command_unknown (self : CommandRegistry.t) (name : string)
    (args : gmap string PyVal) :
  name ∉ CommandRegistry.get_available_commands self ->
  CommandRegistry.validate_command self name args = Ok false.
Proof.
  unfold CommandRegistry.get_available_commands, CommandRegistry.validate_command.
  intros Hn. apply odict_get_None_keys in Hn. rewrite Hn. reflexivity.
Qed.

Lemma execute_command_invalid (os : Platform) (self : CommandRegistry.t) (name : string)
    (args : gmap string PyVal) (w : World) :
  CommandRegistry.validate_command self name args = Ok false ->
  CommandRegistry.execute_command os self name args w =
  (Ok {| success := false; command := name; stdout := "";
         stderr := "Command validation failed for '" +:+ name +:+ "'";
         execution_time := 0%Q;
         timestamp := datetime_now os (clock_reads w);
         target_host := dict_get args "target_host" PyNone |},
   {| clock_reads := S (clock_reads w); journal := journal w |}).
Proof.
  intros Hv. unfold CommandRegistry.execute_command, mbind, M_bind, lift.
  rewrite Hv. reflexivity.
Qed.

(** C1, as amended. A request that fails validation (as every request for a
    name that is not in the catalog does) is answered on the spot: success is
    false, stdout is empty, stderr is "Command validation failed for '<name>'"
    (it names the command, not the step that failed), the execution time is
    0, and nothing is journalled: the executor is not called and no process is
    spawned. *)
Theorem execute_command_validation_failure :
  (forall self name args,
     name ∉ CommandRegistry.get_available_commands self ->
     CommandRegistry.validate_command self name args = Ok false) /\
  (forall os self name args w,
     CommandRegistry.validate_command self name args = Ok false ->
     exists r w',
       CommandRegistry.execute_command os self name args w = (Ok r, w') /\
       success r = false /\
       stdout r = "" /\
       stderr r = "Command validation failed for '" +:+ name +:+ "'" /\
       execution_time r = 0%Q /\
       journal w' = journal w).
Proof.
  split; [apply validate_command_unknown|].
  intros os self name args w Hv. eexists _, _.
  split; [apply execute_command_invalid; exact Hv|]. simpl. auto.
Qed.

Lemma execute_command_validation_failure_witness :
  exists r w',
    CommandRegistry.execute_command Demo.os_ok (Demo.registry Demo.os_ok)
      "drain" ∅ initial_World = (Ok r, w') /\
    success r = false /\
    stdout r = "" /\
    stderr r = "Command validation failed for 'drain'" /\
    execution_time r = 0%Q /\
    journal w' = [].
Proof.
  apply (proj2 execute_command_validation_failure Demo.os_ok _ "drain" ∅ initial_World).
  apply (proj1 execute_command_validation_failure).
  apply (bool_decide_unpack _). vm_compute. exact I.
Defined.

(** C1, as stated, fails: the stderr of a failed dispatch does not tell which
    validation step failed. A [getsstables] request without arguments and one
    whose [target_host] is a number fail at different steps and get the same
    message. *)
Lemma stderr_does_not_explain_failed_step :
  ~ Spec.stderr_explains_failed_step Demo.os_ok (Demo.registry Demo.os_ok).
Proof.
  intros [explain Hex].
  pose (bad_host := <["target_host" := PyInt 123]> Demo.sstables_args).
  assert (H1 : CommandRegistry.validate_command (Demo.registry Demo.os_ok)
                 "getsstables" ∅ = Ok false) by reflexivity.
  assert (H2 : CommandRegistry.validate_command (Demo.registry Demo.os_ok)
                 "getsstables" bad_host = Ok false) by (vm_compute; reflexivity).
  pose proof (Hex _ _ initial_World _ _ H1
                (execute_command_invalid Demo.os_ok _ _ _ _ H1)) as E1.
  pose proof (Hex _ _ initial_World _ _ H2
                (execute_command_invalid Demo.os_ok _ _ _ _ H2)) as E2.
  simpl stderr in E1, E2. rewrite E1 in E2.
  vm_compute in E2. discriminate E2.
Qed.

(** ** The command registry: registration and the catalog over time *)

Lemma init_available_commands exec :
  CommandRegistry.get_available_commands (CommandRegistry.__init__ exec) =
  ["status"; "ring"; "info"; "netstats"; "repair"; "snapshot"; "cleanup"; "compact";
   "getsstables"; "getcompactionthroughput"; "getconcurrentcompactors"].
Proof. reflexivity. Qed.

Lemma init_available_safe exec (name : string) :
  name ∈ CommandRegistry.SAFE_COMMANDS <->
  name ∈ CommandRegistry.get_available_commands (CommandRegistry.__init__ exec).
Proof.
  rewrite init_available_commands. unfold CommandRegistry.SAFE_COMMANDS.
  rewrite !elem_of_union, !elem_of_singleton, !elem_of_cons, elem_of_nil. tauto.
Qed.

Lemma register_command_rejected (self : CommandRegistry.t) (name : string) (handler : PyVal) :
  name ∉ CommandRegistry.SAFE_COMMANDS \/ isinstance_dict handler = false ->
  exists e, CommandRegistry.register_command self name handler = Raise e /\
            exn_class e = ValueError.
Proof.
  intros Hrej. unfold CommandRegistry.register_command.
  destruct handler as [| | | | |meta]; try (eexists; split; reflexivity).
  destruct Hrej as [Hn | Hd]; [|discriminate].
  rewrite bool_decide_eq_false_2 by exact Hn. simpl. eexists; split; reflexivity.
Qed.

Lemma register_command_accepted (self : CommandRegistry.t) (name : string)
    (meta : gmap string PyVal) :
  name ∈ CommandRegistry.SAFE_COMMANDS ->
  CommandRegistry.register_command self name (PyDict meta) =
  Ok {| CommandRegistry.executor := CommandRegistry.executor self;
        CommandRegistry._commands := odict_set (CommandRegistry._commands self) name meta |}.
Proof.
  intros Hs. unfold CommandRegistry.register_command.
  rewrite bool_decide_eq_true_2 by exact Hs. reflexivity.
Qed.

Lemma step_available_commands (os : Platform) (self : CommandRegistry.t)
    (op : Op) (w : World) :
  Spec.covers_allow_list self ->
  CommandRegistry.get_available_commands (fst (apply_op os self op w)) =
  CommandRegistry.get_available_commands self.
Proof.
  intros Hcov. destruct op as [name args|name args| |name|name handler]; try reflexivity.
  simpl. destruct (CommandRegistry.register_command self name handler) as [self'|e] eqn:Hreg;
    [|reflexivity].
  unfold CommandRegistry.register_command in Hreg.
  destruct handler as [| | | | |meta]; try discriminate.
  destruct (bool_decide (name ∈ CommandRegistry.SAFE_COMMANDS)) eqn:Hs; [|discriminate].
  apply bool_decide_eq_true_1 in Hs. simpl in Hreg. injection Hreg as <-.
  unfold CommandRegistry.get_available_commands. simpl.
  apply odict_keys_set_present. apply Hcov. exact Hs.
Qed.

Lemma run_available_commands (os : Platform) (ops : list Op) :
  forall (self : CommandRegistry.t) (w : World),
    Spec.covers_allow_list self ->
    CommandRegistry.get_available_commands (fst (run_ops os self ops w)) =
    CommandRegistry.get_available_commands self.
Proof.
  induction ops as [|op ops IH]; intros self w Hcov; [reflexivity|].
  simpl. pose proof (step_available_commands os self op w Hcov) as Hstep.
  destruct (apply_op os self op w) as [self' w']. simpl in Hstep.
  rewrite IH.
  - exact Hstep.
  - intros name Hs. rewrite Hstep. apply Hcov. exact Hs.
Qed.

Lemma run_init_available_commands (os : Platform) exec (ops : list Op)
    (w : World) :
  CommandRegistry.get_available_commands
    (fst (run_ops os (CommandRegistry.__init__ exec) ops w)) =
  CommandRegistry.get_available_commands (CommandRegistry.__init__ exec).
Proof.
  apply run_available_commands. intros name Hs. apply init_available_safe. exact Hs.
Qed.

(** C8. Registering a name that is not in [SAFE_COMMANDS] raises [ValueError]
    whatever the handler, so the catalog stays as it was; and whatever public
    operations follow a construction, such a name has no catalog entry and
    fails validation: registration never makes it dispatchable. *)
Theorem register_command_outside_allow_list :
  (forall self name handler,
     name ∉ CommandRegistry.SAFE_COMMANDS ->
     (exists e, CommandRegistry.register_command self name handler = Raise e /\
                exn_class e = ValueError) /\
     forall os w, fst (apply_op os self (OpRegister name handler) w)
                  = self) /\
  (forall os exec ops w name args,
     name ∉ CommandRegistry.SAFE_COMMANDS ->
     let self' := fst (run_ops os (CommandRegistry.__init__ exec) ops w) in
     CommandRegistry.get_command_metadata self' name = None /\
     CommandRegistry.validate_command self' name args = Ok false).
Proof.
  split.
  - intros self name handler Hn.
    destruct (register_command_rejected self name handler (or_introl Hn)) as (e & He & Hc).
    split; [exists e; auto|]. intros os w. simpl. rewrite He. reflexivity.
  - intros os exec ops w name args Hn self'.
    assert (Hout : name ∉ CommandRegistry.get_available_commands self').
    { unfold self'. rewrite run_init_available_commands.
      intros Hin. apply Hn. apply (init_available_safe exec). exact Hin. }
    split.
    + apply odict_get_None_keys. exact Hout.
    + apply validate_command_unknown. exact Hout.
Qed.

Lemma register_command_outside_allow_list_witness :
  (exists e, CommandRegistry.register_command (Demo.registry Demo.os_ok)
               "dangerous_command" (PyDict Demo.test_handler) = Raise e /\
             exn_class e = ValueError) /\
  forall os w, fst (apply_op os (Demo.registry Demo.os_ok)
                      (OpRegister "dangerous_command"
                         (PyDict Demo.test_handler)) w)
               = Demo.registry Demo.os_ok.
Proof.
  apply (proj1 register_command_outside_allow_list).
  apply (bool_decide_unpack _). vm_compute. exact I.
Defined.

(** C9, as stated, fails: registering [status] again, as the registry's own
    test does, replaces the attributes of that entry. *)
Lemma catalog_is_not_immutable :
  ~ Spec.catalog_immutable Demo.os_ok (NodeToolExecutor.execute_command Demo.os_ok Demo.nodetool).
Proof.
  intros Himm.
  specialize (Himm [OpRegister "status" (PyDict Demo.test_handler)]
                initial_World).
  apply (f_equal (fun cmds => odict_get cmds "status")) in Himm.
  apply (f_equal (fun meta => (fun m : gmap string PyVal => m !! "category") <$> meta)) in Himm.
  vm_compute in Himm. discriminate Himm.
Qed.

(** C9, as amended. After construction the names of the catalog, and their
    order, stay as constructed under every run of public operations.
    Validation, dispatch, listing, metadata lookup and a rejected registration
    (a name outside [SAFE_COMMANDS] or a handler that is not a dict) leave the
    whole registry as it was. A registration of an allow-listed name with a
    dict handler replaces the attributes of that one entry by the handler and
    leaves every other entry as it was. *)
Theorem catalog_after_operations :
  (forall os exec ops w,
     CommandRegistry.get_available_commands
       (fst (run_ops os (CommandRegistry.__init__ exec) ops w)) =
     CommandRegistry.get_available_commands (CommandRegistry.__init__ exec)) /\
  (forall os self op w,
     (forall name handler, op <> OpRegister name handler) ->
     fst (apply_op os self op w) = self) /\
  (forall os self name handler w,
     name ∉ CommandRegistry.SAFE_COMMANDS \/ isinstance_dict handler = false ->
     fst (apply_op os self (OpRegister name handler) w) = self) /\
  (forall os self name meta w,
     name ∈ CommandRegistry.SAFE_COMMANDS ->
     let self' := fst (apply_op os self
                         (OpRegister name (PyDict meta)) w) in
     CommandRegistry.get_command_metadata self' name = Some meta /\
     forall other, other <> name ->
       CommandRegistry.get_command_metadata self' other =
       CommandRegistry.get_command_metadata self other).
Proof.
  split; [apply run_init_available_commands|]. split; [|split].
  - intros os self op w Hop.
    destruct op as [name args|name args| |name|name handler]; try reflexivity.
    exfalso. apply (Hop name handler). reflexivity.
  - intros os self name handler w Hrej.
    destruct (register_command_rejected self name handler Hrej) as (e & He & _).
    simpl. rewrite He. reflexivity.
  - intros os self name meta w Hs self'. unfold self', apply_op.
    rewrite register_command_accepted by exact Hs. simpl.
    unfold CommandRegistry.get_command_metadata. simpl. split.
    + apply odict_get_set_eq.
    + intros other Hne. apply odict_get_set_ne. congruence.
Qed.

Lemma catalog_after_operations_witness :
  let self' := fst (apply_op Demo.os_ok (Demo.registry Demo.os_ok)
                      (OpRegister "status" (PyDict Demo.test_handler))
                      initial_World) in
  CommandRegistry.get_command_metadata self' "status" = Some Demo.test_handler /\
  forall other, other <> "status" ->
    CommandRegistry.get_command_metadata self' other =
    CommandRegistry.get_command_metadata (Demo.registry Demo.os_ok) other.
Proof.
  apply (proj2 (proj2 (proj2 catalog_after_operations))).
  apply (bool_decide_unpack _). vm_compute. exact I.
Defined.

(** ** Helper lemmas: strings *)

Lemma str_app_cons (c : ascii) (s1 s2 : string) : String c s1 +:+ s2 = String c (s1 +:+ s2).
Proof. reflexivity. Qed.

Lemma str_app_nil_l (s : string) : "" +:+ s = s.
Proof. reflexivity. Qed.

Lemma str_app_nil_r (s : string) : s +:+ "" = s.
Proof. induction s as [|c s IH]; [reflexivity|]. rewrite str_app_cons, IH. reflexivity. Qed.

Lemma str_app_assoc (s1 s2 s3 : string) : (s1 +:+ s2) +:+ s3 = s1 +:+ (s2 +:+ s3).
Proof. induction s1 as [|c s1 IH]; [reflexivity|]. rewrite !str_app_cons, IH. reflexivity. Qed.

Lemma str_app_eq_nil (s1 s2 : string) : s1 +:+ s2 = "" -> s1 = "" /\ s2 = "".
Proof. destruct s1; [auto|discriminate]. Qed.

Lemma str_app_eq_cons (s1 s2 : string) (c : ascii) (s : string) :
  s1 +:+ s2 = String c s ->
  (s1 = "" /\ s2 = String c s) \/ exists s1', s1 = String c s1' /\ s = s1' +:+ s2.
Proof.
  destruct s1 as [|c1 s1]; [left; auto|].
  rewrite str_app_cons. intros [= -> <-]. right. eauto.
Qed.

(** ** Regular expressions: the matcher decides the language *)

Lemma lang_void_inv (s : string) : lang Void s -> False.
Proof. intros H. inversion H. Qed.

Lemma lang_eps_inv (s : string) : lang Eps s -> s = "".
Proof. intros H. inversion H. reflexivity. Qed.

Lemma lang_class_inv p (s : string) :
  lang (Class p) s -> exists c, s = String c "" /\ p c = true.
Proof. intros H. inversion H; subst. eauto. Qed.

Lemma lang_seq_inv r1 r2 (s : string) :
  lang (Seq r1 r2) s -> exists s1 s2, s = s1 +:+ s2 /\ lang r1 s1 /\ lang r2 s2.
Proof. intros H. inversion H; subst. eauto. Qed.

Lemma lang_alt_inv r1 r2 (s : string) : lang (Alt r1 r2) s -> lang r1 s \/ lang r2 s.
Proof. intros H. inversion H; subst; auto. Qed.

Lemma nullable_lang (r : regex) : nullable r = true <-> lang r "".
Proof.
  induction r as [| |p|r1 IH1 r2 IH2|r1 IH1 r2 IH2]; simpl.
  - split; [discriminate | intros H; destruct (lang_void_inv _ H)].
  - split; [constructor | reflexivity].
  - split; [discriminate|]. intros H. apply lang_class_inv in H as (c & Hc & _). discriminate.
  - rewrite andb_true_iff, IH1, IH2. split.
    + intros [H1 H2]. change "" with ("" +:+ ""). constructor; assumption.
    + intros H. apply lang_seq_inv in H as (s1 & s2 & Hs & H1 & H2).
      symmetry in Hs. apply str_app_eq_nil in Hs as [-> ->]. auto.
  - rewrite orb_true_iff, IH1, IH2. split.
    + intros [H|H]; [apply lang_alt_l | apply lang_alt_r]; assumption.
    + apply lang_alt_inv.
Qed.

Lemma deriv_lang (r : regex) : forall (c : ascii) (s : string),
  lang (deriv c r) s <-> lang r (String c s).
Proof.
  induction r as [| |p|r1 IH1 r2 IH2|r1 IH1 r2 IH2]; intros c s; simpl.
  - split; intros H; destruct (lang_void_inv _ H).
  - split; intros H; [destruct (lang_void_inv _ H)|]. apply lang_eps_inv in H. discriminate.
  - destruct (p c) eqn:Hp; split; intros H.
    + apply lang_eps_inv in H as ->. constructor. exact Hp.
    + apply lang_class_inv in H as (c' & [= <- ->] & _). constructor.
    + destruct (lang_void_inv _ H).
    + apply lang_class_inv in H as (c' & [= <- ->] & Hc). congruence.
  - assert (Hseq : lang (Seq (deriv c r1) r2) s <->
                   exists s1 s2, s = s1 +:+ s2 /\ lang r1 (String c s1) /\ lang r2 s2).
    { split.
      - intros H. apply lang_seq_inv in H as (s1 & s2 & -> & H1 & H2).
        exists s1, s2. rewrite <- IH1. auto.
      - intros (s1 & s2 & -> & H1 & H2). constructor; [apply IH1|]; assumption. }
    assert (Hgoal : lang (Seq r1 r2) (String c s) <->
                    (exists s1 s2, s = s1 +:+ s2 /\ lang r1 (String c s1) /\ lang r2 s2) \/
                    (lang r1 "" /\ lang r2 (String c s))).
    { split.
      - intros H. apply lang_seq_inv in H as (s1 & s2 & Hs & H1 & H2).
        symmetry in Hs.
        apply str_app_eq_cons in Hs as [[-> ->] | (s1' & -> & ->)]; [right; auto|].
        left. eauto.
      - intros [(s1 & s2 & -> & H1 & H2) | [H1 H2]].
        + rewrite <- str_app_cons. constructor; assumption.
        + change (String c s) with ("" +:+ String c s). constructor; assumption. }
    rewrite Hgoal. destruct (nullable r1) eqn:Hn.
    + apply nullable_lang in Hn. split.
      * intros H. apply lang_alt_inv in H as [H|H]; [left; apply Hseq; assumption|].
        right. split; [assumption | apply IH2; assumption].
      * intros [H | [_ H]]; [apply lang_alt_l, Hseq, H | apply lang_alt_r, IH2, H].
    + rewrite Hseq. split; [auto|]. intros [H | [H _]]; [exact H|].
      apply nullable_lang in H. congruence.
  - split; intros H; apply lang_alt_inv in H as [H|H].
    + apply lang_alt_l, IH1. assumption.
    + apply lang_alt_r, IH2. assumption.
    + apply lang_alt_l, IH1. assumption.
    + apply lang_alt_r, IH2. assumption.
Qed.

Lemma fullmatch_lang (s : string) : forall r, fullmatch r s = true <-> lang r s.
Proof.
  induction s as [|c s IH]; intros r; simpl.
  - apply nullable_lang.
  - rewrite IH. apply deriv_lang.
Qed.

Lemma str_length_app (s1 s2 : string) :
  String.length (s1 +:+ s2) = String.length s1 + String.length s2.
Proof. induction s1 as [|c s1 IH]; [reflexivity|]. rewrite str_app_cons. simpl. rewrite IH. reflexivity. Qed.

Lemma all_chars_app p (s1 s2 : string) :
  all_chars p (s1 +:+ s2) = all_chars p s1 && all_chars p s2.
Proof.
  induction s1 as [|c s1 IH]; [reflexivity|]. rewrite str_app_cons. simpl.
  rewrite IH, andb_assoc. reflexivity.
Qed.

Lemma all_chars_impl (p q : ascii -> bool) (s : string) :
  (forall c, p c = true -> q c = true) -> all_chars p s = true -> all_chars q s = true.
Proof.
  intros Hpq. induction s as [|c s IH]; [reflexivity|]. simpl.
  rewrite !andb_true_iff. intros [Hc Hs]. auto.
Qed.

(** Words of a repetition *)

Lemma lang_Power (r : regex) (n : nat) : forall s,
  lang (Power n r) s <->
  exists parts, length parts = n /\ Forall (lang r) parts /\ s = flatten parts.
Proof.
  induction n as [|n IH]; intros s; simpl.
  - split.
    + intros H. apply lang_eps_inv in H as ->. exists []. auto.
    + intros (parts & Hlen & _ & ->). destruct parts; [constructor | discriminate].
  - split.
    + intros H. apply lang_seq_inv in H as (s1 & s2 & -> & H1 & H2).
      apply IH in H2 as (parts & Hlen & Hall & ->).
      exists (s1 :: parts). simpl. auto.
    + intros (parts & Hlen & Hall & ->). destruct parts as [|p parts]; [discriminate|].
      inversion Hall; subst. simpl. constructor; [assumption|].
      apply IH. exists parts. auto.
Qed.

Lemma lang_UpTo (r : regex) (n : nat) : forall s,
  lang (UpTo n r) s <->
  exists parts, length parts <= n /\ Forall (lang r) parts /\ s = flatten parts.
Proof.
  induction n as [|n IH]; intros s; simpl.
  - split.
    + intros H. apply lang_eps_inv in H as ->. exists []. auto.
    + intros (parts & Hlen & _ & ->). destruct parts; [constructor | simpl in Hlen; lia].
  - split.
    + intros H. apply lang_alt_inv in H as [H|H].
      * apply lang_eps_inv in H as ->. exists []. simpl. split; [lia | auto].
      * apply lang_seq_inv in H as (s1 & s2 & -> & H1 & H2).
        apply IH in H2 as (parts & Hlen & Hall & ->).
        exists (s1 :: parts). simpl. split; [lia | auto].
    + intros (parts & Hlen & Hall & ->). destruct parts as [|p parts].
      * apply lang_alt_l. constructor.
      * inversion Hall; subst. simpl. apply lang_alt_r. constructor; [assumption|].
        apply IH. exists parts. simpl in Hlen. split; [lia | auto].
Qed.

Lemma flatten_app (l1 l2 : list string) : flatten (l1 ++ l2) = flatten l1 +:+ flatten l2.
Proof.
  induction l1 as [|p l1 IH]; [reflexivity|]. simpl. rewrite IH, str_app_assoc. reflexivity.
Qed.

Lemma lang_Repeat (r : regex) (lo hi : nat) (s : string) :
  lo <= hi ->
  lang (Repeat lo hi r) s <->
  exists parts, lo <= length parts <= hi /\ Forall (lang r) parts /\ s = flatten parts.
Proof.
  intros Hle. unfold Repeat. split.
  - intros H. apply lang_seq_inv in H as (s1 & s2 & -> & H1 & H2).
    apply lang_Power in H1 as (p1 & Hl1 & Ha1 & ->).
    apply lang_UpTo in H2 as (p2 & Hl2 & Ha2 & ->).
    exists (p1 ++ p2). rewrite length_app, flatten_app. split; [lia|].
    split; [apply Forall_app; auto | reflexivity].
  - intros (parts & Hlen & Hall & ->).
    rewrite <- (take_drop lo parts), flatten_app.
    rewrite <- (take_drop lo parts) in Hall. apply Forall_app in Hall as [Ha1 Ha2].
    constructor.
    + apply lang_Power. exists (take lo parts). rewrite length_take. split; [lia | auto].
    + apply lang_UpTo. exists (drop lo parts). rewrite length_drop. split; [lia | auto].
Qed.

(** Words of a repeated character class *)

Lemma lang_Repeat_Class p (lo hi : nat) (s : string) :
  lo <= hi ->
  lang (Repeat lo hi (Class p)) s <->
  lo <= String.length s <= hi /\ all_chars p s = true.
Proof.
  intros Hle. rewrite lang_Repeat by exact Hle. split.
  - intros (parts & Hlen & Hall & ->).
    assert (Hparts : String.length (flatten parts) = length parts /\
                     all_chars p (flatten parts) = true).
    { clear Hlen. induction Hall as [|part parts Hp Hall IH]; [auto|].
      apply lang_class_inv in Hp as (c & -> & Hc).
      simpl flatten. rewrite str_app_cons, str_app_nil_l. simpl.
      destruct IH as [-> ->]. rewrite Hc. auto. }
    destruct Hparts as [-> ->]. auto.
  - intros [Hlen Hall].
    exists ((fun c => String c "") <$> list_ascii_of_string s).
    rewrite length_fmap.
    assert (Hs : length (list_ascii_of_string s) = String.length s /\
                 Forall (lang (Class p)) ((fun c => String c "") <$> list_ascii_of_string s) /\
                 s = flatten ((fun c => String c "") <$> list_ascii_of_string s)).
    { clear Hlen. induction s as [|c s IH]; [simpl; auto|].
      simpl in Hall. apply andb_true_iff in Hall as [Hc Hall].
      destruct (IH Hall) as (Hl & Hf & Hfl). simpl. rewrite Hl. split; [reflexivity|].
      split; [constructor; [constructor; exact Hc | exact Hf]|].
      rewrite str_app_cons, str_app_nil_l. f_equal. exact Hfl. }
    destruct Hs as (-> & Hf & Hfl). auto.
Qed.

(** Groups joined by a separator *)

Lemma concat_cons (sep g : string) (gs : list string) :
  gs <> [] -> String.concat sep (g :: gs) = g +:+ sep +:+ String.concat sep gs.
Proof. destruct gs; [congruence | reflexivity]. Qed.

Lemma concat_snoc (sep : string) (gs : list string) (g : string) :
  String.concat sep (gs ++ [g]) = flatten ((fun h => h +:+ sep) <$> gs) +:+ g.
Proof.
  induction gs as [|h gs IH]; [reflexivity|].
  change ((h :: gs) ++ [g]) with (h :: (gs ++ [g])).
  rewrite concat_cons by (destruct gs; discriminate).
  rewrite IH. simpl. rewrite !str_app_assoc. reflexivity.
Qed.

Lemma lang_groups (G : regex) (c : ascii) (lo hi : nat) (s : string) :
  lo <= hi ->
  lang (Seq (Repeat lo hi (Seq G (Chr c))) G) s <->
  exists groups, lo + 1 <= length groups <= hi + 1 /\ Forall (lang G) groups /\
                 s = String.concat (String c "") groups.
Proof.
  intros Hle. split.
  - intros H. apply lang_seq_inv in H as (s1 & g & -> & H1 & Hg).
    apply (lang_Repeat _ _ _ _ Hle) in H1 as (parts & Hlen & Hall & ->).
    assert (Hgs : exists gs, parts = (fun h => h +:+ String c "") <$> gs /\ Forall (lang G) gs).
    { clear Hlen. induction Hall as [|part parts Hp Hall IH]; [exists []; auto|].
      destruct IH as (gs & -> & Hgs).
      apply lang_seq_inv in Hp as (h & t & -> & Hh & Ht).
      apply lang_class_inv in Ht as (c' & -> & Hc). apply Ascii.eqb_eq in Hc as <-.
      exists (h :: gs). auto. }
    destruct Hgs as (gs & -> & Hgs). rewrite length_fmap in Hlen.
    exists (gs ++ [g]). rewrite length_app, concat_snoc. simpl.
    split; [lia|]. split; [apply Forall_app; auto | reflexivity].
  - intros (groups & Hlen & Hall & ->).
    destruct (exists_last (l := groups)) as (gs & g & ->).
    { destruct groups; [simpl in Hlen; lia | discriminate]. }
    rewrite length_app in Hlen. simpl in Hlen.
    apply Forall_app in Hall as [Hgs Hg]. inversion Hg; subst.
    rewrite concat_snoc. constructor; [|assumption].
    apply (lang_Repeat _ _ _ _ Hle). exists ((fun h => h +:+ String c "") <$> gs).
    rewrite length_fmap. split; [lia|]. split; [|reflexivity].
    clear Hlen. induction Hgs as [|h gs Hh Hgs IH]; [constructor|].
    constructor; [|exact IH]. constructor; [exact Hh|].
    constructor. apply Ascii.eqb_refl.
Qed.

(** Splitting at a separator *)

Lemma split_on_lacks (sep : ascii) (a : string) :
  lacks sep a = true -> split_on sep a = [a].
Proof.
  unfold lacks. induction a as [|c a IH]; [reflexivity|]. simpl.
  intros [Hc Ha]%andb_true_iff. apply negb_true_iff in Hc. rewrite Hc, (IH Ha). reflexivity.
Qed.

Lemma split_on_app (sep : ascii) (a b : string) :
  lacks sep a = true -> split_on sep (a +:+ String sep b) = a :: split_on sep b.
Proof.
  unfold lacks. induction a as [|c a IH].
  - intros _. rewrite str_app_nil_l. simpl. rewrite Ascii.eqb_refl. reflexivity.
  - intros Hl. simpl in Hl. apply andb_true_iff in Hl as [Hc Ha].
    apply negb_true_iff in Hc.
    rewrite str_app_cons. simpl. rewrite Hc, (IH Ha). reflexivity.
Qed.

Lemma split_on_flatten (sep : ascii) (gs : list string) (x : string) :
  Forall (fun g => lacks sep g = true) gs -> lacks sep x = true ->
  split_on sep (flatten ((fun h => h +:+ String sep "") <$> gs) +:+ x) = gs ++ [x].
Proof.
  intros Hgs Hx. induction Hgs as [|g gs Hg Hgs IH].
  - simpl. rewrite str_app_nil_l. apply split_on_lacks. exact Hx.
  - rewrite fmap_cons. cbn [flatten].
    rewrite !str_app_assoc. rewrite str_app_cons, str_app_nil_l.
    rewrite split_on_app by exact Hg. rewrite IH. reflexivity.
Qed.

(** [int] on digits *)

Lemma isdigit_not_int_space (c : ascii) : isdigit c = true -> int_isspace c = false.
Proof.
  unfold isdigit, int_isspace, isspace. intros [H1 H2]%andb_true_iff.
  apply Nat.leb_le in H1, H2.
  destruct (Nat.ltb_spec (nat_of_ascii c) 127); [|lia].
  repeat match goal with
         | |- context [(?a <=? ?b)] => destruct (Nat.leb_spec a b)
         | |- context [(?a =? ?b)] => destruct (Nat.eqb_spec a b)
         end; simpl; try reflexivity; lia.
Qed.

Lemma int_rstrip_digits (g t : string) :
  all_chars isdigit g = true -> t = "" \/ t = String "010" "" ->
  int_rstrip (g +:+ t) = g.
Proof.
  intros Hg Ht. induction g as [|c g IH].
  - rewrite str_app_nil_l. destruct Ht as [-> | ->]; reflexivity.
  - simpl in Hg. apply andb_true_iff in Hg as [Hc Hg].
    rewrite str_app_cons. simpl. rewrite (IH Hg).
    destruct g; [|reflexivity]. rewrite (isdigit_not_int_space c Hc). reflexivity.
Qed.

Lemma int_lstrip_digits (g : string) : all_chars isdigit g = true -> int_lstrip g = g.
Proof.
  destruct g as [|c g]; [reflexivity|]. simpl.
  intros [Hc _]%andb_true_iff. rewrite (isdigit_not_int_space c Hc). reflexivity.
Qed.

Lemma int_strip_digits (g t : string) :
  all_chars isdigit g = true -> t = "" \/ t = String "010" "" ->
  int_strip (g +:+ t) = g.
Proof.
  intros Hg Ht. unfold int_strip. rewrite int_rstrip_digits by assumption.
  apply int_lstrip_digits. exact Hg.
Qed.

Lemma parse_digits_digits (g : string) : forall (acc : Z) (after_digit : bool),
  all_chars isdigit g = true -> g <> "" \/ after_digit = true ->
  parse_digits acc after_digit g = Some (decimal_from acc g).
Proof.
  induction g as [|c g IH]; intros acc b Hg Hne; simpl.
  - destruct Hne as [Hne | ->]; [congruence | reflexivity].
  - simpl in Hg. apply andb_true_iff in Hg as [Hc Hg]. rewrite Hc.
    apply IH; auto.
Qed.

Lemma int_of_str_digits (g t : string) :
  all_chars isdigit g = true -> g <> "" -> t = "" \/ t = String "010" "" ->
  int_of_str (g +:+ t) = Ok (decimal_value g).
Proof.
  intros Hg Hne Ht. unfold int_of_str. rewrite int_strip_digits by assumption.
  assert (Hparse : parse_digits 0 false g = Some (decimal_value g)).
  { apply parse_digits_digits; auto. }
  destruct g as [|c g]; [congruence|].
  assert (Hc : isdigit c = true) by (simpl in Hg; apply andb_true_iff in Hg as [Hc _]; exact Hc).
  assert (Hsign : c <> "+"%char /\ c <> "-"%char).
  { split; intros ->; discriminate Hc. }
  destruct Hsign as [Hplus Hminus].
  replace (match String c g with
           | String "+" r => parse_digits 0 false r
           | String "-" r => Z.opp <$> parse_digits 0 false r
           | _ => parse_digits 0 false (String c g)
           end) with (parse_digits 0 false (String c g)).
  - rewrite Hparse. reflexivity.
  - destruct c as [[] [] [] [] [] [] [] []]; try reflexivity; congruence.
Qed.

(** The newline that [$] lets pass *)

Lemma chop_newline_Some (s s' : string) :
  chop_newline s = Some s' <-> s = s' +:+ String "010" "".
Proof.
  revert s'. induction s as [|c s IH]; intros s'; simpl.
  - split; [discriminate|]. destruct s'; discriminate.
  - destruct s as [|c2 s2].
    + destruct (Ascii.eqb_spec c "010") as [->|Hc]; split.
      * intros [= <-]. reflexivity.
      * destruct s' as [|c' [|]]; [reflexivity| |]; discriminate.
      * discriminate.
      * destruct s' as [|c' [|]]; [intros [= ->]; congruence| |]; discriminate.
    + destruct (chop_newline (String c2 s2)) as [t|] eqn:Ht; simpl; split.
      * intros [= <-]. rewrite str_app_cons. f_equal. apply IH. reflexivity.
      * destruct s' as [|c' s']; [destruct s2; discriminate|].
        rewrite str_app_cons. intros [= <- Hs]. apply IH in Hs. congruence.
      * discriminate.
      * destruct s' as [|c' s']; [destruct s2; discriminate|].
        rewrite str_app_cons. intros [= <- Hs]. apply IH in Hs. congruence.
Qed.

Lemma core_tail (s : string) :
  exists t, (t = "" \/ t = String "010" "") /\ s = core s +:+ t.
Proof.
  unfold core. destruct (chop_newline s) as [s'|] eqn:Hs.
  - apply chop_newline_Some in Hs. eauto.
  - exists "". rewrite str_app_nil_r. auto.
Qed.

Lemma lang_alphabet (q : ascii -> bool) (r : regex) (s : string) :
  alphabet q r -> lang r s -> all_chars q s = true.
Proof.
  intros Hq Hl. induction Hl as [|p c Hc|r1 r2 s1 s2 H1 IH1 H2 IH2|r1 r2 s H1 IH1|r1 r2 s H2 IH2];
    simpl in Hq.
  - reflexivity.
  - simpl. rewrite (Hq c Hc). reflexivity.
  - destruct Hq as [Hq1 Hq2]. rewrite all_chars_app, IH1, IH2 by assumption. reflexivity.
  - destruct Hq as [Hq1 Hq2]. auto.
  - destruct Hq as [Hq1 Hq2]. auto.
Qed.

Lemma re_match_core (q : ascii -> bool) (r : regex) (s : string) :
  alphabet q r -> q "010"%char = false ->
  re_match_anchored r s = fullmatch r (core s).
Proof.
  intros Hq Hnl. unfold re_match_anchored, core.
  destruct (chop_newline s) as [s'|] eqn:Hs; [|apply orb_false_r].
  apply chop_newline_Some in Hs. subst s.
  destruct (fullmatch r (s' +:+ String "010" "")) eqn:Hm; [|reflexivity].
  apply fullmatch_lang, (lang_alphabet q) in Hm; [|exact Hq].
  rewrite all_chars_app in Hm. simpl in Hm. rewrite Hnl in Hm.
  rewrite andb_false_r in Hm. discriminate.
Qed.

Lemma core_no_newline (q : ascii -> bool) (s : string) :
  q "010"%char = false -> all_chars q s = true -> core s = s.
Proof.
  intros Hnl Hs. unfold core. destruct (chop_newline s) as [s'|] eqn:Hc; [|reflexivity].
  apply chop_newline_Some in Hc. subst s. rewrite all_chars_app in Hs. simpl in Hs.
  rewrite Hnl, andb_false_r in Hs. discriminate.
Qed.

(** ** The address validator *)

Lemma lang_ipv4_pattern (s : string) :
  lang NodeToolExecutor.ipv4_pattern s <->
  exists groups, length groups = 4 /\ Forall digit_group groups /\
                 s = String.concat "." groups.
Proof.
  unfold NodeToolExecutor.ipv4_pattern. rewrite lang_groups by lia. split.
  - intros (groups & Hlen & Hall & ->). exists groups. split; [lia|]. split; [|reflexivity].
    eapply Forall_impl; [exact Hall|]. intros g Hg.
    apply lang_Repeat_Class in Hg; [exact Hg | lia].
  - intros (groups & Hlen & Hall & ->). exists groups. split; [lia|]. split; [|reflexivity].
    eapply Forall_impl; [exact Hall|]. intros g Hg.
    apply lang_Repeat_Class; [lia | exact Hg].
Qed.

Lemma lang_ipv6_pattern (s : string) :
  lang NodeToolExecutor.ipv6_pattern s <-> ipv6_literal 3 8 s.
Proof.
  unfold NodeToolExecutor.ipv6_pattern, ipv6_literal. rewrite lang_groups by lia. split.
  - intros (groups & Hlen & Hall & ->). exists groups. split; [lia|]. split; [|reflexivity].
    eapply Forall_impl; [exact Hall|]. intros g Hg.
    apply lang_Repeat_Class in Hg; [|lia]. split; [lia | apply Hg].
  - intros (groups & Hlen & Hall & ->). exists groups. split; [lia|]. split; [|reflexivity].
    eapply Forall_impl; [exact Hall|]. intros g [Hl Hg].
    apply lang_Repeat_Class; [lia|]. split; [lia | exact Hg].
Qed.

Lemma alphabet_ipv4 : alphabet ipv4_char NodeToolExecutor.ipv4_pattern.
Proof.
  unfold ipv4_char. simpl.
  repeat split; intros c Hc; rewrite Hc; auto using orb_true_r.
Qed.

Lemma alphabet_ipv6 : alphabet ipv6_char NodeToolExecutor.ipv6_pattern.
Proof.
  unfold ipv6_char. simpl.
  repeat split; intros c Hc; rewrite Hc; auto using orb_true_r.
Qed.

Lemma digits_lack_dot (g : string) : all_chars isdigit g = true -> lacks "." g = true.
Proof.
  apply all_chars_impl. intros c Hc. apply negb_true_iff.
  destruct (Ascii.eqb_spec c "."); [subst; discriminate | reflexivity].
Qed.

Lemma split_on_concat (sep : ascii) (groups : list string) :
  groups <> [] -> Forall (fun g => lacks sep g = true) groups ->
  split_on sep (String.concat (String sep "") groups) = groups.
Proof.
  intros Hne Hall. destruct (exists_last Hne) as (gs & g & ->).
  apply Forall_app in Hall as [Hgs Hg]. apply Forall_inv in Hg.
  rewrite concat_snoc. apply split_on_flatten; [exact Hgs | exact Hg].
Qed.

Lemma all_of_Forall2 {A B} (f : A -> Result bool) (g : B -> bool) (l : list A) (l' : list B) :
  Forall2 (fun x y => f x = Ok (g y)) l l' -> all_of f l = Ok (forallb g l').
Proof.
  induction 1 as [|x y l l' Hxy Hl IH]; simpl; [reflexivity|].
  rewrite Hxy. destruct (g y); simpl; [exact IH | reflexivity].
Qed.

(** The octet check, on a string whose core is four groups of digits. *)
Lemma octet_check (ip : string) (groups : list string) :
  groups <> [] -> Forall digit_group groups -> core ip = String.concat "." groups ->
  all_of (fun octet => n ← int_of_str octet; Ok ((0 <=? n)%Z && (n <=? 255)%Z))
         (split_on "." ip)
  = Ok (forallb octet_in_range groups).
Proof.
  intros Hne Hall Hcore.
  destruct (core_tail ip) as (t & Ht & Hip). rewrite Hcore in Hip.
  destruct (exists_last Hne) as (gs & g & ->).
  apply Forall_app in Hall as [Hgs Hg]. apply Forall_inv in Hg as [Hglen Hgd].
  rewrite concat_snoc, str_app_assoc in Hip. rewrite Hip.
  rewrite split_on_flatten.
  - apply all_of_Forall2. apply Forall2_app.
    + clear Hne Hcore Hip. induction Hgs as [|h gs [Hhlen Hhd] Hgs IH]; constructor; [|exact IH].
      rewrite <- (str_app_nil_r h) at 1.
      rewrite int_of_str_digits; [reflexivity | exact Hhd | | auto].
      destruct h; [simpl in Hhlen; lia | discriminate].
    + constructor; [|constructor].
      rewrite int_of_str_digits; [reflexivity | exact Hgd | | exact Ht].
      destruct g; [simpl in Hglen; lia | discriminate].
  - eapply Forall_impl; [exact Hgs|]. intros h [_ Hh]. apply digits_lack_dot. exact Hh.
  - unfold lacks. rewrite all_chars_app. fold (lacks "." g). rewrite digits_lack_dot by exact Hgd.
    destruct Ht as [-> | ->]; reflexivity.
Qed.

Lemma octet_digit_group (g : string) :
  octet g <-> digit_group g /\ octet_in_range g = true.
Proof.
  unfold octet, digit_group, octet_in_range.
  rewrite andb_true_iff, !Z.leb_le. tauto.
Qed.

Lemma ipv4_literal_groups (s : string) (groups : list string) :
  length groups = 4 -> Forall digit_group groups -> s = String.concat "." groups ->
  ipv4_literal s <-> forallb octet_in_range groups = true.
Proof.
  intros Hlen Hall Hs. split.
  - intros (groups' & Hlen' & Hall' & Hs').
    assert (groups' = groups) as ->.
    { rewrite <- (split_on_concat "." groups'), <- (split_on_concat "." groups).
      - congruence.
      - destruct groups; discriminate.
      - eapply Forall_impl; [exact Hall|]. intros g [_ Hg]. apply digits_lack_dot, Hg.
      - destruct groups'; discriminate.
      - eapply Forall_impl; [exact Hall'|]. intros g (_ & Hg & _). apply digits_lack_dot, Hg. }
    apply forallb_forall. intros g Hg. rewrite Forall_forall in Hall'.
    apply list_elem_of_In, Hall', octet_digit_group in Hg. apply Hg.
  - intros Hr. exists groups. split; [exact Hlen|]. split; [|exact Hs].
    rewrite Forall_forall in *. intros g Hg. apply octet_digit_group.
    split; [apply Hall, Hg|]. rewrite forallb_forall in Hr. apply Hr, list_elem_of_In, Hg.
Qed.

Lemma ipv4_literal_lang (s : string) : ipv4_literal s -> lang NodeToolExecutor.ipv4_pattern s.
Proof.
  intros (groups & Hlen & Hall & Hs). apply lang_ipv4_pattern. exists groups.
  split; [exact Hlen|]. split; [|exact Hs].
  eapply Forall_impl; [exact Hall|]. intros g Hg. apply octet_digit_group in Hg. apply Hg.
Qed.

Lemma ipv4_not_ipv6 (s : string) :
  lang NodeToolExecutor.ipv4_pattern s -> ~ lang NodeToolExecutor.ipv6_pattern s.
Proof.
  intros H4 H6. apply (lang_alphabet ipv6_char) in H6; [|apply alphabet_ipv6].
  apply lang_ipv4_pattern in H4 as (groups & Hlen & _ & ->).
  destruct groups as [|g1 [|g2 groups]]; try discriminate.
  rewrite concat_cons in H6 by discriminate.
  rewrite !all_chars_app in H6.
  change (all_chars ipv6_char ".") with false in H6.
  rewrite andb_false_l, andb_false_r in H6. discriminate.
Qed.

(** What [_validate_ip_format] answers, in terms of the string without a
    final newline. *)
Lemma validate_ip_format_core (ip : string) :
  exists b, NodeToolExecutor._validate_ip_format ip = Ok b /\
            (b = true <-> ipv4_literal (core ip) \/ ipv6_literal 3 8 (core ip)).
Proof.
  unfold NodeToolExecutor._validate_ip_format.
  rewrite (re_match_core ipv4_char) by (apply alphabet_ipv4 || reflexivity).
  rewrite (re_match_core ipv6_char) by (apply alphabet_ipv6 || reflexivity).
  destruct (fullmatch NodeToolExecutor.ipv4_pattern (core ip)) eqn:H4.
  - apply fullmatch_lang in H4. pose proof H4 as H4'.
    apply lang_ipv4_pattern in H4' as (groups & Hlen & Hall & Hcore).
    rewrite (octet_check ip groups); [|destruct groups; discriminate|exact Hall|exact Hcore].
    eexists. split; [reflexivity|].
    rewrite <- (ipv4_literal_groups (core ip) groups) by assumption.
    split; [auto|]. intros [H|H]; [exact H|].
    apply lang_ipv6_pattern in H. destruct (ipv4_not_ipv6 _ H4 H).
  - assert (Hn4 : ~ ipv4_literal (core ip)).
    { intros H. apply ipv4_literal_lang, fullmatch_lang in H. congruence. }
    destruct (fullmatch NodeToolExecutor.ipv6_pattern (core ip)) eqn:H6.
    + exists true. split; [reflexivity|]. split; [|reflexivity].
      intros _. right. apply lang_ipv6_pattern, fullmatch_lang. exact H6.
    + exists false. split; [reflexivity|]. split; [discriminate|].
      intros [H|H]; [contradiction|].
      apply lang_ipv6_pattern, fullmatch_lang in H. congruence.
Qed.

Lemma validate_ip_format_total (ip : string) :
  exists b, NodeToolExecutor._validate_ip_format ip = Ok b.
Proof. destruct (validate_ip_format_core ip) as (b & Hb & _). eauto. Qed.

Lemma core_without_newline (s : string) : ~ ends_with_newline s -> core s = s.
Proof.
  intros Hn. unfold core. destruct (chop_newline s) as [s'|] eqn:Hc; [|reflexivity].
  exfalso. apply Hn. exists s'. apply chop_newline_Some. exact Hc.
Qed.

(** C5, as amended. On every string of characters below U+0100 (ASCII and
    Latin-1) that does not end with a newline,
    [_validate_ip_format] answers true exactly for the IPv4 literals (four
    dot-separated groups of 1 to 3 decimal digits, each of value 0 to 255) and
    for the permissive IPv6 literals of 3 to 8 colon-separated groups of 0 to
    4 hexadecimal digits; it answers true for "192.168.1.1" and "::1" and
    false for "256.1.1.1", "192.168.1" and "not-an-ip". *)
Theorem validate_ip_format_literals :
  (forall ip, ~ ends_with_newline ip ->
     NodeToolExecutor._validate_ip_format ip = Ok true <->
     ipv4_literal ip \/ ipv6_literal 3 8 ip) /\
  NodeToolExecutor._validate_ip_format "192.168.1.1" = Ok true /\
  NodeToolExecutor._validate_ip_format "::1" = Ok true /\
  NodeToolExecutor._validate_ip_format "256.1.1.1" = Ok false /\
  NodeToolExecutor._validate_ip_format "192.168.1" = Ok false /\
  NodeToolExecutor._validate_ip_format "not-an-ip" = Ok false.
Proof.
  split; [|repeat split; vm_compute; reflexivity].
  intros ip Hn. destruct (validate_ip_format_core ip) as (b & Hb & Hiff).
  rewrite (core_without_newline ip Hn) in Hiff. rewrite Hb, <- Hiff.
  split; [intros [= ->]; reflexivity | intros ->; reflexivity].
Qed.

Lemma validate_ip_format_literals_witness :
  NodeToolExecutor._validate_ip_format "10.0.0.5" = Ok true <->
  ipv4_literal "10.0.0.5" \/ ipv6_literal 3 8 "10.0.0.5".
Proof.
  apply (proj1 validate_ip_format_literals "10.0.0.5").
  intros [s' Hs]. apply chop_newline_Some in Hs. vm_compute in Hs. discriminate Hs.
Defined.

(** C5, as stated, fails: "1:2" is two groups of hexadecimal digits with a
    colon between them, and the pattern, which asks for 2 to 7 groups that
    each end in a colon and one more group after them, does not take it. *)
Lemma two_groups_are_rejected : ~ Spec.accepts_exactly_literals 2.
Proof.
  intros Hacc. specialize (Hacc "1:2"). destruct Hacc as [_ Hacc].
  assert (Hlit : ipv6_literal 2 8 "1:2").
  { exists ["1"; "2"]. split; [simpl; lia|]. split; [|reflexivity].
    repeat constructor. }
  specialize (Hacc (or_intror Hlit)). vm_compute in Hacc. discriminate Hacc.
Qed.

(** The anchor [$] also holds before a final newline, and [int] drops it: an
    address followed by a newline passes. *)
Lemma validate_ip_format_trailing_newline :
  NodeToolExecutor._validate_ip_format ("192.168.1.1" +:+ String "010" "") = Ok true /\
  NodeToolExecutor._validate_ip_format ("::1" +:+ String "010" "") = Ok true.
Proof. split; vm_compute; reflexivity. Qed.

(** ** The nodetool executor: the paths of [execute_command] *)
Ltac run_M :=
  cbv [mbind mret M_bind M_ret lift emit try_except spawn wait_for_communicate
       process_kill process_wait read_time read_datetime].

Section ExecutorPaths.
Context {C : Type} `{IConfigurationManager C}.
Variable os : Platform.
Variable self : NodeToolExecutor.t C.

Lemma execute_command_host_rejected (command : string) (target_host : PyVal) (ip : string)
    (w : World) :
  host_rejected target_host ip ->
  NodeToolExecutor.execute_command os self command target_host w =
  (Ok (failed command target_host (time_time os (clock_reads w))
         (time_time os (S (S (clock_reads w)))) (datetime_now os (S (clock_reads w)))
         ("Invalid IP format: " +:+ ip)),
   {| clock_reads := S (S (S (clock_reads w))); journal := journal w |}).
Proof.
  intros (-> & Ht & Hv). unfold NodeToolExecutor.execute_command. rewrite Ht.
  run_M. rewrite Hv. reflexivity.
Qed.

Lemma host_check_passes (target_host : PyVal) (w : World) :
  host_passes target_host ->
  (if truthy target_host then
     match target_host with
     | PyStr ip =>
         ok ← lift (NodeToolExecutor._validate_ip_format ip);
         mret (if ok : bool then None else Some ("Invalid IP format: " +:+ ip))
     | _ => lift (Raise (mkExn TypeError "expected string or bytes-like object"))
     end
   else mret None : M (option string)) w = (Ok None, w).
Proof.
  intros [Hf | (ip & -> & Hv)].
  - rewrite Hf. reflexivity.
  - destruct (truthy (PyStr ip)); [|reflexivity]. run_M. rewrite Hv. reflexivity.
Qed.

Lemma execute_command_spawn_raises (command : string) (target_host : PyVal) (e : Exn)
    (w : World) :
  host_passes target_host ->
  spawned os self command target_host = Raise e ->
  NodeToolExecutor.execute_command os self command target_host w =
  (Ok (failed command target_host (time_time os (clock_reads w))
         (time_time os (S (S (clock_reads w)))) (datetime_now os (S (clock_reads w)))
         (fault_message e)),
   {| clock_reads := S (S (S (clock_reads w)));
      journal := journal w ++ [EvSpawn (argv os self command target_host)
                                 (NodeToolExecutor._get_environment os self)] |}).
Proof.
  intros Hp Hs. unfold NodeToolExecutor.execute_command.
  unfold mbind at 1 2 3. unfold M_bind at 1 2 3.
  cbv [read_time read_datetime]. rewrite (host_check_passes target_host _ Hp).
  unfold spawned, argv in Hs. run_M. cbn [journal clock_reads]. rewrite Hs.
  unfold fault_message, failed. destruct (exn_class e); reflexivity.
Qed.

Lemma execute_command_completed (command : string) (target_host : PyVal) (p : Process)
    (out err : list Byte.byte) (w : World) :
  host_passes target_host ->
  spawned os self command target_host = Ok p ->
  communicate p (NodeToolExecutor.timeout self) = Ok (out, err) ->
  NodeToolExecutor.execute_command os self command target_host w =
  (Ok {| success := bool_decide (returncode p = Some 0%Z); command := command;
         stdout := decode_utf8 os out; stderr := decode_utf8 os err;
         execution_time := (time_time os (S (S (clock_reads w))) -
                            time_time os (clock_reads w))%Q;
         timestamp := datetime_now os (S (clock_reads w));
         target_host := target_host |},
   {| clock_reads := S (S (S (clock_reads w)));
      journal := journal w ++ [EvSpawn (argv os self command target_host)
                                 (NodeToolExecutor._get_environment os self);
                               EvCommunicate (NodeToolExecutor.timeout self)] |}).
Proof.
  intros Hp Hs Hc. unfold NodeToolExecutor.execute_command.
  unfold mbind at 1 2 3. unfold M_bind at 1 2 3.
  cbv [read_time read_datetime]. rewrite (host_check_passes target_host _ Hp).
  unfold spawned, argv in Hs. run_M. cbn [journal clock_reads]. rewrite Hs, Hc.
  cbn [journal clock_reads]. rewrite <- app_assoc. reflexivity.
Qed.

Lemma execute_command_communicate_raises (command : string) (target_host : PyVal)
    (p : Process) (e : Exn) (w : World) :
  host_passes target_host ->
  spawned os self command target_host = Ok p ->
  communicate p (NodeToolExecutor.timeout self) = Raise e ->
  exn_class e <> AsyncioTimeoutError ->
  NodeToolExecutor.execute_command os self command target_host w =
  (Ok (failed command target_host (time_time os (clock_reads w))
         (time_time os (S (S (clock_reads w)))) (datetime_now os (S (clock_reads w)))
         (fault_message e)),
   {| clock_reads := S (S (S (clock_reads w)));
      journal := journal w ++ [EvSpawn (argv os self command target_host)
                                 (NodeToolExecutor._get_environment os self);
                               EvCommunicate (NodeToolExecutor.timeout self)] |}).
Proof.
  intros Hp Hs Hc Hne. unfold NodeToolExecutor.execute_command.
  unfold mbind at 1 2 3. unfold M_bind at 1 2 3.
  cbv [read_time read_datetime]. rewrite (host_check_passes target_host _ Hp).
  unfold spawned, argv in Hs. run_M. cbn [journal clock_reads]. rewrite Hs, Hc.
  cbn [journal clock_reads]. rewrite <- app_assoc.
  unfold fault_message, failed. destruct e as [cls msg]. cbn [exn_class exn_msg] in *.
  destruct cls; try reflexivity. congruence.
Qed.

Lemma execute_command_timed_out (command : string) (target_host : PyVal)
    (p : Process) (e : Exn) (w : World) :
  host_passes target_host ->
  spawned os self command target_host = Ok p ->
  communicate p (NodeToolExecutor.timeout self) = Raise e ->
  exn_class e = AsyncioTimeoutError ->
  NodeToolExecutor.execute_command os self command target_host w =
  (Ok (failed command target_host (time_time os (clock_reads w))
         (time_time os (S (S (clock_reads w)))) (datetime_now os (S (clock_reads w)))
         (timeout_message self)),
   {| clock_reads := S (S (S (clock_reads w)));
      journal := journal w ++ [EvSpawn (argv os self command target_host)
                                 (NodeToolExecutor._get_environment os self);
                               EvCommunicate (NodeToolExecutor.timeout self);
                               EvKill] ++
                 match kill p with Ok _ => [EvWait] | Raise _ => [] end |}).
Proof.
  intros Hp Hs Hc Hcls. unfold NodeToolExecutor.execute_command.
  unfold mbind at 1 2 3. unfold M_bind at 1 2 3.
  cbv [read_time read_datetime]. rewrite (host_check_passes target_host _ Hp).
  unfold spawned, argv in Hs. run_M. cbn [journal clock_reads]. rewrite Hs, Hc, Hcls.
  cbn [journal clock_reads].
  destruct (kill p) as [[]|ke]; cbn [journal clock_reads].
  - destruct (wait p) as [[]|we]; cbn [journal clock_reads];
      rewrite <- !app_assoc; reflexivity.
  - rewrite <- !app_assoc. reflexivity.
Qed.

End ExecutorPaths.

(** ** The nodetool executor: what a call returns *)

Lemma host_rejected_not_passes (target_host : PyVal) (ip : string) :
  host_rejected target_host ip -> ~ host_passes target_host.
Proof.
  intros (-> & Ht & Hv) [Hf | (ip' & [= <-] & Hv')]; congruence.
Qed.

Lemma optional_str_host (target_host : PyVal) :
  optional_str target_host ->
  host_passes target_host \/ exists ip, host_rejected target_host ip.
Proof.
  intros [-> | (s & ->)]; [left; left; reflexivity|].
  destruct (truthy (PyStr s)) eqn:Ht; [|left; left; exact Ht].
  destruct (validate_ip_format_total s) as ([|] & Hb).
  - left. right. eauto.
  - right. exists s. repeat split; assumption.
Qed.

Section ExecutorResult.
Context {C : Type} `{IConfigurationManager C}.
Variable os : Platform.
Variable self : NodeToolExecutor.t C.

(** C3. Called with a [target_host] of its declared type (None or a string),
    [execute_command] never raises: it returns a result. Success is true
    exactly when the target host is not in error and the process was
    spawned, finished before the timeout and exited with code 0. When success
    is false, stderr states the cause: the invalid address, the timeout, the
    spawn failure or other fault with the exception's message, or, after an
    exit code other than 0, what the process wrote to its stderr. *)
Theorem execute_command_always_returns (command : string) (target_host : PyVal) (w : World) :
  optional_str target_host ->
  exists r w',
    NodeToolExecutor.execute_command os self command target_host w = (Ok r, w') /\
    (success r = true <-> exited_zero os self command target_host) /\
    (success r = false -> failure_cause os self command target_host (stderr r)).
Proof.
  intros Hty. destruct (optional_str_host target_host Hty) as [Hp | (ip & Hrej)].
  2:{ eexists _, _. split; [apply execute_command_host_rejected; exact Hrej|].
      simpl. split.
      - split; [discriminate|]. intros [Hp _].
        destruct (host_rejected_not_passes _ _ Hrej Hp).
      - intros _. constructor. exact Hrej. }
  destruct (spawned os self command target_host) as [p|e] eqn:Hs.
  2:{ eexists _, _. split; [apply (execute_command_spawn_raises os self _ _ e _ Hp Hs)|].
      simpl. split.
      - split; [discriminate|]. intros (_ & p & out & err & Hs' & _). congruence.
      - intros _. apply cause_spawn; assumption. }
  destruct (communicate p (NodeToolExecutor.timeout self)) as [[out err]|e] eqn:Hc.
  - eexists _, _. split; [apply (execute_command_completed os self _ _ p out err _ Hp Hs Hc)|].
    simpl. split.
    + rewrite bool_decide_eq_true. split.
      * intros Hrc. split; [exact Hp|]. exists p, out, err. auto.
      * intros (_ & p' & out' & err' & Hs' & Hc' & Hrc). congruence.
    + rewrite bool_decide_eq_false. intros Hrc.
      apply (cause_exit_code os self _ _ p out err); assumption.
  - destruct (decide (exn_class e = AsyncioTimeoutError)) as [Hcls | Hcls].
    + eexists _, _. split; [apply (execute_command_timed_out os self _ _ p e _ Hp Hs Hc Hcls)|].
      simpl. split.
      * split; [discriminate|]. intros (_ & p' & out & err & Hs' & Hc' & _). congruence.
      * intros _. apply (cause_timeout os self _ _ p e); assumption.
    + eexists _, _.
      split; [apply (execute_command_communicate_raises os self _ _ p e _ Hp Hs Hc Hcls)|].
      simpl. split.
      * split; [discriminate|]. intros (_ & p' & out & err & Hs' & Hc' & _). congruence.
      * intros _. apply (cause_fault os self _ _ p e); assumption.
Qed.

End ExecutorResult.

(** ** The nodetool executor: what is spawned *)

Section ExecutorSpawns.
Context {C : Type} `{IConfigurationManager C}.
Variable os : Platform.
Variable self : NodeToolExecutor.t C.

Lemma execute_command_type_error (command : string) (target_host : PyVal) (w : World) :
  truthy target_host = true -> isinstance_str target_host = false ->
  NodeToolExecutor.execute_command os self command target_host w =
  (Raise (mkExn TypeError "expected string or bytes-like object"),
   {| clock_reads := S (S (clock_reads w)); journal := journal w |}).
Proof.
  intros Ht Hs. unfold NodeToolExecutor.execute_command. rewrite Ht.
  destruct target_host; try discriminate; reflexivity.
Qed.

Lemma argv_expected (command : string) (target_host : PyVal) :
  argv os self command target_host = expected_argv os self command target_host.
Proof.
  unfold argv, expected_argv, NodeToolExecutor.build_command.
  destruct target_host as [| | |h| |]; try reflexivity. simpl.
  destruct (String.eqb h ""); reflexivity.
Qed.

(** What a run of the executor journals: nothing, or one spawn with the
    expected argument vector and then no other spawn. *)
Lemma execute_command_events (command : string) (target_host : PyVal) (w : World) :
  exists evs,
    journal (snd (NodeToolExecutor.execute_command os self command target_host w)) =
    journal w ++ evs /\
    (evs = [] \/
     exists rest, evs = EvSpawn (expected_argv os self command target_host)
                          (NodeToolExecutor._get_environment os self) :: rest /\
                  Forall (fun ev => ev = EvCommunicate (NodeToolExecutor.timeout self) \/
                                    ev = EvKill \/ ev = EvWait) rest) /\
    (host_passes target_host -> evs <> []).
Proof.
  assert (Hcases : host_passes target_host \/ (exists ip, host_rejected target_host ip) \/
                   (truthy target_host = true /\ isinstance_str target_host = false)).
  { destruct (truthy target_host) eqn:Ht; [|left; left; exact Ht].
    destruct (isinstance_str target_host) eqn:Hs; [|right; right; auto].
    destruct target_host as [| | |s| |]; try discriminate.
    destruct (optional_str_host (PyStr s)) as [Hp | Hr]; [right; eauto | auto | auto]. }
  destruct Hcases as [Hp | [(ip & Hrej) | [Ht Hs]]].
  2:{ exists []. rewrite (execute_command_host_rejected os self _ _ ip _ Hrej). simpl.
      rewrite app_nil_r. split; [reflexivity|]. split; [auto|].
      intros Hp. destruct (host_rejected_not_passes _ _ Hrej Hp). }
  2:{ exists []. rewrite (execute_command_type_error _ _ _ Ht Hs). simpl.
      rewrite app_nil_r. split; [reflexivity|]. split; [auto|].
      intros [Hf | (ip & -> & _)]; [congruence | discriminate]. }
  rewrite <- argv_expected.
  destruct (spawned os self command target_host) as [p|e] eqn:Hsp.
  2:{ eexists. rewrite (execute_command_spawn_raises os self _ _ e _ Hp Hsp). simpl.
      split; [reflexivity|]. split; [|discriminate]. right. exists []. auto. }
  destruct (communicate p (NodeToolExecutor.timeout self)) as [[out err]|e] eqn:Hc.
  - eexists. rewrite (execute_command_completed os self _ _ p out err _ Hp Hsp Hc). simpl.
    split; [reflexivity|]. split; [|discriminate]. right. eexists. split; [reflexivity|].
    repeat (constructor; [auto|]); constructor.
  - destruct (decide (exn_class e = AsyncioTimeoutError)) as [Hcls | Hcls].
    + eexists. rewrite (execute_command_timed_out os self _ _ p e _ Hp Hsp Hc Hcls). simpl.
      split; [reflexivity|]. split; [|discriminate]. right. eexists. split; [reflexivity|].
      destruct (kill p); repeat (constructor; [auto|]); constructor.
    + eexists. rewrite (execute_command_communicate_raises os self _ _ p e _ Hp Hsp Hc Hcls).
      simpl. split; [reflexivity|]. split; [|discriminate]. right. eexists.
      split; [reflexivity|]. repeat (constructor; [auto|]); constructor.
Qed.

Lemma events_spawn_only (evs : list Event) (argv : list string) (env : gmap string string)
    (timeout : Z) :
  (evs = [] \/
   exists rest, evs = EvSpawn argv env :: rest /\
                Forall (fun ev => ev = EvCommunicate timeout \/ ev = EvKill \/ ev = EvWait) rest) ->
  spawns_only evs argv.
Proof.
  intros [-> | (rest & -> & Hrest)] a e Hin.
  - apply elem_of_nil in Hin. contradiction.
  - apply elem_of_cons in Hin as [[= -> ->] | Hin]; [reflexivity|].
    rewrite Forall_forall in Hrest. apply Hrest in Hin.
    destruct Hin as [Hev | [Hev | Hev]]; discriminate.
Qed.

Lemma build_command_host (command : string) (host : option string) :
  NodeToolExecutor.build_command os self command [] host =
  [path_join os (get_cassandra_bin_path (NodeToolExecutor.config_manager self)) "nodetool"] ++
  match host with
  | Some h => if String.eqb h "" then [] else ["-h"; h]
  | None => []
  end ++ [command].
Proof.
  unfold NodeToolExecutor.build_command.
  destruct host as [h|]; [|reflexivity]. simpl. destruct (String.eqb h ""); reflexivity.
Qed.

Lemma executor_spawns_only (command : string) (target_host : PyVal) (w : World) :
  exists evs,
    journal (snd (NodeToolExecutor.execute_command os self command target_host w)) =
    journal w ++ evs /\
    spawns_only evs (expected_argv os self command target_host) /\
    (host_passes target_host ->
     exists rest, evs = EvSpawn (expected_argv os self command target_host)
                          (NodeToolExecutor._get_environment os self) :: rest).
Proof.
  destruct (execute_command_events command target_host w) as (evs & Hj & Hshape & Hne).
  exists evs. split; [exact Hj|]. split; [eapply events_spawn_only; exact Hshape|].
  intros Hp. destruct Hshape as [-> | (rest & -> & _)]; [destruct (Hne Hp eq_refl) | eauto].
Qed.

Lemma dispatch_spawns_only (cmds : odict (gmap string PyVal)) (name : string)
    (args : gmap string PyVal) (w : World) :
  exists evs,
    journal (snd (CommandRegistry.execute_command os (system os self cmds) name args w)) =
    journal w ++ evs /\
    spawns_only evs (expected_argv os self name (dict_get args "target_host" PyNone)).
Proof.
  unfold CommandRegistry.execute_command.
  unfold mbind at 1. unfold M_bind at 1. unfold lift at 1.
  destruct (CommandRegistry.validate_command (system os self cmds) name args) as [[|]|e].
  - cbn [negb]. run_M. cbn [CommandRegistry.executor system].
    set (host := dict_get args "target_host" PyNone).
    set (w1 := {| clock_reads := clock_reads w; journal := journal w ++ [EvExecutor name host] |}).
    destruct (execute_command_events name host w1) as (evs & Hj & Hshape & _).
    exists (EvExecutor name host :: evs). rewrite Hj. simpl. rewrite <- app_assoc.
    split; [reflexivity|]. intros a env Hin.
    apply elem_of_cons in Hin as [Hin | Hin]; [discriminate|].
    eapply events_spawn_only; [exact Hshape | exact Hin].
  - exists []. simpl. rewrite app_nil_r. split; [reflexivity|].
    intros a env Hin. apply elem_of_nil in Hin. contradiction.
  - exists []. simpl. rewrite app_nil_r. split; [reflexivity|].
    intros a env Hin. apply elem_of_nil in Hin. contradiction.
Qed.

(** C6. The argument vector [build_command] makes for a command and an
    optional host is the binary path, then "-h" and the host when a host is
    given (a host that is not the empty string), then the command name. Every
    process the executor spawns has exactly that argument vector, and it does
    spawn one when the target host is not in error. Every process a dispatch
    through the registry spawns has the argument vector made of the binary
    path, the host option from [target_host], and the name: whatever else
    [args] holds (keyspace, table, key, tag) is not on the command line. *)
Theorem spawned_argument_vector :
  (forall command host,
     NodeToolExecutor.build_command os self command [] host =
     [path_join os (get_cassandra_bin_path (NodeToolExecutor.config_manager self)) "nodetool"] ++
     match host with
     | Some h => if String.eqb h "" then [] else ["-h"; h]
     | None => []
     end ++ [command]) /\
  (forall command target_host w,
     exists evs,
       journal (snd (NodeToolExecutor.execute_command os self command target_host w)) =
       journal w ++ evs /\
       spawns_only evs (expected_argv os self command target_host) /\
       (host_passes target_host ->
        exists rest, evs = EvSpawn (expected_argv os self command target_host)
                             (NodeToolExecutor._get_environment os self) :: rest)) /\
  (forall cmds name args w,
     exists evs,
       journal (snd (CommandRegistry.execute_command os (system os self cmds) name args w)) =
       journal w ++ evs /\
       spawns_only evs (expected_argv os self name (dict_get args "target_host" PyNone))).
Proof.
  split; [exact build_command_host|]. split; [exact executor_spawns_only|].
  exact dispatch_spawns_only.
Qed.

End ExecutorSpawns.

(** ** The nodetool executor: timeout, and the empty target host *)

Section ExecutorTimeoutAndHost.
Context {C : Type} `{IConfigurationManager C}.
Variable os : Platform.

(** C4, as amended. The timeout is 300 seconds unless the constructor is
    given another. When the process does not finish within the timeout,
    [execute_command] calls [kill] on it and, if [kill] does not raise, waits
    for it (what either raises is caught); in every case it returns a result
    with success false and stderr "Command timed out after <N> seconds", N
    being the configured timeout. *)
Theorem execute_command_timeout :
  (forall cm : C, NodeToolExecutor.timeout (NodeToolExecutor.__init__ cm None) = 300%Z) /\
  (forall (self : NodeToolExecutor.t C) command target_host w p e,
     host_passes target_host ->
     spawned os self command target_host = Ok p ->
     communicate p (NodeToolExecutor.timeout self) = Raise e ->
     exn_class e = AsyncioTimeoutError ->
     exists r w',
       NodeToolExecutor.execute_command os self command target_host w = (Ok r, w') /\
       success r = false /\
       stderr r = "Command timed out after " +:+ pretty (NodeToolExecutor.timeout self)
                  +:+ " seconds" /\
       journal w' =
         journal w ++
         [EvSpawn (expected_argv os self command target_host)
            (NodeToolExecutor._get_environment os self);
          EvCommunicate (NodeToolExecutor.timeout self);
          EvKill] ++
         match kill p with Ok _ => [EvWait] | Raise _ => [] end).
Proof.
  split; [reflexivity|].
  intros self command target_host w p e Hp Hs Hc Hcls. eexists _, _.
  split; [apply (execute_command_timed_out os self _ _ p e _ Hp Hs Hc Hcls)|].
  simpl. rewrite argv_expected. auto.
Qed.

(** Equal up to the echoed target host *)

Lemma falsy_argv (self : NodeToolExecutor.t C) (command : string) (h : PyVal) :
  truthy h = false -> argv os self command h = argv os self command PyNone.
Proof.
  intros Hf. unfold argv, NodeToolExecutor.build_command.
  destruct h as [| | |s| |]; try reflexivity. simpl in *. rewrite Hf. reflexivity.
Qed.

Lemma execute_command_falsy_host (self : NodeToolExecutor.t C) (command : string)
    (h : PyVal) (w1 w0 : World) :
  truthy h = false ->
  clock_reads w1 = clock_reads w0 ->
  forget_host_event <$> journal w1 = forget_host_event <$> journal w0 ->
  forget_hosts (NodeToolExecutor.execute_command os self command h w1) =
    forget_hosts (NodeToolExecutor.execute_command os self command PyNone w0) /\
  (forall r w', NodeToolExecutor.execute_command os self command h w1 = (Ok r, w') ->
                target_host r = h).
Proof.
  intros Hf Hclock Hjournal.
  assert (Hp : host_passes h) by (left; exact Hf).
  assert (Hp0 : host_passes PyNone) by (left; reflexivity).
  assert (Hsp : spawned os self command h = spawned os self command PyNone).
  { unfold spawned. rewrite (falsy_argv self command h Hf). reflexivity. }
  pose proof (falsy_argv self command h Hf) as Hargv.
  destruct (spawned os self command PyNone) as [p|e] eqn:Hs0.
  2:{ rewrite (execute_command_spawn_raises os self _ _ e _ Hp Hsp).
      rewrite (execute_command_spawn_raises os self _ _ e _ Hp0 Hs0).
      unfold forget_hosts. simpl. rewrite !fmap_app, Hargv, Hclock, Hjournal.
      split; [reflexivity|]. intros r w' [= <- _]. reflexivity. }
  destruct (communicate p (NodeToolExecutor.timeout self)) as [[out err]|e] eqn:Hc.
  - rewrite (execute_command_completed os self _ _ p out err _ Hp Hsp Hc).
    rewrite (execute_command_completed os self _ _ p out err _ Hp0 Hs0 Hc).
    unfold forget_hosts. simpl. rewrite !fmap_app, Hargv, Hclock, Hjournal.
    split; [reflexivity|]. intros r w' [= <- _]. reflexivity.
  - destruct (decide (exn_class e = AsyncioTimeoutError)) as [Hcls | Hcls].
    + rewrite (execute_command_timed_out os self _ _ p e _ Hp Hsp Hc Hcls).
      rewrite (execute_command_timed_out os self _ _ p e _ Hp0 Hs0 Hc Hcls).
      unfold forget_hosts. simpl. rewrite !fmap_app, Hargv, Hclock, Hjournal.
      split; [reflexivity|]. intros r w' [= <- _]. reflexivity.
    + rewrite (execute_command_communicate_raises os self _ _ p e _ Hp Hsp Hc Hcls).
      rewrite (execute_command_communicate_raises os self _ _ p e _ Hp0 Hs0 Hc Hcls).
      unfold forget_hosts. simpl. rewrite !fmap_app, Hargv, Hclock, Hjournal.
      split; [reflexivity|]. intros r w' [= <- _]. reflexivity.
Qed.

Lemma has_argument_empty_host (args : gmap string PyVal) (arg : PyVal) :
  CommandRegistry.has_argument (<["target_host" := PyStr ""]> args) arg =
  CommandRegistry.has_argument (delete "target_host" args) arg.
Proof.
  destruct arg as [| | |a| |]; try reflexivity. simpl.
  destruct (decide (a = "target_host")) as [-> | Hne].
  - rewrite lookup_insert_eq, lookup_delete_eq. reflexivity.
  - rewrite lookup_insert_ne, lookup_delete_ne by congruence. reflexivity.
Qed.

Lemma all_of_ext {A} (f g : A -> Result bool) (l : list A) :
  (forall x, f x = g x) -> all_of f l = all_of g l.
Proof.
  intros Hfg. induction l as [|x l IH]; [reflexivity|]. simpl. rewrite Hfg, IH. reflexivity.
Qed.

Lemma validate_command_empty_host (reg : CommandRegistry.t) (name : string)
    (args : gmap string PyVal) :
  CommandRegistry.validate_command reg name (<["target_host" := PyStr ""]> args) =
  CommandRegistry.validate_command reg name (delete "target_host" args).
Proof.
  unfold CommandRegistry.validate_command.
  destruct (odict_get _ name) as [meta|]; [|reflexivity].
  rewrite lookup_insert_eq, lookup_delete_eq.
  destruct (negb _); [reflexivity|].
  destruct (truthy (dict_get meta "requires_args" (PyBool false))).
  - unfold mbind, Result_bind, rbind.
    destruct (CommandRegistry.iterate _) as [names|e]; [|reflexivity].
    rewrite (all_of_ext _ _ names (has_argument_empty_host args)).
    destruct (all_of _ names) as [[|]|e]; reflexivity.
  - reflexivity.
Qed.

Lemma dispatch_falsy_host (self : NodeToolExecutor.t C) (cmds : odict (gmap string PyVal))
    (name : string) (args1 args0 : gmap string PyVal) (host : PyVal) (w : World) :
  let reg := system os self cmds in
  dict_get args1 "target_host" PyNone = host ->
  dict_get args0 "target_host" PyNone = PyNone ->
  truthy host = false ->
  CommandRegistry.validate_command reg name args1 =
    CommandRegistry.validate_command reg name args0 ->
  forget_hosts (CommandRegistry.execute_command os reg name args1 w) =
    forget_hosts (CommandRegistry.execute_command os reg name args0 w) /\
  (forall r w', CommandRegistry.execute_command os reg name args1 w = (Ok r, w') ->
                target_host r = host).
Proof.
  intros reg Hget1 Hget0 Hfalsy Hv.
  unfold CommandRegistry.execute_command.
  unfold mbind at 1 3 5. unfold M_bind at 1 3 5. unfold lift at 1 2 3.
  rewrite Hv, Hget1, Hget0.
  destruct (CommandRegistry.validate_command reg name args0) as [[|]|e].
  - cbn [negb]. run_M. cbn [CommandRegistry.executor reg system journal clock_reads].
    apply execute_command_falsy_host; [exact Hfalsy | reflexivity|].
    cbn [journal]. rewrite !fmap_app. reflexivity.
  - split; [reflexivity|]. cbn [negb]. run_M. intros r w' [= <- _]. reflexivity.
  - split; [reflexivity|]. intros r w'. discriminate.
Qed.

(** C10, as amended. With [target_host] bound to the empty string a dispatch
    validates as the dispatch without [target_host] does, and runs as it
    does, up to the echoed host: the two results and what the two runs do to
    the outside are the same once the target host of the result and of the
    call to the executor is left out; the one echoes the empty string, the
    other None. The address check is skipped (the empty string, which is not
    a valid address, passes as no host does), and every process spawned has
    the argument vector of the binary path and the name, without "-h". *)
Theorem empty_target_host_as_absent (self : NodeToolExecutor.t C)
    (cmds : odict (gmap string PyVal)) (name : string) (args : gmap string PyVal)
    (w : World) :
  let reg := system os self cmds in
  let with_empty := <["target_host" := PyStr ""]> args in
  let without := delete "target_host" args in
  CommandRegistry.validate_command reg name with_empty =
    CommandRegistry.validate_command reg name without /\
  forget_hosts (CommandRegistry.execute_command os reg name with_empty w) =
    forget_hosts (CommandRegistry.execute_command os reg name without w) /\
  (forall r w', CommandRegistry.execute_command os reg name with_empty w = (Ok r, w') ->
                target_host r = PyStr "") /\
  (forall r w', CommandRegistry.execute_command os reg name without w = (Ok r, w') ->
                target_host r = PyNone) /\
  (exists evs,
     journal (snd (CommandRegistry.execute_command os reg name with_empty w)) =
       journal w ++ evs /\
     spawns_only evs
       [path_join os (get_cassandra_bin_path (NodeToolExecutor.config_manager self)) "nodetool";
        name]) /\
  host_passes (PyStr "") /\
  NodeToolExecutor._validate_ip_format "" = Ok false.
Proof.
  intros reg with_empty without.
  pose proof (validate_command_empty_host reg name args) as Hval.
  fold with_empty without in Hval.
  assert (Hget1 : dict_get with_empty "target_host" PyNone = PyStr "").
  { unfold dict_get, with_empty. rewrite lookup_insert_eq. reflexivity. }
  assert (Hget0 : dict_get without "target_host" PyNone = PyNone).
  { unfold dict_get, without. rewrite lookup_delete_eq. reflexivity. }
  split; [exact Hval|].
  destruct (dispatch_falsy_host self cmds name with_empty without (PyStr "") w
              Hget1 Hget0 eq_refl Hval) as [Hsame Hecho1].
  destruct (dispatch_falsy_host self cmds name without without PyNone w
              Hget0 Hget0 eq_refl eq_refl) as [_ Hecho0].
  split; [exact Hsame|]. split; [exact Hecho1|]. split; [exact Hecho0|].
  split; [|split; [left; reflexivity | reflexivity]].
  destruct (dispatch_spawns_only os self cmds name with_empty w) as (evs & Hj & Hsp).
  exists evs. split; [exact Hj|]. rewrite Hget1 in Hsp. exact Hsp.
Qed.

End ExecutorTimeoutAndHost.

Lemma execute_command_always_returns_witness :
  exists r w',
    NodeToolExecutor.execute_command Demo.os_ok Demo.nodetool "status" (PyStr "10.0.0.5")
      initial_World = (Ok r, w') /\
    (success r = true <->
     exited_zero Demo.os_ok Demo.nodetool "status" (PyStr "10.0.0.5")) /\
    (success r = false ->
     failure_cause Demo.os_ok Demo.nodetool "status" (PyStr "10.0.0.5") (stderr r)).
Proof.
  apply (execute_command_always_returns Demo.os_ok Demo.nodetool).
  right. exists "10.0.0.5". reflexivity.
Defined.

Lemma execute_command_timeout_witness :
  exists r w',
    NodeToolExecutor.execute_command Demo.os_hang Demo.nodetool "repair" PyNone
      initial_World = (Ok r, w') /\
    success r = false /\
    stderr r = "Command timed out after 300 seconds" /\
    journal w' =
      [EvSpawn (expected_argv Demo.os_hang Demo.nodetool "repair" PyNone)
         (NodeToolExecutor._get_environment Demo.os_hang Demo.nodetool);
       EvCommunicate 300; EvKill; EvWait].
Proof.
  apply (proj2 (execute_command_timeout Demo.os_hang) Demo.nodetool "repair" PyNone
           initial_World Demo.hanging (mkExn AsyncioTimeoutError "")).
  - left. reflexivity.
  - reflexivity.
  - reflexivity.
  - reflexivity.
Defined.

(** C4, as stated, fails: a process that is gone when [kill] is called makes
    [kill] raise, the executor catches that and does not wait. *)
Lemma timeout_without_wait :
  ~ kills_and_waits_on_timeout Demo.os_vanish Demo.nodetool.
Proof.
  intros Hk.
  destruct (Hk "repair" PyNone initial_World Demo.vanishing (mkExn AsyncioTimeoutError "")
              (or_introl eq_refl) eq_refl eq_refl eq_refl) as [before Hj].
  rewrite (execute_command_timed_out Demo.os_vanish Demo.nodetool "repair" PyNone
             Demo.vanishing (mkExn AsyncioTimeoutError "") initial_World
             (or_introl eq_refl) eq_refl eq_refl eq_refl) in Hj.
  apply (f_equal (fun evs => last evs)) in Hj.
  change [EvKill; EvWait] with ([EvKill] ++ [EvWait]) in Hj.
  rewrite (app_assoc before [EvKill] [EvWait]), last_snoc in Hj.
  cbv [last app journal initial_World Demo.vanishing kill] in Hj. discriminate Hj.
Qed.

Lemma spawned_argument_vector_witness :
  exists rest,
    journal (snd (NodeToolExecutor.execute_command Demo.os_ok Demo.nodetool "status"
                    (PyStr "10.0.0.5") initial_World)) =
    EvSpawn ["/usr/local/cassandra/bin/nodetool"; "-h"; "10.0.0.5"; "status"]
      (NodeToolExecutor._get_environment Demo.os_ok Demo.nodetool) :: rest.
Proof.
  destruct (proj1 (proj2 (spawned_argument_vector Demo.os_ok Demo.nodetool))
              "status" (PyStr "10.0.0.5") initial_World) as (evs & Hj & _ & Hspawn).
  destruct Hspawn as [rest ->].
  - right. exists "10.0.0.5". split; reflexivity.
  - exists rest. exact Hj.
Defined.

Lemma empty_target_host_as_absent_witness :
  forget_hosts (CommandRegistry.execute_command Demo.os_ok (Demo.registry Demo.os_ok)
                  "status" {[ "target_host" := PyStr "" ]} initial_World) =
  forget_hosts (CommandRegistry.execute_command Demo.os_ok (Demo.registry Demo.os_ok)
                  "status" ∅ initial_World).
Proof.
  pose proof (empty_target_host_as_absent Demo.os_ok Demo.nodetool
                (CommandRegistry._commands (Demo.registry Demo.os_ok)) "status" ∅
                initial_World) as (_ & Hsame & _).
  rewrite delete_empty in Hsame. exact Hsame.
Defined.

(** C10, as stated, fails: the dispatch with the empty string echoes it as
    the target host of its result, the dispatch without one echoes None. *)
Lemma empty_host_is_echoed :
  ~ empty_host_exactly_as_absent Demo.os_ok (Demo.registry Demo.os_ok).
Proof.
  intros Hsame. specialize (Hsame "status" ∅ initial_World).
  apply (f_equal (fun run => match fst run with
                             | Ok r => Some (target_host r)
                             | Raise _ => None
                             end)) in Hsame.
  vm_compute in Hsame. discriminate Hsame.
Qed.

(** ** The status parser *)

Section StatusParser.
Import NodeToolExecutor.

Lemma substring_all (s : string) : String.substring 0 (String.length s) s = s.
Proof. induction s as [|c s IH]; [reflexivity|]. simpl. rewrite IH. reflexivity. Qed.

Lemma prefix_app (p s : string) :
  String.prefix p s = true -> s = p +:+ String.substring (String.length p) (String.length s - String.length p) s.
Proof.
  revert s. induction p as [|c p IH]; intros s Hp.
  - simpl. rewrite Nat.sub_0_r, substring_all. reflexivity.
  - destruct s as [|c' s]; [discriminate|]. simpl in Hp.
    destruct (ascii_dec c c') as [<-|]; [|discriminate].
    rewrite str_app_cons. simpl. f_equal. apply IH. exact Hp.
Qed.

Lemma datacenter_value (line : string) :
  startswith line "Datacenter:" = true ->
  getitem (split_on_first ":" line) 1 =
  Ok (String.substring 11 (String.length line - 11) line).
Proof.
  intros Hp. apply prefix_app in Hp. simpl String.length in Hp.
  rewrite Hp at 1. reflexivity.
Qed.

Lemma first_char_in_node_line (line : string) :
  first_char_in line ["U"; "D"; "N"] = is_node_line line.
Proof.
  destruct line as [|c line]; [reflexivity|]. simpl.
  rewrite !(Ascii.eqb_sym c). rewrite orb_false_r, orb_assoc.
  destruct (Ascii.eqb "U" c), (Ascii.eqb "D" c), (Ascii.eqb "N" c); reflexivity.
Qed.

Lemma split_ws_nonempty (s : string) : Forall (fun t => t <> "") (split_ws s).
Proof.
  induction s as [|c s IH]; [constructor|]. simpl.
  destruct (isspace c); [exact IH|].
  destruct s as [|c' s']; [repeat constructor; discriminate|].
  destruct (isspace c'); [constructor; [discriminate | exact IH]|].
  destruct (split_ws (String c' s')) as [|h t]; [repeat constructor; discriminate|].
  apply Forall_cons in IH as [_ IH]. constructor; [discriminate | exact IH].
Qed.

Lemma state_char (t0 : string) :
  (if 1 <? String.length t0 then str_getitem t0 1 else Ok "") = Ok (char_at t0 1).
Proof.
  unfold str_getitem, char_at. destruct t0 as [|c0 [|c1 t]]; reflexivity.
Qed.

Lemma parse_status_line_spec (dc : option string) (found : list StatusNode) (raw : string) :
  parse_status_line (dc, found) raw =
  Ok (let line := strip raw in
      if startswith line "Datacenter:" then (Some (after_datacenter line), found)
      else if is_node_line line then
        match node_of_tokens rack_seventh dc (split_ws line) with
        | Some node => (dc, found ++ [node])
        | None => (dc, found)
        end
      else (dc, found)).
Proof.
  unfold parse_status_line. cbv zeta. set (line := strip raw).
  destruct (startswith line "Datacenter:") eqn:Hdc.
  - rewrite (datacenter_value line Hdc). reflexivity.
  - rewrite first_char_in_node_line. destruct (is_node_line line); [|reflexivity].
    pose proof (split_ws_nonempty line) as Hne.
    destruct (split_ws line) as [|t0 [|t1 [|t2 [|t3 [|t4 [|t5 rest]]]]]]; try reflexivity.
    apply Forall_cons in Hne as [Ht0 _].
    cbn [length Nat.leb getitem nth_error mbind Result_bind rbind].
    rewrite state_char.
    destruct t0 as [|c0 t0]; [congruence|].
    destruct rest as [|t6 rest]; reflexivity.
Qed.

Lemma parse_status_lines_spec (lines : list string) :
  forall (dc : option string) (found : list StatusNode),
  exists dc',
    parse_status_lines (dc, found) lines =
    Ok (dc', found ++ status_nodes rack_seventh dc lines).
Proof.
  induction lines as [|raw lines IH]; intros dc found.
  - exists dc. simpl. rewrite app_nil_r. reflexivity.
  - cbn [parse_status_lines status_nodes]. rewrite parse_status_line_spec.
    cbn [mbind Result_bind rbind]. cbv zeta.
    destruct (startswith (strip raw) "Datacenter:"); [apply IH|].
    destruct (is_node_line (strip raw)); [|apply IH].
    destruct (node_of_tokens rack_seventh dc (split_ws (strip raw))) as [node|]; [|apply IH].
    destruct (IH dc (found ++ [node])) as (dc' & ->). exists dc'.
    rewrite <- app_assoc. reflexivity.
Qed.

Lemma parse_status_output_report : parses_status_as rack_seventh.
Proof.
  intros output. unfold _parse_status_output, status_report. cbv zeta.
  destruct (parse_status_lines_spec (split_on "010" (strip output)) None []) as (dc' & ->).
  reflexivity.
Qed.

(** What [_parse_status_output] computes. It never raises and gives the nodes
    of the status listing: a line starting with Datacenter: sets the
    datacenter of the node lines after it; a line whose first character is
    U, D or N and that splits into at least 6 tokens is a node, with status
    and state the first and (if present) second character of token 0,
    address, load, tokens, owns and host id the tokens 1 to 5, and rack the
    token 6, the seventh, when there are more than 6 tokens; every other line
    is ignored. 'Datacenter: dc1' followed by
    'UN 127.0.0.1 100KB 256 100% abc123 rack1' gives exactly one node, with
    status U, state N, address 127.0.0.1, datacenter dc1 and rack rack1. *)
Theorem parse_status_output_nodes :
  parses_status_as rack_seventh /\
  _parse_status_output ("Datacenter: dc1" +:+ String "010" "UN 127.0.0.1 100KB 256 100% abc123 rack1") =
  Ok {| nodes := [ {| status := "U"; state := "N"; address := "127.0.0.1"; load := "100KB";
                      tokens := "256"; owns := "100%"; host_id := "abc123"; rack := "rack1";
                      datacenter := Some "dc1" |} ];
        total_nodes := 1 |}.
Proof. split; [exact parse_status_output_report | vm_compute; reflexivity]. Qed.

(** With more than 7 tokens the rack [_parse_status_output] gives is the
    seventh token, not the last. A load written with a space, as '100 KB',
    gives 8 tokens and the rack 'abc123'. *)
Lemma rack_is_not_the_last_token : ~ parses_status_as rack_last.
Proof.
  intros Hlast.
  specialize (Hlast "UN 127.0.0.1 100 KB 256 100% abc123 rack1").
  vm_compute in Hlast. discriminate Hlast.
Qed.

(** C7. The rack of a node is the last token of its line: the sibling parser
    [HealthCheck._parse_status_output] reads [parts[-1]] ("it's the last
    column") and [tests/test_health_check.py] expects rack1.
    [NodeToolExecutor._parse_status_output] reads [parts[6]] instead. On the
    node line of the repository's tests, where the load is written with a
    space and the line has 8 tokens, it gives the host id abc123 as the rack
    (and 100, KB, 256 and 100% as load, tokens, owns and host id), where the
    last token, and the rack of the sibling parser, is rack1. *)
Theorem parse_status_output_rack_slip :
  split_ws Samples.node_line =
    ["UN"; "127.0.0.1"; "100"; "KB"; "256"; "100%"; "abc123"; "rack1"] /\
  _parse_status_output Samples.status_listing =
    Ok {| nodes := [ {| status := "U"; state := "N"; address := "127.0.0.1"; load := "100";
                        tokens := "KB"; owns := "256"; host_id := "100%"; rack := "abc123";
                        datacenter := Some "datacenter1" |} ];
          total_nodes := 1 |} /\
  rack <$> nodes (status_report rack_last Samples.status_listing) = ["rack1"] /\
  HealthCheck._parse_status_output Samples.status_listing =
    Ok [ {| HealthCheck.address := "127.0.0.1"; HealthCheck.status := "U";
            HealthCheck.state := "N"; HealthCheck.load := "100";
            HealthCheck.datacenter := Some "datacenter1";
            HealthCheck.rack := Some "rack1" |} ].
Proof. repeat split; vm_compute; reflexivity. Qed.

End StatusParser.

(** ** The repository's tests, on the embedding *)

(** [tests/test_nodetool_executor.py]: the address validator. *)
Example test_validate_ip_format_valid_ipv4 :
  NodeToolExecutor._validate_ip_format <$> ["192.168.1.1"; "10.0.0.1"; "127.0.0.1"; "255.255.255.255"]
  = [Ok true; Ok true; Ok true; Ok true].
Proof. vm_compute. reflexivity. Qed.

Example test_validate_ip_format_invalid_ipv4 :
  NodeToolExecutor._validate_ip_format <$>
    ["256.1.1.1"; "192.168.1"; "192.168.1.1.1"; "abc.def.ghi.jkl"; ""]
  = [Ok false; Ok false; Ok false; Ok false; Ok false].
Proof. vm_compute. reflexivity. Qed.

Example test_validate_ip_format_valid_ipv6 :
  NodeToolExecutor._validate_ip_format <$>
    ["2001:0db8:85a3:0000:0000:8a2e:0370:7334"; "::1"; "fe80::1"]
  = [Ok true; Ok true; Ok true].
Proof. vm_compute. reflexivity. Qed.

(** [tests/test_nodetool_executor.py]: the command line. *)
Example test_build_command :
  NodeToolExecutor.build_command Demo.os_ok Demo.nodetool "status" [] None
  = ["/usr/local/cassandra/bin/nodetool"; "status"] /\
  NodeToolExecutor.build_command Demo.os_ok Demo.nodetool "status" ["--resolve-ip"]
    (Some "192.168.1.100")
  = ["/usr/local/cassandra/bin/nodetool"; "-h"; "192.168.1.100"; "status"; "--resolve-ip"] /\
  NodeToolExecutor.build_command Demo.os_ok Demo.nodetool "repair" ["keyspace1"; "table1"] None
  = ["/usr/local/cassandra/bin/nodetool"; "repair"; "keyspace1"; "table1"].
Proof. repeat split; reflexivity. Qed.

(** [tests/test_nodetool_executor.py]: an invalid address is reported and
    nothing is spawned. *)
Example test_execute_command_invalid_ip :
  exists r w',
    NodeToolExecutor.execute_command Demo.os_ok Demo.nodetool "status" (PyStr "invalid-ip")
      initial_World = (Ok r, w') /\
    success r = false /\ stderr r = "Invalid IP format: invalid-ip" /\
    command r = "status" /\ target_host r = PyStr "invalid-ip" /\ journal w' = [].
Proof.
  eexists _, _. split.
  - apply execute_command_host_rejected. repeat split; vm_compute; reflexivity.
  - repeat split; reflexivity.
Qed.

(** [tests/test_nodetool_executor.py]: the status listing of the test has two
    node lines. *)
Example test_parse_output_status :
  (report ←
    NodeToolExecutor._parse_status_output
      ("Datacenter: datacenter1" +:+ String "010"
       "=======================" +:+ String "010"
       "Status=Up/Down" +:+ String "010"
       "|/ State=Normal/Leaving/Joining/Moving" +:+ String "010"
       "--  Address    Load       Tokens  Owns    Host ID                               Rack" +:+ String "010"
       "UN  127.0.0.1  100 KB     256     100%    abc123                                rack1" +:+ String "010"
       "UN  127.0.0.2  200 KB     256     100%    def456                                rack1" +:+ String "010" "");
   Ok (NodeToolExecutor.total_nodes report))
  = Ok 2.
Proof. vm_compute. reflexivity. Qed.

(** [tests/test_command_registry.py]: validation. *)
Example test_validate_command :
  let registry := Demo.registry Demo.os_ok in
  CommandRegistry.validate_command registry "status" ∅ = Ok true /\
  CommandRegistry.validate_command registry "repair" ∅ = Ok true /\
  CommandRegistry.validate_command registry "info" {[ "target_host" := PyStr "192.168.1.1" ]}
    = Ok true /\
  CommandRegistry.validate_command registry "unknown_command" ∅ = Ok false /\
  CommandRegistry.validate_command registry "getsstables" ∅ = Ok false /\
  CommandRegistry.validate_command registry "getsstables" {[ "keyspace" := PyStr "test" ]}
    = Ok false /\
  CommandRegistry.validate_command registry "getsstables" Demo.sstables_args = Ok true /\
  CommandRegistry.validate_command registry "status" {[ "target_host" := PyInt 123 ]}
    = Ok false.
Proof. repeat split; vm_compute; reflexivity. Qed.

(** [tests/test_command_registry.py]: registration. *)
Example test_register_command :
  (exists registry',
     CommandRegistry.register_command (Demo.registry Demo.os_ok) "status"
       (PyDict Demo.test_handler) = Ok registry' /\
     CommandRegistry.get_command_metadata registry' "status" = Some Demo.test_handler) /\
  CommandRegistry.register_command (Demo.registry Demo.os_ok) "dangerous_command"
    (PyDict Demo.test_handler)
  = Raise (mkExn ValueError "Command 'dangerous_command' is not in the safe commands list").
Proof.
  split.
  - eexists. split; [apply register_command_accepted|].
    + apply (bool_decide_unpack _). vm_compute. exact I.
    + reflexivity.
  - vm_compute. reflexivity.
Qed.

(** [tests/test_command_registry.py]: a dispatch with a target host reaches
    the executor with the name and the host, and the result echoes the host. *)
Example test_execute_command_with_target_host :
  exists r w',
    CommandRegistry.execute_command Demo.os_ok (Demo.registry Demo.os_ok) "info"
      {[ "target_host" := PyStr "192.168.1.1" ]} initial_World = (Ok r, w') /\
    success r = true /\ target_host r = PyStr "192.168.1.1" /\
    head (journal w') = Some (EvExecutor "info" (PyStr "192.168.1.1")).
Proof.
  eexists _, _. split; [vm_compute; reflexivity|]. repeat split; reflexivity.
Qed.

(** * Further properties of the code *)

Import Shape.

(** ** The address check and a final newline *)

Lemma core_app_newline (s : string) : core (s +:+ String "010" "") = s.
Proof.
  unfold core. destruct (chop_newline (s +:+ String "010" "")) as [s'|] eqn:Hc.
  - apply chop_newline_Some in Hc.
    revert s' Hc. induction s as [|c s IH]; intros s' Hc.
    + destruct s' as [|c' s']; [reflexivity|]. rewrite str_app_nil_l, str_app_cons in Hc.
      injection Hc as _ Hc. destruct s'; discriminate.
    + rewrite str_app_cons in Hc. destruct s' as [|c' s'].
      * rewrite str_app_nil_l in Hc. injection Hc as _ Hc. destruct s; discriminate.
      * rewrite str_app_cons in Hc. injection Hc as -> Hc. f_equal. apply IH. exact Hc.
  - assert (H : chop_newline (s +:+ String "010" "") = Some s)
      by (apply chop_newline_Some; reflexivity).
    congruence.
Qed.

Lemma validate_ip_format_newline (s : string) :
  ~ ends_with_newline s ->
  NodeToolExecutor._validate_ip_format (s +:+ String "010" "") =
  NodeToolExecutor._validate_ip_format s.
Proof.
  intros Hn.
  destruct (validate_ip_format_core (s +:+ String "010" "")) as (b1 & H1 & I1).
  destruct (validate_ip_format_core s) as (b2 & H2 & I2).
  rewrite core_app_newline in I1. rewrite (core_without_newline s Hn) in I2.
  rewrite H1, H2. f_equal. destruct b1, b2; try reflexivity.
  - symmetry. apply I2, I1. reflexivity.
  - apply I1, I2. reflexivity.
Qed.

(** X1. [_validate_ip_format] never raises, whatever the string: [int] is
    only reached on groups of digits. And a newline at the end is not seen:
    a string that does not end with a newline gets the same answer with one
    newline added, so that an accepted address followed by a newline is
    accepted, and two newlines are one too many. *)
Theorem validate_ip_format_final_newline (s : string) :
  (exists b, NodeToolExecutor._validate_ip_format s = Ok b) /\
  (~ ends_with_newline s ->
   NodeToolExecutor._validate_ip_format (s +:+ String "010" "") =
   NodeToolExecutor._validate_ip_format s) /\
  NodeToolExecutor._validate_ip_format (s +:+ String "010" (String "010" "")) = Ok false.
Proof.
  split; [|split].
  - destruct (validate_ip_format_core s) as (b & Hb & _). exists b. exact Hb.
  - apply validate_ip_format_newline.
  - set (t := s +:+ String "010" "").
    assert (Ht : s +:+ String "010" (String "010" "") = t +:+ String "010" "").
    { unfold t. rewrite str_app_assoc. reflexivity. }
    rewrite Ht. destruct (validate_ip_format_core (t +:+ String "010" "")) as (b & Hb & Hiff).
    rewrite Hb. destruct b; [|reflexivity]. exfalso.
    rewrite core_app_newline in Hiff.
    assert (Hchars : forall q r, lang r t -> alphabet q r -> all_chars q t = true).
    { intros q r Hl Ha. exact (lang_alphabet q r t Ha Hl). }
    assert (Hnl : forall q, all_chars q t = true -> q "010"%char = true).
    { intros q. unfold t. rewrite all_chars_app. simpl. rewrite andb_true_r.
      intros Hq. apply andb_true_iff in Hq. apply Hq. }
    destruct (proj1 Hiff eq_refl) as [H4 | H6].
    + apply ipv4_literal_lang in H4.
      pose proof (Hnl _ (Hchars ipv4_char _ H4 alphabet_ipv4)) as Hq. discriminate Hq.
    + apply lang_ipv6_pattern in H6.
      pose proof (Hnl _ (Hchars ipv6_char _ H6 alphabet_ipv6)) as Hq. discriminate Hq.
Qed.

Section HostNewline.
Context {C : Type} `{IConfigurationManager C}.
Variable os : Platform.
Variable self : NodeToolExecutor.t C.

(** X2. A target host that is an accepted address followed by a newline is
    not turned away: the process is spawned, and the host goes on the
    command line after "-h" as it came, the newline included. *)
Theorem execute_command_host_with_newline (command s : string) (w : World) :
  ~ ends_with_newline s ->
  NodeToolExecutor._validate_ip_format s = Ok true ->
  exists rest,
    journal (snd (NodeToolExecutor.execute_command os self command
                    (PyStr (s +:+ String "010" "")) w)) =
    journal w ++
    EvSpawn [path_join os (get_cassandra_bin_path (NodeToolExecutor.config_manager self))
               "nodetool";
             "-h"; s +:+ String "010" ""; command]
            (NodeToolExecutor._get_environment os self) :: rest.
Proof.
  intros Hn Hv.
  assert (Hp : host_passes (PyStr (s +:+ String "010" ""))).
  { right. exists (s +:+ String "010" ""). split; [reflexivity|].
    rewrite validate_ip_format_newline by exact Hn. exact Hv. }
  destruct (executor_spawns_only os self command (PyStr (s +:+ String "010" "")) w)
    as (evs & Hj & _ & Hsp).
  destruct (Hsp Hp) as (rest & ->). exists rest. rewrite Hj.
  unfold expected_argv.
  assert (Hne : String.eqb (s +:+ String "010" "") "" = false) by (destruct s; reflexivity).
  rewrite Hne. reflexivity.
Qed.

End HostNewline.

Lemma execute_command_host_with_newline_witness :
  exists rest,
    journal (snd (NodeToolExecutor.execute_command Demo.os_ok Demo.nodetool "status"
                    (PyStr ("10.0.0.5" +:+ String "010" "")) initial_World)) =
    journal initial_World ++
    EvSpawn [path_join Demo.os_ok
               (get_cassandra_bin_path (NodeToolExecutor.config_manager Demo.nodetool))
               "nodetool";
             "-h"; "10.0.0.5" +:+ String "010" ""; "status"]
            (NodeToolExecutor._get_environment Demo.os_ok Demo.nodetool) :: rest.
Proof.
  apply (execute_command_host_with_newline Demo.os_ok Demo.nodetool "status" "10.0.0.5").
  - intros [s' Hs]. apply chop_newline_Some in Hs. vm_compute in Hs. discriminate Hs.
  - vm_compute. reflexivity.
Defined.

(** ** The registry as constructed *)

Lemma target_host_check_decides (args : gmap string PyVal) :
  exists b,
    match args !! "target_host" with
    | Some host => if truthy host && negb (isinstance_str host) then Ok false else Ok true
    | None => Ok true
    end = Ok b /\
    (b = true <->
     forall host, args !! "target_host" = Some host -> truthy host = true ->
                  isinstance_str host = true).
Proof.
  pose proof (target_host_check args) as Hchk.
  destruct (args !! "target_host") as [host|].
  - destruct (truthy host && negb (isinstance_str host)).
    + exists false. split; [reflexivity|]. rewrite <- Hchk. split; discriminate.
    + exists true. split; [reflexivity|]. rewrite <- Hchk. tauto.
  - exists true. split; [reflexivity|]. rewrite <- Hchk. tauto.
Qed.

Lemma validate_command_no_required (self : CommandRegistry.t) (name : string)
    (meta args : gmap string PyVal) :
  odict_get (CommandRegistry._commands self) name = Some meta ->
  truthy (dict_get meta "safe" (PyBool false)) = true ->
  truthy (dict_get meta "requires_args" (PyBool false)) = false ->
  CommandRegistry.validate_command self name args =
  match args !! "target_host" with
  | Some host => if truthy host && negb (isinstance_str host) then Ok false else Ok true
  | None => Ok true
  end.
Proof.
  intros Hm Hs Hr. unfold CommandRegistry.validate_command. rewrite Hm, Hs, Hr. reflexivity.
Qed.

Lemma forallb_supplied (args : gmap string PyVal) (names : list string) :
  forallb (fun a => match args !! a with Some v => truthy v | None => false end) names = true <->
  Forall (fun a => supplied args (PyStr a)) names.
Proof.
  induction names as [|a names IH]; simpl.
  - split; [constructor | reflexivity].
  - rewrite andb_true_iff, IH. split.
    + intros [Ha Hall]. constructor; [|exact Hall].
      destruct (args !! a) as [v|] eqn:Hv; [|discriminate]. exists a, v. auto.
    + intros Hall. inversion Hall as [|? ? (a' & v & [= <-] & Hv & Ht) Hrest]; subst.
      rewrite Hv. auto.
Qed.

(** On the constructed catalog validation comes down to the allow-list, the
    three arguments of [getsstables], and the type of the target host. *)
Lemma validate_command_constructed_eq exec (name : string) (args : gmap string PyVal) :
  CommandRegistry.validate_command (CommandRegistry.__init__ exec) name args =
  let host_check :=
    match args !! "target_host" with
    | Some host => if truthy host && negb (isinstance_str host) then Ok false else Ok true
    | None => Ok true
    end in
  if bool_decide (name ∈ CommandRegistry.SAFE_COMMANDS) then
    if String.eqb name "getsstables" then
      if forallb (fun a => match args !! a with Some v => truthy v | None => false end)
                 ["keyspace"; "table"; "key"]
      then host_check else Ok false
    else host_check
  else Ok false.
Proof.
  cbv zeta. destruct (bool_decide (name ∈ CommandRegistry.SAFE_COMMANDS)) eqn:Hsafe.
  2:{ apply bool_decide_eq_false_1 in Hsafe. apply validate_command_unknown.
      intros Hin. apply Hsafe. apply (init_available_safe exec). exact Hin. }
  apply bool_decide_eq_true_1 in Hsafe. apply (init_available_safe exec) in Hsafe.
  rewrite init_available_commands in Hsafe.
  destruct (String.eqb name "getsstables") eqn:Hname.
  - apply String.eqb_eq in Hname. subst name. apply validate_getsstables.
  - apply String.eqb_neq in Hname.
    repeat (apply elem_of_cons in Hsafe as [-> | Hsafe]);
      try (apply elem_of_nil in Hsafe; contradiction);
      try congruence;
      (eapply validate_command_no_required; [reflexivity | reflexivity | reflexivity]).
Qed.

(** X3. On a freshly constructed registry [validate_command] never raises,
    whatever the name and the arguments, and answers true exactly when the
    name is one of the eleven allow-listed commands, [getsstables] comes with
    non-empty keyspace, table and key, and a target host that is present and
    non-empty is a string. *)
Theorem validate_command_constructed exec (name : string) (args : gmap string PyVal) :
  exists b,
    CommandRegistry.validate_command (CommandRegistry.__init__ exec) name args = Ok b /\
    (b = true <->
     name ∈ CommandRegistry.SAFE_COMMANDS /\
     (name = "getsstables" ->
        Forall (fun a => supplied args (PyStr a)) ["keyspace"; "table"; "key"]) /\
     (forall host, args !! "target_host" = Some host -> truthy host = true ->
                   isinstance_str host = true)).
Proof.
  rewrite validate_command_constructed_eq. cbv zeta.
  destruct (target_host_check_decides args) as (bh & -> & Hbh).
  destruct (bool_decide (name ∈ CommandRegistry.SAFE_COMMANDS)) eqn:Hsafe.
  2:{ apply bool_decide_eq_false_1 in Hsafe. exists false. split; [reflexivity|].
      split; [discriminate | tauto]. }
  apply bool_decide_eq_true_1 in Hsafe.
  destruct (String.eqb name "getsstables") eqn:Hname.
  - apply String.eqb_eq in Hname.
    destruct (forallb _ _) eqn:Hall.
    + exists bh. split; [reflexivity|]. rewrite Hbh. apply forallb_supplied in Hall. tauto.
    + exists false. split; [reflexivity|]. split; [discriminate|].
      intros (_ & Hreq & _). specialize (Hreq Hname). apply forallb_supplied in Hreq.
      congruence.
  - apply String.eqb_neq in Hname. exists bh. split; [reflexivity|]. rewrite Hbh. tauto.
Qed.

(** ** Registration and what it does to validation *)

Lemma validate_after_register_other (self : CommandRegistry.t) (name other : string)
    (meta args : gmap string PyVal) :
  other <> name ->
  CommandRegistry.validate_command
    {| CommandRegistry.executor := CommandRegistry.executor self;
       CommandRegistry._commands := odict_set (CommandRegistry._commands self) name meta |}
    other args =
  CommandRegistry.validate_command self other args.
Proof.
  intros Hne. unfold CommandRegistry.validate_command. cbn [CommandRegistry._commands].
  rewrite odict_get_set_ne by congruence. reflexivity.
Qed.

(** X4. [register_command] takes any dict for an allow-listed name. A handler
    that is not marked safe switches the command off: from then on every
    request for it fails validation, so a dispatch answers without calling
    the executor; the validation of every other command is as before. *)
Theorem register_command_not_marked_safe (self : CommandRegistry.t) (name : string)
    (meta : gmap string PyVal) :
  name ∈ CommandRegistry.SAFE_COMMANDS ->
  truthy (dict_get meta "safe" (PyBool false)) = false ->
  exists self',
    CommandRegistry.register_command self name (PyDict meta) = Ok self' /\
    (forall args, CommandRegistry.validate_command self' name args = Ok false) /\
    (forall os args w,
       exists r w',
         CommandRegistry.execute_command os self' name args w = (Ok r, w') /\
         success r = false /\ journal w' = journal w) /\
    (forall other args, other <> name ->
       CommandRegistry.validate_command self' other args =
       CommandRegistry.validate_command self other args).
Proof.
  intros Hs Hunsafe. eexists. split; [apply register_command_accepted; exact Hs|].
  assert (Hval : forall args,
            CommandRegistry.validate_command
              {| CommandRegistry.executor := CommandRegistry.executor self;
                 CommandRegistry._commands :=
                   odict_set (CommandRegistry._commands self) name meta |} name args
            = Ok false).
  { intros args. unfold CommandRegistry.validate_command. cbn [CommandRegistry._commands].
    rewrite odict_get_set_eq, Hunsafe. reflexivity. }
  split; [exact Hval|]. split.
  - intros os args w. eexists _, _.
    split; [apply execute_command_invalid; apply Hval|]. split; reflexivity.
  - intros other args Hne. apply validate_after_register_other. exact Hne.
Qed.

Lemma register_command_not_marked_safe_witness :
  exists self',
    CommandRegistry.register_command (Demo.registry Demo.os_ok) "status"
      (PyDict Samples.unmarked_handler) = Ok self' /\
    (forall args, CommandRegistry.validate_command self' "status" args = Ok false) /\
    (forall os args w,
       exists r w',
         CommandRegistry.execute_command os self' "status" args w = (Ok r, w') /\
         success r = false /\ journal w' = journal w) /\
    (forall other args, other <> "status" ->
       CommandRegistry.validate_command self' other args =
       CommandRegistry.validate_command (Demo.registry Demo.os_ok) other args).
Proof.
  apply (register_command_not_marked_safe (Demo.registry Demo.os_ok) "status"
           Samples.unmarked_handler).
  - apply (bool_decide_unpack _). vm_compute. exact I.
  - vm_compute. reflexivity.
Defined.

(** X5. A handler marked safe that requires arguments and names them by
    something a [for] loop cannot go through (a number, a truth value, None)
    is registered all the same, and from then on validation of that command
    raises [TypeError]; [execute_command] does not catch it, so the dispatch
    raises instead of returning a result, before anything is done. *)
Theorem register_command_required_args_not_iterable (self : CommandRegistry.t)
    (name : string) (meta : gmap string PyVal) (e : Exn) :
  name ∈ CommandRegistry.SAFE_COMMANDS ->
  marked_safe meta -> requires_args meta ->
  CommandRegistry.iterate (dict_get meta "required_args" (PyList [])) = Raise e ->
  exn_class e = TypeError /\
  exists self',
    CommandRegistry.register_command self name (PyDict meta) = Ok self' /\
    (forall args, CommandRegistry.validate_command self' name args = Raise e) /\
    (forall os args w, CommandRegistry.execute_command os self' name args w = (Raise e, w)).
Proof.
  intros Hs Hsafe Hreq Hit. split.
  { destruct (dict_get meta "required_args" (PyList [])); simpl in Hit;
      try discriminate; injection Hit as <-; reflexivity. }
  eexists. split; [apply register_command_accepted; exact Hs|].
  assert (Hval : forall args,
            CommandRegistry.validate_command
              {| CommandRegistry.executor := CommandRegistry.executor self;
                 CommandRegistry._commands :=
                   odict_set (CommandRegistry._commands self) name meta |} name args
            = Raise e).
  { intros args. unfold CommandRegistry.validate_command. cbn [CommandRegistry._commands].
    unfold marked_safe in Hsafe. unfold requires_args in Hreq.
    rewrite odict_get_set_eq, Hsafe, Hreq, Hit. reflexivity. }
  split; [exact Hval|].
  intros os args w. unfold CommandRegistry.execute_command, mbind, M_bind, lift.
  rewrite Hval. reflexivity.
Qed.

Lemma register_command_required_args_not_iterable_witness :
  exn_class (mkExn TypeError "'int' object is not iterable") = TypeError /\
  exists self',
    CommandRegistry.register_command (Demo.registry Demo.os_ok) "repair"
      (PyDict Samples.numbered_handler) = Ok self' /\
    (forall args, CommandRegistry.validate_command self' "repair" args =
                  Raise (mkExn TypeError "'int' object is not iterable")) /\
    (forall os args w, CommandRegistry.execute_command os self' "repair" args w =
                       (Raise (mkExn TypeError "'int' object is not iterable"), w)).
Proof.
  apply (register_command_required_args_not_iterable (Demo.registry Demo.os_ok) "repair"
           Samples.numbered_handler).
  - apply (bool_decide_unpack _). vm_compute. exact I.
  - vm_compute. reflexivity.
  - vm_compute. reflexivity.
  - vm_compute. reflexivity.
Defined.

(** ** The constructed registry in front of the executor *)

Section EndToEnd.
Context {C : Type} `{IConfigurationManager C}.
Variable os : Platform.
Variable self : NodeToolExecutor.t C.

Lemma execute_command_returns (command : string) (target_host : PyVal) (w : World) :
  (truthy target_host = true -> isinstance_str target_host = true) ->
  exists r w',
    NodeToolExecutor.execute_command os self command target_host w = (Ok r, w') /\
    Models.command r = command /\ Models.target_host r = target_host.
Proof.
  intros Hty.
  assert (Hcases : host_passes target_host \/ exists ip, host_rejected target_host ip).
  { destruct (truthy target_host) eqn:Ht; [|left; left; exact Ht].
    specialize (Hty eq_refl). destruct target_host as [| | |s| |]; try discriminate.
    apply optional_str_host. right. eauto. }
  destruct Hcases as [Hp | (ip & Hrej)].
  2:{ eexists _, _. split; [apply execute_command_host_rejected; exact Hrej|]. auto. }
  destruct (spawned os self command target_host) as [p|e] eqn:Hs.
  2:{ eexists _, _. split; [apply (execute_command_spawn_raises os self _ _ e _ Hp Hs)|]. auto. }
  destruct (communicate p (NodeToolExecutor.timeout self)) as [[out err]|e] eqn:Hc.
  - eexists _, _.
    split; [apply (execute_command_completed os self _ _ p out err _ Hp Hs Hc)|]. auto.
  - destruct (decide (exn_class e = AsyncioTimeoutError)) as [Hcls | Hcls].
    + eexists _, _.
      split; [apply (execute_command_timed_out os self _ _ p e _ Hp Hs Hc Hcls)|]. auto.
    + eexists _, _.
      split; [apply (execute_command_communicate_raises os self _ _ p e _ Hp Hs Hc Hcls)|].
      auto.
Qed.

Lemma dispatch_constructed_returns (name : string) (args : gmap string PyVal) (w : World) :
  exists r w',
    CommandRegistry.execute_command os
      (CommandRegistry.__init__ (NodeToolExecutor.execute_command os self)) name args w =
    (Ok r, w') /\
    command r = name /\
    target_host r = dict_get args "target_host" PyNone /\
    (success r = true -> name ∈ CommandRegistry.SAFE_COMMANDS).
Proof.
  set (reg := CommandRegistry.__init__ (NodeToolExecutor.execute_command os self)).
  pose proof (validate_command_constructed_eq (NodeToolExecutor.execute_command os self)
                name args) as Heq.
  fold reg in Heq. cbv zeta in Heq.
  destruct (target_host_check_decides args) as (bh & Hbh & Hhost). rewrite Hbh in Heq.
  assert (Hv : exists b, CommandRegistry.validate_command reg name args = Ok b /\
                         (b = true -> bh = true /\ name ∈ CommandRegistry.SAFE_COMMANDS)).
  { rewrite Heq. destruct (bool_decide (name ∈ CommandRegistry.SAFE_COMMANDS)) eqn:Hsafe.
    2:{ exists false. split; [reflexivity | discriminate]. }
    apply bool_decide_eq_true_1 in Hsafe.
    destruct (String.eqb name "getsstables").
    - destruct (forallb _ _); [exists bh; auto|].
      exists false. split; [reflexivity | discriminate].
    - exists bh. auto. }
  destruct Hv as ([|] & Hv & Hb).
  - destruct (Hb eq_refl) as [-> Hsafe].
    unfold CommandRegistry.execute_command.
    unfold mbind at 1. unfold M_bind at 1. unfold lift at 1. rewrite Hv. cbn [negb].
    run_M. cbn [CommandRegistry.executor reg CommandRegistry.__init__].
    set (host := dict_get args "target_host" PyNone).
    set (w1 := {| clock_reads := clock_reads w;
                  journal := journal w ++ [EvExecutor name host] |}).
    assert (Hty : truthy host = true -> isinstance_str host = true).
    { unfold host, dict_get. destruct (args !! "target_host") as [h|] eqn:Hh.
      - simpl. apply (proj1 Hhost eq_refl). reflexivity.
      - simpl. discriminate. }
    destruct (execute_command_returns name host w1 Hty) as (r & w' & Hrun & Hc & Hh).
    exists r, w'. auto.
  - eexists _, _. split; [apply execute_command_invalid; exact Hv|]. simpl.
    split; [reflexivity|]. split; [reflexivity|]. discriminate.
Qed.

(** X6. A freshly constructed registry in front of the nodetool executor
    answers every request whose name is a string and whose arguments are a
    dict with string keys with a result: no such name and no values of the
    arguments, of whatever types, make the dispatch raise. The result carries
    the name and echoes the target host of the request, and it reports
    success only for an allow-listed name. *)
Theorem dispatch_constructed_always_returns (name : string) (args : gmap string PyVal)
    (w : World) :
  exists r w',
    CommandRegistry.execute_command os
      (CommandRegistry.__init__ (NodeToolExecutor.execute_command os self)) name args w =
    (Ok r, w') /\
    command r = name /\
    target_host r = dict_get args "target_host" PyNone /\
    (success r = true -> name ∈ CommandRegistry.SAFE_COMMANDS).
Proof.
  destruct (dispatch_constructed_returns name args w) as (r & w' & Hrun & Hname & Hhost & Hok).
  exists r, w'. split; [exact Hrun|]. split; [exact Hname|]. split; [exact Hhost | exact Hok].
Qed.

(** X7. Every process the executor spawns gets the environment of the server
    with two changes: JAVA_HOME is the configured Java home, and PATH starts
    with its bin directory, followed by a colon and the old PATH when there
    was one. Every other variable is handed on as it is. *)
Theorem spawned_environment (command : string) (target_host : PyVal) (w : World) :
  exists evs,
    journal (snd (NodeToolExecutor.execute_command os self command target_host w)) =
    journal w ++ evs /\
    forall a env, EvSpawn a env ∈ evs ->
      let java_home := get_java_home (NodeToolExecutor.config_manager self) in
      let java_bin := path_join os java_home "bin" in
      env !! "JAVA_HOME" = Some java_home /\
      env !! "PATH" = Some match environ os !! "PATH" with
                           | Some path => java_bin +:+ ":" +:+ path
                           | None => java_bin
                           end /\
      forall k, k <> "JAVA_HOME" -> k <> "PATH" -> env !! k = environ os !! k.
Proof.
  destruct (execute_command_events os self command target_host w) as (evs & Hj & Hshape & _).
  exists evs. split; [exact Hj|]. intros a env Hin.
  assert (Henv : env = NodeToolExecutor._get_environment os self).
  { destruct Hshape as [-> | (rest & -> & Hrest)].
    - apply elem_of_nil in Hin. contradiction.
    - apply elem_of_cons in Hin as [[= _ ->] | Hin]; [reflexivity|].
      rewrite Forall_forall in Hrest. apply Hrest in Hin.
      destruct Hin as [Hev | [Hev | Hev]]; discriminate. }
  subst env. cbv zeta. unfold NodeToolExecutor._get_environment.
  rewrite (lookup_insert_ne (environ os) "JAVA_HOME" "PATH") by discriminate.
  destruct (environ os !! "PATH") as [path|].
  - rewrite lookup_insert_ne by discriminate. rewrite !lookup_insert_eq.
    split; [reflexivity|]. split; [reflexivity|].
    intros k Hj' Hp'. rewrite !lookup_insert_ne by congruence. reflexivity.
  - rewrite lookup_insert_ne by discriminate. rewrite !lookup_insert_eq.
    split; [reflexivity|]. split; [reflexivity|].
    intros k Hj' Hp'. rewrite !lookup_insert_ne by congruence. reflexivity.
Qed.

End EndToEnd.

(** ** The parsers of the ring, info and netstats listings *)

Lemma split_ws_tokens (s : string) : Forall token (split_ws s).
Proof.
  induction s as [|c s IH]; [constructor|]. simpl.
  destruct (isspace c) eqn:Hc; [exact IH|].
  assert (Hone : token (String c "")).
  { split; [discriminate|]. simpl. rewrite Hc. reflexivity. }
  destruct s as [|c' s']; [constructor; [exact Hone | constructor]|].
  destruct (isspace c'); [constructor; [exact Hone | exact IH]|].
  destruct (split_ws (String c' s')) as [|h t]; [constructor; [exact Hone | constructor]|].
  apply Forall_cons in IH as [[_ Hh] IH]. constructor; [|exact IH].
  split; [discriminate|]. simpl. rewrite Hc, Hh. reflexivity.
Qed.

Lemma parse_ring_line_entries (ring : list (gmap string PyVal)) (line : string) :
  exists new,
    NodeToolExecutor.parse_ring_line ring line = Ok (ring ++ new) /\
    length new <= 1 /\ Forall ring_entry new.
Proof.
  unfold NodeToolExecutor.parse_ring_line. cbv zeta.
  destruct (_ || _ || _).
  { exists []. rewrite app_nil_r. split; [reflexivity|]. split; [simpl; lia | constructor]. }
  pose proof (split_ws_tokens (strip line)) as Htok.
  destruct (split_ws (strip line)) as [|t0 [|t1 [|t2 [|t3 [|t4 [|t5 rest]]]]]];
    try (exists []; rewrite app_nil_r; split; [reflexivity|]; split; [simpl; lia | constructor]).
  cbn [length Nat.leb getitem nth_error mbind Result_bind rbind].
  repeat (apply Forall_cons in Htok as [? Htok]).
  destruct rest as [|t6 rest]; cbn [length Nat.ltb Nat.leb getitem nth_error rbind].
  - eexists [_]. split; [reflexivity|]. split; [simpl; lia|].
    constructor; [|constructor].
    exists t0, t1, t2, t3, t4, t5, "". split; [reflexivity|]. split; [|left; reflexivity].
    repeat (constructor; [assumption|]). constructor.
  - eexists [_]. split; [reflexivity|]. split; [simpl; lia|].
    constructor; [|constructor]. apply Forall_cons in Htok as [? Htok].
    exists t0, t1, t2, t3, t4, t5, t6. split; [reflexivity|].
    split; [repeat (constructor; [assumption|]); constructor | right; assumption].
Qed.

Lemma parse_ring_lines_entries (lines : list string) :
  forall ring : list (gmap string PyVal),
  exists new,
    NodeToolExecutor.parse_ring_lines ring lines = Ok (ring ++ new) /\
    length new <= length lines /\ Forall ring_entry new.
Proof.
  induction lines as [|line lines IH]; intros ring.
  - exists []. rewrite app_nil_r. split; [reflexivity|]. split; [simpl; lia | constructor].
  - cbn [NodeToolExecutor.parse_ring_lines].
    destruct (parse_ring_line_entries ring line) as (new1 & -> & Hlen1 & Hall1).
    cbn [mbind Result_bind rbind].
    destruct (IH (ring ++ new1)) as (new2 & -> & Hlen2 & Hall2).
    exists (new1 ++ new2). rewrite app_assoc. split; [reflexivity|].
    split; [rewrite length_app; simpl; lia | apply Forall_app; auto].
Qed.

(** X8. [_parse_ring_output] never raises, whatever the text. It gives the
    entries under "tokens" and their number under "total_tokens"; there is
    at most one entry per line; and every entry binds address, rack, status,
    state, load and owns to tokens of a line (not empty, no whitespace in
    them) and "token" to a token or, for a line of exactly six tokens, to the
    empty string. *)
Theorem parse_ring_output_entries (output : string) :
  exists ring,
    NodeToolExecutor._parse_ring_output output =
    Ok {[ "tokens" := PyList (PyDict <$> ring);
          "total_tokens" := PyInt (Z.of_nat (length ring)) ]} /\
    length ring <= length (split_on "010" (strip output)) /\
    Forall ring_entry ring.
Proof.
  unfold NodeToolExecutor._parse_ring_output. cbv zeta.
  destruct (parse_ring_lines_entries (split_on "010" (strip output)) [])
    as (ring & -> & Hlen & Hall).
  exists ring. split; [reflexivity|]. auto.
Qed.

Lemma split_on_first_app (c : ascii) (key value : string) :
  lacks c key = true -> split_on_first c (key +:+ String c value) = [key; value].
Proof.
  unfold lacks. induction key as [|k key IH]; intros Hl.
  - rewrite str_app_nil_l. simpl. rewrite Ascii.eqb_refl. reflexivity.
  - rewrite str_app_cons. simpl in *. apply andb_true_iff in Hl as [Hk Hl].
    apply negb_true_iff in Hk. rewrite Hk, (IH Hl). reflexivity.
Qed.

Lemma contains_cut (c : ascii) (line : string) :
  contains c line = true ->
  exists key value, line = key +:+ String c value /\ lacks c key = true.
Proof.
  induction line as [|k line IH]; [discriminate|]. simpl.
  destruct (Ascii.eqb k c) eqn:Hk.
  - apply Ascii.eqb_eq in Hk. subst k. intros _. exists "", line. split; reflexivity.
  - simpl. intros Hc. destruct (IH Hc) as (key & value & -> & Hl).
    exists (String k key), value. rewrite str_app_cons. split; [reflexivity|].
    unfold lacks in *. simpl. rewrite Hk, Hl. reflexivity.
Qed.

Lemma contains_app_sep (c : ascii) (key value : string) :
  contains c (key +:+ String c value) = true.
Proof.
  induction key as [|k key IH].
  - rewrite str_app_nil_l. simpl. rewrite Ascii.eqb_refl. reflexivity.
  - rewrite str_app_cons. simpl. rewrite IH. apply orb_true_r.
Qed.

Lemma parse_info_line_entry (info : gmap string string) (key value : string) :
  lacks ":" key = true ->
  NodeToolExecutor.parse_info_line info (key +:+ String ":" value) =
  Ok (<[strip key := strip value]> info).
Proof.
  intros Hl. unfold NodeToolExecutor.parse_info_line.
  rewrite contains_app_sep, (split_on_first_app _ _ _ Hl). reflexivity.
Qed.

Lemma parse_info_line_cases (info : gmap string string) (line : string) :
  (contains ":" line = false /\ NodeToolExecutor.parse_info_line info line = Ok info) \/
  (exists key value, line = key +:+ String ":" value /\ lacks ":" key = true /\
     NodeToolExecutor.parse_info_line info line = Ok (<[strip key := strip value]> info)).
Proof.
  destruct (contains ":" line) eqn:Hc.
  - right. destruct (contains_cut _ _ Hc) as (key & value & -> & Hl).
    exists key, value. split; [reflexivity|]. split; [exact Hl|].
    apply parse_info_line_entry. exact Hl.
  - left. split; [reflexivity|]. unfold NodeToolExecutor.parse_info_line. rewrite Hc.
    reflexivity.
Qed.

Lemma parse_info_lines_total (lines : list string) :
  forall info : gmap string string,
  exists info',
    NodeToolExecutor.parse_info_lines info lines = Ok info' /\
    (forall k, no_entry_for k lines -> info' !! k = info !! k) /\
    (forall k v, info' !! k = Some v ->
       info !! k = Some v \/
       exists key value, (key +:+ String ":" value) ∈ lines /\ lacks ":" key = true /\
                         k = strip key /\ v = strip value).
Proof.
  induction lines as [|line lines IH]; intros info.
  - exists info. split; [reflexivity|]. split; [reflexivity | auto].
  - cbn [NodeToolExecutor.parse_info_lines].
    destruct (parse_info_line_cases info line) as [[Hc ->] | (key & value & -> & Hl & ->)];
      cbn [mbind Result_bind rbind].
    + destruct (IH info) as (info' & -> & Hkeep & Hfrom). exists info'.
      split; [reflexivity|]. split.
      * intros k Hno. apply Hkeep. intros key value Hin Hl'.
        apply (Hno key value); [right; exact Hin | exact Hl'].
      * intros k v Hkv. destruct (Hfrom k v Hkv) as [Hold | (key & value & Hin & Hl & Hk & Hv)];
          [left; exact Hold|].
        right. exists key, value. split; [right; exact Hin | auto].
    + destruct (IH (<[strip key := strip value]> info)) as (info' & -> & Hkeep & Hfrom).
      exists info'. split; [reflexivity|]. split.
      * intros k Hno. rewrite Hkeep.
        -- apply lookup_insert_ne. apply (Hno key value); [left | exact Hl].
        -- intros key' value' Hin Hl'. apply (Hno key' value'); [right; exact Hin | exact Hl'].
      * intros k v Hkv.
        destruct (Hfrom k v Hkv) as [Hold | (key' & value' & Hin & Hl' & Hk & Hv)].
        -- destruct (decide (strip key = k)) as [<- | Hne].
           ++ rewrite lookup_insert_eq in Hold. injection Hold as <-.
              right. exists key, value. split; [left | auto].
           ++ rewrite lookup_insert_ne in Hold by exact Hne. left. exact Hold.
        -- right. exists key', value'. split; [right; exact Hin | auto].
Qed.

Lemma parse_info_lines_app (l1 l2 : list string) :
  forall info : gmap string string,
    NodeToolExecutor.parse_info_lines info (l1 ++ l2) =
    (info' ← NodeToolExecutor.parse_info_lines info l1;
     NodeToolExecutor.parse_info_lines info' l2).
Proof.
  induction l1 as [|line l1 IH]; intros info; [reflexivity|].
  cbn [app NodeToolExecutor.parse_info_lines].
  destruct (NodeToolExecutor.parse_info_line info line) as [info1|e]; [|reflexivity].
  cbn [mbind Result_bind rbind]. apply IH.
Qed.

(** X9. [_parse_info_output] never raises, whatever the text: a line with a
    colon always splits in two. A line is cut at its first colon only, key
    and value are taken without surrounding whitespace, and of several lines
    with the same key the last one wins. Every binding of the result comes
    from such a line of the text. *)
Theorem parse_info_output_last_wins (output : string) :
  exists info,
    NodeToolExecutor._parse_info_output output = Ok info /\
    (forall before key value after,
       split_on "010" (strip output) = before ++ (key +:+ String ":" value) :: after ->
       lacks ":" key = true ->
       no_entry_for (strip key) after ->
       info !! strip key = Some (strip value)) /\
    (forall k v, info !! k = Some v ->
       exists key value,
         (key +:+ String ":" value) ∈ split_on "010" (strip output) /\
         lacks ":" key = true /\ k = strip key /\ v = strip value).
Proof.
  unfold NodeToolExecutor._parse_info_output. cbv zeta.
  destruct (parse_info_lines_total (split_on "010" (strip output)) ∅)
    as (info & Hrun & _ & Hfrom).
  exists info. split; [exact Hrun|]. split.
  - intros before key value after Hsplit Hl Hno. rewrite Hsplit in Hrun.
    rewrite parse_info_lines_app in Hrun.
    destruct (parse_info_lines_total before ∅) as (info1 & Hrun1 & _).
    rewrite Hrun1 in Hrun. cbn [mbind Result_bind rbind NodeToolExecutor.parse_info_lines] in Hrun.
    rewrite (parse_info_line_entry info1 key value Hl) in Hrun.
    cbn [mbind Result_bind rbind] in Hrun.
    destruct (parse_info_lines_total after (<[strip key := strip value]> info1))
      as (info2 & Hrun2 & Hkeep & _).
    rewrite Hrun2 in Hrun. injection Hrun as <-.
    rewrite (Hkeep _ Hno). apply lookup_insert_eq.
  - intros k v Hkv. destruct (Hfrom k v Hkv) as [Hold | Hnew]; [|exact Hnew].
    rewrite lookup_empty in Hold. discriminate.
Qed.

Lemma lstrip_idem (s : string) : lstrip (lstrip s) = lstrip s.
Proof.
  induction s as [|c s IH]; [reflexivity|]. simpl.
  destruct (isspace c) eqn:Hc; [exact IH|]. simpl. rewrite Hc. reflexivity.
Qed.

Lemma rstrip_idem (s : string) : rstrip (rstrip s) = rstrip s.
Proof.
  induction s as [|c s IH]; [reflexivity|]. simpl.
  destruct (rstrip s) as [|c' r] eqn:Hr.
  - destruct (isspace c) eqn:Hc; [reflexivity|]. simpl. rewrite Hc. reflexivity.
  - change (rstrip (String c (String c' r))) with
      (match rstrip (String c' r) with
       | EmptyString => if isspace c then EmptyString else String c EmptyString
       | r0 => String c r0
       end).
    rewrite IH. reflexivity.
Qed.

Lemma rstrip_lstrip_fixed (u : string) : rstrip u = u -> rstrip (lstrip u) = lstrip u.
Proof.
  induction u as [|c u IH]; [reflexivity|]. intros Hfix.
  cbn [lstrip]. destruct (isspace c) eqn:Hc; [|exact Hfix].
  apply IH. simpl in Hfix. rewrite Hc in Hfix.
  destruct (rstrip u) as [|c' r]; [discriminate|]. injection Hfix as <-. reflexivity.
Qed.

Lemma strip_idem (s : string) : strip (strip s) = strip s.
Proof.
  unfold strip. rewrite (rstrip_lstrip_fixed (rstrip s)) by apply rstrip_idem.
  apply lstrip_idem.
Qed.

Lemma split_on_parts_lack (sep : ascii) (s : string) :
  Forall (fun p => lacks sep p = true) (split_on sep s).
Proof.
  unfold lacks. induction s as [|c s IH]; [repeat constructor|]. simpl.
  destruct (Ascii.eqb c sep) eqn:Hc; [constructor; [reflexivity | exact IH]|].
  destruct (split_on sep s) as [|h t]; [repeat constructor; simpl; rewrite Hc; reflexivity|].
  apply Forall_cons in IH as [Hh Ht]. constructor; [|exact Ht].
  simpl. rewrite Hc, Hh. reflexivity.
Qed.

Lemma joined_lines (content : list string) :
  Forall (fun p => lacks "010" p = true) content ->
  Forall blank_or_indented content ->
  Forall blank_or_indented (split_on "010" (String.concat (String "010" "") content)).
Proof.
  intros Hl Hb. destruct content as [|l content].
  - simpl. constructor; [left; reflexivity | constructor].
  - rewrite split_on_concat; [exact Hb | discriminate | exact Hl].
Qed.

Lemma flush_section_sections (lines : list string) (vars : NodeToolExecutor.NetstatsVars) :
  netstats_inv lines vars ->
  forall k v, NodeToolExecutor.flush_section vars !! k = Some v -> netstats_section lines k v.
Proof.
  intros [Hsec Hcur Hlack Hcont] k v. unfold NodeToolExecutor.flush_section.
  destruct (NodeToolExecutor.current_section vars) as [name|] eqn:Hname; [|apply Hsec].
  destruct (truthy (PyStr name)) eqn:Ht; [|apply Hsec].
  destruct (decide (name = k)) as [<- | Hne].
  - rewrite lookup_insert_eq. intros [= <-].
    destruct (Hcur name eq_refl) as [Hstrip Hline].
    split; [|split; [exact Hstrip | split; [exact Hline|]]].
    + intros ->. discriminate Ht.
    + apply joined_lines; assumption.
  - rewrite lookup_insert_ne by exact Hne. apply Hsec.
Qed.

Lemma parse_netstats_line_inv (lines : list string) (vars : NodeToolExecutor.NetstatsVars)
    (line : string) :
  line ∈ lines -> lacks "010" line = true ->
  netstats_inv lines vars -> netstats_inv lines (NodeToolExecutor.parse_netstats_line vars line).
Proof.
  intros Hin Hl Hinv. unfold NodeToolExecutor.parse_netstats_line.
  destruct (truthy (PyStr line) && negb (startswith line " ")) eqn:Hhead.
  - apply andb_true_iff in Hhead as [Ht Hs]. apply negb_true_iff in Hs.
    constructor; cbn [NodeToolExecutor.sections NodeToolExecutor.current_section
                        NodeToolExecutor.section_content].
    + apply flush_section_sections. exact Hinv.
    + intros name [= <-]. split; [apply strip_idem|]. exists line.
      split; [exact Hin|]. split; [intros ->; discriminate Ht|]. split; [exact Hs | reflexivity].
    + constructor.
    + constructor.
  - destruct Hinv as [Hsec Hcur Hlack Hcont].
    constructor; cbn [NodeToolExecutor.sections NodeToolExecutor.current_section
                        NodeToolExecutor.section_content]; try assumption.
    + apply Forall_app. split; [exact Hlack|]. constructor; [exact Hl | constructor].
    + apply Forall_app. split; [exact Hcont|]. constructor; [|constructor].
      apply andb_false_iff in Hhead as [Ht | Hs].
      * left. simpl in Ht. apply negb_false_iff in Ht. apply String.eqb_eq in Ht. exact Ht.
      * right. apply negb_false_iff in Hs. exact Hs.
Qed.

Lemma fold_netstats_inv (lines rest : list string) :
  forall vars,
    Forall (fun line => line ∈ lines /\ lacks "010" line = true) rest ->
    netstats_inv lines vars ->
    netstats_inv lines (fold_left NodeToolExecutor.parse_netstats_line rest vars).
Proof.
  induction rest as [|line rest IH]; intros vars Hrest Hinv; [exact Hinv|].
  apply Forall_cons in Hrest as [[Hin Hl] Hrest]. simpl. apply IH; [exact Hrest|].
  apply parse_netstats_line_inv; assumption.
Qed.

(** X10. Every section [_parse_netstats_output] returns is named by a line of
    the text that is not empty and does not start with a space, taken
    without surrounding whitespace; the name is never empty (a header that
    is whitespace only opens no section, and what follows it is dropped);
    and its body is made of lines that are blank or start with a space. *)
Theorem parse_netstats_output_sections (output name body : string) :
  NodeToolExecutor._parse_netstats_output output !! name = Some body ->
  netstats_section (split_on "010" (strip output)) name body.
Proof.
  unfold NodeToolExecutor._parse_netstats_output. cbv zeta.
  apply flush_section_sections. apply fold_netstats_inv.
  - pose proof (split_on_parts_lack "010" (strip output)) as Hl.
    rewrite Forall_forall in Hl. apply Forall_forall. intros line Hin. auto.
  - constructor; cbn [NodeToolExecutor.sections NodeToolExecutor.current_section
                        NodeToolExecutor.section_content].
    + intros k v Hkv. rewrite lookup_empty in Hkv. discriminate.
    + intros name' Hn. discriminate.
    + constructor.
    + constructor.
Qed.

Lemma parse_netstats_output_sections_witness :
  netstats_section
    (split_on "010" (strip ("Mode: NORMAL" +:+ String "010" " Attempted: 0")))
    "Mode: NORMAL" " Attempted: 0".
Proof.
  apply (parse_netstats_output_sections ("Mode: NORMAL" +:+ String "010" " Attempted: 0")).
  vm_compute. reflexivity.
Defined.

(** X11. [parse_output] never raises, whatever the command and the text: not
    in the status, ring, info or netstats parser, and not for any other
    command. The dict it returns always has the command, the raw output, the
    error output and the parsed data, the latter a dict. *)
Theorem parse_output_never_raises (command stdout stderr : string) :
  exists parsed_data,
    NodeToolExecutor.parse_output command stdout stderr =
    Ok (<["parsed_data" := PyDict parsed_data]>
          {[ "command" := PyStr command; "raw_output" := PyStr stdout;
             "error_output" := PyStr stderr ]}).
Proof.
  unfold NodeToolExecutor.parse_output. cbv zeta.
  destruct (String.eqb command "status").
  { rewrite (parse_status_output_report stdout). eexists. reflexivity. }
  destruct (String.eqb command "ring").
  { unfold NodeToolExecutor._parse_ring_output. cbv zeta.
    destruct (parse_ring_lines_entries (split_on "010" (strip stdout)) []) as (ring & -> & _).
    eexists. reflexivity. }
  destruct (String.eqb command "info").
  { unfold NodeToolExecutor._parse_info_output. cbv zeta.
    destruct (parse_info_lines_total (split_on "010" (strip stdout)) ∅) as (info & -> & _).
    eexists. reflexivity. }
  destruct (String.eqb command "netstats"); eexists; reflexivity.
Qed.

(** ** The health check: its status parser and its counts *)

Lemma split_ws_head (c : ascii) (s : string) :
  isspace c = false -> exists t rest, split_ws (String c s) = String c t :: rest.
Proof.
  intros Hc. simpl. rewrite Hc. destruct s as [|c' s']; [eauto|].
  destruct (isspace c'); [eauto|].
  destruct (split_ws (String c' s')) as [|h t]; eauto.
Qed.

Lemma node_line_letter (line : string) :
  is_node_line line = true ->
  exists c s, line = String c s /\ isspace c = false /\
              (String c "" = "U" \/ String c "" = "D" \/ String c "" = "N").
Proof.
  destruct line as [|c s]; [discriminate|]. simpl. intros Hl. exists c, s.
  split; [reflexivity|].
  destruct (Ascii.eqb c "U") eqn:HU; [apply Ascii.eqb_eq in HU; subst; auto|].
  destruct (Ascii.eqb c "D") eqn:HD; [apply Ascii.eqb_eq in HD; subst; auto|].
  destruct (Ascii.eqb c "N") eqn:HN; [apply Ascii.eqb_eq in HN; subst; auto|].
  discriminate.
Qed.

Lemma last_cons_is_Some {A} (x : A) (l : list A) : exists y, last (x :: l) = Some y.
Proof.
  revert x. induction l as [|z l IH]; intros x; [exists x; reflexivity|].
  destruct (IH z) as (y & Hy). exists y. simpl in *. exact Hy.
Qed.

Lemma health_state_char (t0 : string) :
  (if 1 <? String.length t0 then str_getitem t0 1 else Ok "?") =
  Ok (if String.eqb (char_at t0 1) "" then "?" else char_at t0 1).
Proof.
  unfold str_getitem, char_at. destruct t0 as [|c0 [|c1 t]]; reflexivity.
Qed.

Lemma health_parse_status_line (dc : option string) (hs : list HealthCheck.NodeStatus)
    (ns : list NodeToolExecutor.StatusNode) (raw : string) :
  exists dc' newh newn,
    HealthCheck.parse_status_line (dc, hs) raw = Ok (dc', hs ++ newh) /\
    NodeToolExecutor.parse_status_line (dc, ns) raw = Ok (dc', ns ++ newn) /\
    Forall2 same_node newh newn /\ Forall status_letter newh.
Proof.
  rewrite parse_status_line_spec. unfold HealthCheck.parse_status_line. cbv zeta.
  set (line := strip raw).
  destruct (startswith line "Datacenter:") eqn:Hdc.
  { rewrite (datacenter_value line Hdc). exists (Some (after_datacenter line)), [], [].
    rewrite !app_nil_r. repeat split; constructor. }
  rewrite first_char_in_node_line. destruct (is_node_line line) eqn:Hnode.
  2:{ exists dc, [], []. rewrite !app_nil_r. repeat split; constructor. }
  destruct (node_line_letter line Hnode) as (c & s & Hline & Hc & Hletter).
  destruct (split_ws_head c s Hc) as (t & rest0 & Hsplit). rewrite <- Hline in Hsplit.
  pose proof (split_ws_nonempty line) as Hne. rewrite Hsplit in *.
  destruct rest0 as [|t1 [|t2 [|t3 [|t4 [|t5 rest]]]]];
    try (exists dc, [], []; rewrite !app_nil_r; repeat split; constructor).
  cbn [length Nat.leb getitem nth_error mbind Result_bind rbind node_of_tokens].
  rewrite health_state_char.
  change (0 <? String.length (String c t)) with true.
  change (str_getitem (String c t) 0) with (Ok (String c "")).
  cbn [rbind].
  destruct rest as [|t6 rest].
  - cbn [length Nat.ltb Nat.leb rbind mbind Result_bind].
    eexists dc, [_], [_]. split; [reflexivity|]. split; [reflexivity|]. split.
    + constructor; [|constructor]. unfold same_node. simpl. tauto.
    + constructor; [|constructor]. unfold status_letter. simpl. exact Hletter.
  - unfold getitem_last.
    destruct (last_cons_is_Some (String c t) (t1 :: t2 :: t3 :: t4 :: t5 :: t6 :: rest))
      as (y & Hy).
    rewrite Hy. cbn [length Nat.ltb Nat.leb rbind mbind Result_bind].
    eexists dc, [_], [_]. split; [reflexivity|]. split; [reflexivity|]. split.
    + constructor; [|constructor]. unfold same_node. simpl.
      repeat (apply Forall_cons in Hne as [? Hne]).
      repeat split; try reflexivity; try discriminate. intros ->. congruence.
    + constructor; [|constructor]. unfold status_letter. simpl. exact Hletter.
Qed.

Lemma health_parse_status_lines (lines : list string) :
  forall (dc : option string) (hs : list HealthCheck.NodeStatus)
         (ns : list NodeToolExecutor.StatusNode),
  exists dc' newh newn,
    HealthCheck.parse_status_lines (dc, hs) lines = Ok (dc', hs ++ newh) /\
    NodeToolExecutor.parse_status_lines (dc, ns) lines = Ok (dc', ns ++ newn) /\
    Forall2 same_node newh newn /\ Forall status_letter newh.
Proof.
  induction lines as [|raw lines IH]; intros dc hs ns.
  - exists dc, [], []. rewrite !app_nil_r. repeat split; constructor.
  - cbn [HealthCheck.parse_status_lines NodeToolExecutor.parse_status_lines].
    destruct (health_parse_status_line dc hs ns raw) as (dc1 & h1 & n1 & -> & -> & H2 & Hl).
    cbn [mbind Result_bind rbind].
    destruct (IH dc1 (hs ++ h1) (ns ++ n1)) as (dc2 & h2 & n2 & -> & -> & H2' & Hl').
    exists dc2, (h1 ++ h2), (n1 ++ n2). rewrite !app_assoc.
    split; [reflexivity|]. split; [reflexivity|].
    split; [apply Forall2_app; assumption | apply Forall_app; auto].
Qed.

(** X12. The health check's [_parse_status_output] never raises and finds
    the same nodes, in the same order, as the executor's parser of the same
    name: node for node the same address, status letter, load and
    datacenter. They differ in two fields: the state is "?" where the
    executor's parser gives the empty string, and the rack is None exactly
    where the executor's parser gives the empty string. *)
Theorem health_parse_status_output_agrees (output : string) :
  exists hs report,
    HealthCheck._parse_status_output output = Ok hs /\
    NodeToolExecutor._parse_status_output output = Ok report /\
    length hs = NodeToolExecutor.total_nodes report /\
    Forall2 same_node hs (NodeToolExecutor.nodes report).
Proof.
  unfold HealthCheck._parse_status_output, NodeToolExecutor._parse_status_output. cbv zeta.
  destruct (health_parse_status_lines (split_on "010" (strip output)) None [] [])
    as (dc' & hs & ns & -> & -> & H2 & _).
  exists hs. eexists. split; [reflexivity|]. split; [reflexivity|]. simpl.
  split; [eapply Forall2_length; exact H2 | exact H2].
Qed.

Lemma health_parse_status_output_letters (output : string) :
  exists hs, HealthCheck._parse_status_output output = Ok hs /\ Forall status_letter hs.
Proof.
  unfold HealthCheck._parse_status_output.
  destruct (health_parse_status_lines (split_on "010" (strip output)) None [] [])
    as (dc' & hs & ns & -> & _ & _ & Hl).
  exists hs. split; [reflexivity | exact Hl].
Qed.

Lemma count_status_letters (nodes : list HealthCheck.NodeStatus) :
  Forall status_letter nodes ->
  HealthCheck.count_status "U" nodes + HealthCheck.count_status "D" nodes +
  HealthCheck.count_status "N" nodes = length nodes.
Proof.
  unfold HealthCheck.count_status.
  induction nodes as [|h nodes IH]; intros Hall; [reflexivity|].
  apply Forall_cons in Hall as [Hh Hall]. specialize (IH Hall).
  rewrite !filter_cons.
  destruct Hh as [Hs | [Hs | Hs]]; rewrite Hs;
    repeat (destruct (decide _) as [Hd | Hd];
            [try discriminate Hd | try (exfalso; apply Hd; reflexivity)]);
    simpl; lia.
Qed.

(** X13. [_get_cluster_status] never raises, whatever the executor does. The
    node count it returns is the length of the node list; the up and down
    counts are the nodes of status U and D, and together with the nodes of
    status N they are all the nodes, so up plus down never exceeds the count.
    The list is empty unless the executor returned a successful result, and
    then it is the parse of that result's stdout. *)
Theorem get_cluster_status_counts (self : HealthCheck.t) (w : World) :
  exists nodes up down w',
    HealthCheck._get_cluster_status self w = (Ok (nodes, length nodes, up, down), w') /\
    up = HealthCheck.count_status "U" nodes /\
    down = HealthCheck.count_status "D" nodes /\
    up + down + HealthCheck.count_status "N" nodes = length nodes /\
    (nodes = [] \/
     exists r w1,
       HealthCheck.executor self "status" PyNone
         {| clock_reads := clock_reads w; journal := journal w ++ [EvExecutor "status" PyNone] |}
       = (Ok r, w1) /\
       success r = true /\ HealthCheck._parse_status_output (stdout r) = Ok nodes).
Proof.
  unfold HealthCheck._get_cluster_status. run_M.
  destruct (HealthCheck.executor self "status" PyNone _) as [[r|e] w1] eqn:Hrun.
  2:{ exists [], 0, 0, w1. repeat split; auto. }
  destruct (success r) eqn:Hs; cbn [negb].
  2:{ exists [], 0, 0, w1. repeat split; auto. }
  destruct (health_parse_status_output_letters (stdout r)) as (hs & Hparse & Hl).
  rewrite Hparse. eexists hs, _, _, w1. split; [reflexivity|].
  split; [reflexivity|]. split; [reflexivity|].
  split; [apply count_status_letters; exact Hl|].
  right. exists r, w1. auto.
Qed.

(** ** Authentication *)

Lemma status_code_cases (self : AuthenticationManager.t) (api_key : PyVal) :
  (truthy api_key = false /\
   AuthenticationManager.get_http_status_code self api_key = 401%Z) \/
  (truthy api_key = true /\ ~ valid_key self api_key /\
   AuthenticationManager.get_http_status_code self api_key = 403%Z) \/
  (truthy api_key = true /\ valid_key self api_key /\
   AuthenticationManager.get_http_status_code self api_key = 200%Z).
Proof.
  unfold AuthenticationManager.get_http_status_code, AuthenticationManager.validate_api_key.
  destruct (truthy api_key) eqn:Ht; [right | left; auto]. cbn [negb].
  destruct api_key as [| | |key| |];
    try (left; split; [reflexivity|]; split; [intros (k & Hk & _); discriminate | reflexivity]).
  destruct (bool_decide (key ∈ AuthenticationManager._api_keys self)) eqn:Hin.
  - right. apply bool_decide_eq_true_1 in Hin. split; [reflexivity|]. split; [|reflexivity].
    exists key. split; [reflexivity|]. split; [intros ->; discriminate Ht | exact Hin].
  - left. apply bool_decide_eq_false_1 in Hin. split; [reflexivity|]. split; [|reflexivity].
    intros (k & [= <-] & _ & Hk). contradiction.
Qed.

(** X14. [get_http_status_code] answers 401, 403 or 200: 401 exactly for a
    key that is missing or empty, and 200 exactly for a string that is not
    empty and is one of the configured keys (an empty string among the
    configured keys opens nothing). [validate_api_key] is true exactly when
    the code is 200. After [reload_api_keys] the keys that count are those of
    the new configuration alone. *)
Theorem http_status_code_decides (self : AuthenticationManager.t) (config : Config)
    (api_key : PyVal) :
  let status := AuthenticationManager.get_http_status_code self api_key in
  (status = 401%Z \/ status = 403%Z \/ status = 200%Z) /\
  (status = 401%Z <-> truthy api_key = false) /\
  (status = 200%Z <-> valid_key self api_key) /\
  (AuthenticationManager.validate_api_key self api_key = true <-> status = 200%Z) /\
  (AuthenticationManager.get_http_status_code
     (AuthenticationManager.reload_api_keys self config) api_key = 200%Z <->
   exists key, api_key = PyStr key /\ key <> "" /\ key ∈ api_keys config).
Proof.
  cbv zeta.
  assert (Hnv : forall auth k, valid_key auth k -> truthy k = true).
  { intros auth k (key & -> & Hne & _). simpl. destruct key; [congruence | reflexivity]. }
  assert (H200 : forall auth,
            AuthenticationManager.get_http_status_code auth api_key = 200%Z <->
            valid_key auth api_key).
  { intros auth.
    destruct (status_code_cases auth api_key) as [[Ht Hs] | [(Ht & Hv & Hs) | (Ht & Hv & Hs)]];
      rewrite Hs.
    - split; [discriminate|]. intros Hv. apply Hnv in Hv. congruence.
    - split; [discriminate | contradiction].
    - tauto. }
  split; [|split; [|split; [exact (H200 self)|split]]].
  - destruct (status_code_cases self api_key) as [[_ Hs] | [(_ & _ & Hs) | (_ & _ & Hs)]];
      rewrite Hs; auto.
  - destruct (status_code_cases self api_key) as [[Ht Hs] | [(Ht & _ & Hs) | (Ht & _ & Hs)]];
      rewrite Hs; split; congruence.
  - unfold AuthenticationManager.get_http_status_code.
    destruct (truthy api_key) eqn:Ht; cbn [negb].
    + destruct (AuthenticationManager.validate_api_key self api_key); cbn [negb];
        split; congruence.
    + unfold AuthenticationManager.validate_api_key. rewrite Ht. cbn [negb].
      split; discriminate.
  - rewrite (H200 (AuthenticationManager.reload_api_keys self config)). reflexivity.
Qed.

(** ** The tool call *)

Section ToolCall.
Import Responses.
Variable os : Platform.
Variable self : MCPServer.t.

Lemma log_auth_attempt_ok (api_key : PyVal) (success : bool) (ip : PyVal) (w : World) :
  AuthenticationManager.mask_check api_key = Ok tt ->
  AuthenticationManager.log_auth_attempt os (MCPServer.auth_manager self) api_key success ip w =
  (Ok tt, {| clock_reads := S (clock_reads w); journal := journal w |}).
Proof.
  intros Hm. unfold AuthenticationManager.log_auth_attempt. run_M. rewrite Hm. reflexivity.
Qed.

Lemma mask_check_optional_str (api_key : PyVal) :
  truthy api_key = false \/ (exists key, api_key = PyStr key) ->
  AuthenticationManager.mask_check (if truthy api_key then api_key else PyStr "") = Ok tt.
Proof.
  intros [Hf | (key & ->)].
  - rewrite Hf. reflexivity.
  - destruct (truthy (PyStr key)) eqn:Ht; [|reflexivity].
    unfold AuthenticationManager.mask_check. rewrite Ht. reflexivity.
Qed.

Lemma handle_call_tool_401 (name : string) (arguments : gmap string PyVal) (w : World) :
  truthy (api_key_of arguments) = false ->
  MCPServer.handle_call_tool os self name arguments w =
  error_reply os "UNAUTHORIZED" "API key is required" w.
Proof.
  intros Hf. unfold MCPServer.handle_call_tool. cbv zeta. fold (api_key_of arguments).
  destruct (status_code_cases (MCPServer.auth_manager self) (api_key_of arguments))
    as [[_ Hs] | [(Ht & _) | (Ht & _)]]; try congruence.
  rewrite Hs. unfold mbind at 1. unfold M_bind at 1.
  rewrite log_auth_attempt_ok by (apply mask_check_optional_str; left; exact Hf).
  reflexivity.
Qed.

Lemma handle_call_tool_403 (name : string) (arguments : gmap string PyVal) (key : string)
    (w : World) :
  api_key_of arguments = PyStr key -> key <> "" ->
  key ∉ AuthenticationManager._api_keys (MCPServer.auth_manager self) ->
  MCPServer.handle_call_tool os self name arguments w =
  error_reply os "FORBIDDEN" "Invalid API key" w.
Proof.
  intros Hk Hne Hout. unfold MCPServer.handle_call_tool. cbv zeta. fold (api_key_of arguments).
  destruct (status_code_cases (MCPServer.auth_manager self) (api_key_of arguments))
    as [[Hf Hs] | [(Ht & _ & Hs) | (Ht & Hv & Hs)]].
  - rewrite Hk in Hf. simpl in Hf. destruct key; [congruence | discriminate].
  - rewrite Hs. unfold mbind at 1. unfold M_bind at 1.
    rewrite log_auth_attempt_ok by (apply mask_check_optional_str; right; eauto).
    reflexivity.
  - destruct Hv as (k & Hk' & _ & Hin). rewrite Hk in Hk'. injection Hk' as <-. contradiction.
Qed.

(** After the key is accepted: the name decides. *)
Lemma handle_call_tool_authenticated (name : string) (arguments : gmap string PyVal)
    (w : World) :
  valid_key (MCPServer.auth_manager self) (api_key_of arguments) ->
  MCPServer.handle_call_tool os self name arguments w =
  if startswith name "cassandra_" then
    try_except
      (result ← CommandRegistry.execute_command os (MCPServer.command_registry self)
                  (str_from (String.length "cassandra_") name)
                  (filter (fun kv : string * PyVal => kv.1 ∉ ["api_key"; "client_ip"]) arguments);
       mret [TextResult (to_dict result)])
      (fun e => Some (
         now ← read_datetime os;
         mret [TextError (error_response "EXECUTION_ERROR"
                            ("Error executing command: " +:+ exn_msg e) now)]))
      {| clock_reads := S (clock_reads w); journal := journal w |}
  else error_reply os "INVALID_TOOL" ("Unknown tool: " +:+ name) w.
Proof.
  intros Hv. unfold MCPServer.handle_call_tool. cbv zeta. fold (api_key_of arguments).
  destruct (status_code_cases (MCPServer.auth_manager self) (api_key_of arguments))
    as [[Hf Hs] | [(Ht & Hnv & Hs) | (Ht & _ & Hs)]].
  - destruct Hv as (key & Hk & Hne & _). rewrite Hk in Hf. simpl in Hf.
    destruct key; [congruence | discriminate].
  - contradiction.
  - rewrite Hs. unfold mbind at 1. unfold M_bind at 1.
    rewrite log_auth_attempt_ok.
    2:{ apply mask_check_optional_str. right. destruct Hv as (key & Hk & _). eauto. }
    change (200 =? 401)%Z with false. change (200 =? 403)%Z with false. cbv iota.
    destruct (startswith name "cassandra_"); reflexivity.
Qed.

(** Without an accepted key nothing is journalled and no result is sent,
    whether the call answers or raises. *)
Lemma handle_call_tool_turned_away (name : string) (arguments : gmap string PyVal)
    (w : World) :
  ~ valid_key (MCPServer.auth_manager self) (api_key_of arguments) ->
  journal (snd (MCPServer.handle_call_tool os self name arguments w)) = journal w /\
  forall d, fst (MCPServer.handle_call_tool os self name arguments w) <> Ok [TextResult d].
Proof.
  intros Hnv.
  destruct (status_code_cases (MCPServer.auth_manager self) (api_key_of arguments))
    as [[Hf _] | [(Ht & _ & Hs) | (_ & Hv & _)]]; [| |contradiction].
  - rewrite (handle_call_tool_401 name arguments w Hf). split; [reflexivity|].
    intros d. discriminate.
  - unfold MCPServer.handle_call_tool. cbv zeta. fold (api_key_of arguments).
    rewrite Hs, Ht. unfold mbind at 1 3. unfold M_bind at 1 3.
    unfold AuthenticationManager.log_auth_attempt. run_M.
    destruct (AuthenticationManager.mask_check (api_key_of arguments)) as [[]|e];
      (split; [reflexivity | intros d; discriminate]).
Qed.

Lemma str_from_prefix (p s : string) : str_from (String.length p) (p +:+ s) = s.
Proof.
  unfold str_from. rewrite str_length_app.
  replace (String.length p + String.length s - String.length p) with (String.length s) by lia.
  induction p as [|c p IH]; [apply substring_all|]. rewrite str_app_cons. exact IH.
Qed.

Lemma startswith_app (p s : string) : startswith (p +:+ s) p = true.
Proof.
  unfold startswith.
  induction p as [|c p IH]; [rewrite str_app_nil_l; destruct s; reflexivity|].
  rewrite str_app_cons. simpl. destruct (ascii_dec c c); [exact IH | congruence].
Qed.

Lemma command_args_delete (arguments : gmap string PyVal) :
  filter (fun kv : string * PyVal => kv.1 ∉ ["api_key"; "client_ip"]) arguments =
  delete "api_key" (delete "client_ip" arguments).
Proof.
  apply map_eq. intros k.
  destruct (decide (k = "api_key")) as [-> | Hk1].
  { rewrite lookup_delete_eq. apply map_lookup_filter_None. right. intros v _ Hn.
    apply Hn. simpl. left. }
  rewrite lookup_delete_ne by congruence.
  destruct (decide (k = "client_ip")) as [-> | Hk2].
  { rewrite lookup_delete_eq. apply map_lookup_filter_None. right. intros v _ Hn.
    apply Hn. simpl. right. left. }
  rewrite lookup_delete_ne by congruence.
  destruct (arguments !! k) as [v|] eqn:Hv.
  - apply map_lookup_filter_Some. split; [exact Hv|]. simpl.
    intros Hin. apply elem_of_cons in Hin as [-> | Hin]; [congruence|].
    apply elem_of_cons in Hin as [-> | Hin]; [congruence|].
    apply elem_of_nil in Hin. exact Hin.
  - apply map_lookup_filter_None. left. exact Hv.
Qed.

(** X15. A call whose key is of its declared type (absent, None or a string)
    and is not an accepted key is answered at once with one error text:
    UNAUTHORIZED "API key is required" when the key is missing or empty,
    FORBIDDEN "Invalid API key" otherwise, whatever the tool name. Nothing is
    journalled: the registry is not called. *)
Theorem handle_call_tool_rejects (name : string) (arguments : gmap string PyVal) (w : World) :
  optional_str (api_key_of arguments) ->
  ~ valid_key (MCPServer.auth_manager self) (api_key_of arguments) ->
  MCPServer.handle_call_tool os self name arguments w =
  if truthy (api_key_of arguments)
  then error_reply os "FORBIDDEN" "Invalid API key" w
  else error_reply os "UNAUTHORIZED" "API key is required" w.
Proof.
  intros Hty Hnv. destruct (truthy (api_key_of arguments)) eqn:Ht.
  - destruct Hty as [Hn | (key & Hk)]; [rewrite Hn in Ht; discriminate|].
    assert (Hne : key <> "") by (intros ->; rewrite Hk in Ht; discriminate).
    apply (handle_call_tool_403 name arguments key w Hk Hne).
    intros Hin. apply Hnv. exists key. auto.
  - apply handle_call_tool_401. exact Ht.
Qed.

(** X16. Whatever the call and the types of its arguments: if anything is
    journalled (the registry's call to the executor, a spawn), then the key
    was an accepted one and the tool name starts with "cassandra_". *)
Theorem handle_call_tool_dispatch_needs_key (name : string) (arguments : gmap string PyVal)
    (w : World) :
  journal (snd (MCPServer.handle_call_tool os self name arguments w)) <> journal w ->
  valid_key (MCPServer.auth_manager self) (api_key_of arguments) /\
  startswith name "cassandra_" = true.
Proof.
  intros Hj.
  destruct (status_code_cases (MCPServer.auth_manager self) (api_key_of arguments))
    as [[Hf _] | [(Ht & Hnv & Hs) | (Ht & Hv & _)]].
  - exfalso. apply Hj. apply handle_call_tool_turned_away.
    intros (key & Hk & Hne & _). rewrite Hk in Hf. simpl in Hf.
    destruct key; [congruence | discriminate].
  - exfalso. apply Hj. apply handle_call_tool_turned_away. exact Hnv.
  - split; [exact Hv|]. destruct (startswith name "cassandra_") eqn:Hp; [reflexivity|].
    rewrite (handle_call_tool_authenticated name arguments w Hv), Hp in Hj.
    simpl in Hj. congruence.
Qed.

(** X17. With a key of its declared type (absent, None or a string)
    [handle_call_tool] never raises and always answers with exactly one text,
    whatever the tool name, the other arguments, the registry and its
    executor: what the dispatch raises is caught and reported. *)
Theorem handle_call_tool_always_replies (name : string) (arguments : gmap string PyVal)
    (w : World) :
  optional_str (api_key_of arguments) ->
  exists reply w', MCPServer.handle_call_tool os self name arguments w = (Ok [reply], w').
Proof.
  intros Hty.
  destruct (status_code_cases (MCPServer.auth_manager self) (api_key_of arguments))
    as [[Hf _] | [(Ht & Hnv & _) | (Ht & Hv & _)]].
  - rewrite (handle_call_tool_401 name arguments w Hf). eexists _, _. reflexivity.
  - destruct Hty as [Hn | (key & Hk)]; [rewrite Hn in Ht; discriminate|].
    assert (Hne : key <> "") by (intros ->; rewrite Hk in Ht; discriminate).
    rewrite (handle_call_tool_403 name arguments key w Hk Hne).
    + eexists _, _. reflexivity.
    + intros Hin. apply Hnv. exists key. auto.
  - rewrite (handle_call_tool_authenticated name arguments w Hv).
    destruct (startswith name "cassandra_"); [|eexists _, _; reflexivity].
    run_M. destruct (CommandRegistry.execute_command _ _ _ _ _) as [[r|e] w'];
      eexists _, _; reflexivity.
Qed.

(** X18. With an accepted key, a tool name that does not start with
    "cassandra_" is answered with the error INVALID_TOOL "Unknown tool:
    <name>", and the registry is not called. *)
Theorem handle_call_tool_invalid_tool (name : string) (arguments : gmap string PyVal)
    (w : World) :
  valid_key (MCPServer.auth_manager self) (api_key_of arguments) ->
  startswith name "cassandra_" = false ->
  MCPServer.handle_call_tool os self name arguments w =
  error_reply os "INVALID_TOOL" ("Unknown tool: " +:+ name) w.
Proof.
  intros Hv Hp. rewrite (handle_call_tool_authenticated name arguments w Hv).
  rewrite Hp. reflexivity.
Qed.

(** X19. With an accepted key, the tool "cassandra_<command>" is the
    registry's dispatch of <command>, run after the one clock reading of the
    authentication log, on the arguments without "api_key" and "client_ip".
    The answer is the result's dict; if the dispatch raises, the answer is
    the error EXECUTION_ERROR with the exception's message, and what was
    journalled before the raise stays. *)
Theorem handle_call_tool_dispatch (command_name : string) (arguments : gmap string PyVal)
    (w : World) :
  valid_key (MCPServer.auth_manager self) (api_key_of arguments) ->
  MCPServer.handle_call_tool os self ("cassandra_" +:+ command_name) arguments w =
  match CommandRegistry.execute_command os (MCPServer.command_registry self) command_name
          (delete "api_key" (delete "client_ip" arguments))
          {| clock_reads := S (clock_reads w); journal := journal w |} with
  | (Ok result, w') => (Ok [TextResult (to_dict result)], w')
  | (Raise e, w') =>
      (Ok [TextError (error_response "EXECUTION_ERROR"
                        ("Error executing command: " +:+ exn_msg e)
                        (datetime_now os (clock_reads w')))],
       {| clock_reads := S (clock_reads w'); journal := journal w' |})
  end.
Proof.
  intros Hv. rewrite (handle_call_tool_authenticated _ arguments w Hv).
  rewrite startswith_app, (str_from_prefix "cassandra_" command_name), command_args_delete.
  run_M. destruct (CommandRegistry.execute_command _ _ _ _ _) as [[r|e] w']; reflexivity.
Qed.

(** X20. A key that is a number other than 0, or True, makes
    [handle_call_tool] raise [TypeError]: masking the key for the log takes
    its length, and that happens before the check of the status code and
    outside the [try]. No answer is sent and nothing is journalled. *)
Theorem handle_call_tool_key_not_a_string (name : string) (arguments : gmap string PyVal)
    (w : World) :
  (exists z, z <> 0%Z /\ api_key_of arguments = PyInt z) \/ api_key_of arguments = PyBool true ->
  exists e,
    MCPServer.handle_call_tool os self name arguments w = (Raise e, w) /\
    exn_class e = TypeError.
Proof.
  intros Hk. unfold MCPServer.handle_call_tool. cbv zeta. fold (api_key_of arguments).
  unfold mbind at 1. unfold M_bind at 1.
  unfold AuthenticationManager.log_auth_attempt. run_M.
  destruct Hk as [(z & Hz & ->) | ->].
  - assert (Ht : truthy (PyInt z) = true).
    { simpl. apply negb_true_iff. apply Z.eqb_neq. exact Hz. }
    rewrite Ht. unfold AuthenticationManager.mask_check. rewrite Ht. cbn [negb].
    eexists. split; reflexivity.
  - eexists. split; reflexivity.
Qed.

End ToolCall.

Lemma handle_call_tool_rejects_witness :
  MCPServer.handle_call_tool Demo.os_ok (Samples.server Demo.os_ok) "cassandra_status"
    ∅ initial_World =
  if truthy (api_key_of ∅)
  then error_reply Demo.os_ok "FORBIDDEN" "Invalid API key" initial_World
  else error_reply Demo.os_ok "UNAUTHORIZED" "API key is required" initial_World.
Proof.
  apply (handle_call_tool_rejects Demo.os_ok (Samples.server Demo.os_ok) "cassandra_status" ∅).
  - left. vm_compute. reflexivity.
  - intros (key & Hk & _). vm_compute in Hk. discriminate Hk.
Defined.

Lemma handle_call_tool_dispatch_needs_key_witness :
  valid_key (MCPServer.auth_manager (Samples.server Demo.os_ok)) (api_key_of Samples.with_key) /\
  startswith "cassandra_status" "cassandra_" = true.
Proof.
  apply (handle_call_tool_dispatch_needs_key Demo.os_ok (Samples.server Demo.os_ok)
           "cassandra_status" Samples.with_key initial_World).
  intros Hj. vm_compute in Hj. discriminate Hj.
Defined.

Lemma handle_call_tool_always_replies_witness :
  exists reply w',
    MCPServer.handle_call_tool Demo.os_ok (Samples.server Demo.os_ok) "cassandra_status"
      Samples.with_key initial_World = (Ok [reply], w').
Proof.
  apply (handle_call_tool_always_replies Demo.os_ok (Samples.server Demo.os_ok)).
  right. exists "test-key-123". vm_compute. reflexivity.
Defined.

Lemma handle_call_tool_invalid_tool_witness :
  MCPServer.handle_call_tool Demo.os_ok (Samples.server Demo.os_ok) "invalid_tool"
    Samples.with_key initial_World =
  error_reply Demo.os_ok "INVALID_TOOL" ("Unknown tool: " +:+ "invalid_tool") initial_World.
Proof.
  apply (handle_call_tool_invalid_tool Demo.os_ok (Samples.server Demo.os_ok)).
  - exists "test-key-123". split; [vm_compute; reflexivity|]. split; [discriminate|].
    apply (bool_decide_unpack _). vm_compute. exact I.
  - vm_compute. reflexivity.
Defined.

Lemma handle_call_tool_dispatch_witness :
  MCPServer.handle_call_tool Demo.os_ok (Samples.server Demo.os_ok)
    ("cassandra_" +:+ "status") Samples.with_key initial_World =
  match CommandRegistry.execute_command Demo.os_ok
          (MCPServer.command_registry (Samples.server Demo.os_ok)) "status"
          (delete "api_key" (delete "client_ip" Samples.with_key))
          {| clock_reads := S (clock_reads initial_World);
             journal := journal initial_World |} with
  | (Ok result, w') => (Ok [Responses.TextResult (Responses.to_dict result)], w')
  | (Raise e, w') =>
      (Ok [Responses.TextError
             (Responses.error_response "EXECUTION_ERROR"
                ("Error executing command: " +:+ exn_msg e)
                (datetime_now Demo.os_ok (clock_reads w')))],
       {| clock_reads := S (clock_reads w'); journal := journal w' |})
  end.
Proof.
  apply (handle_call_tool_dispatch Demo.os_ok (Samples.server Demo.os_ok) "status").
  exists "test-key-123". split; [vm_compute; reflexivity|]. split; [discriminate|].
  apply (bool_decide_unpack _). vm_compute. exact I.
Defined.

Lemma handle_call_tool_key_not_a_string_witness :
  exists e,
    MCPServer.handle_call_tool Demo.os_ok (Samples.server Demo.os_ok) "cassandra_status"
      {[ "api_key" := PyInt 5 ]} initial_World = (Raise e, initial_World) /\
    exn_class e = TypeError.
Proof.
  apply (handle_call_tool_key_not_a_string Demo.os_ok (Samples.server Demo.os_ok)).
  left. exists 5%Z. split; [discriminate | vm_compute; reflexivity].
Defined.

(** X21. A server whose configuration holds no API key turns every call
    away: whatever the registry, the tool name and the arguments, nothing is
    journalled (the registry is not called) and no result is sent. *)
Theorem handle_call_tool_no_keys (os : Platform) (registry : CommandRegistry.t)
    (config : Config) (name : string) (arguments : gmap string PyVal) (w : World) :
  api_keys config = [] ->
  let self := {| MCPServer.command_registry := registry;
                 MCPServer.auth_manager := AuthenticationManager.__init__ config |} in
  journal (snd (MCPServer.handle_call_tool os self name arguments w)) = journal w /\
  forall d, fst (MCPServer.handle_call_tool os self name arguments w)
            <> Ok [Responses.TextResult d].
Proof.
  intros Hnone self. apply handle_call_tool_turned_away.
  intros (key & _ & _ & Hin). simpl in Hin. rewrite Hnone in Hin.
  apply elem_of_nil in Hin. exact Hin.
Qed.

Lemma handle_call_tool_no_keys_witness :
  let self := {| MCPServer.command_registry := Demo.registry Demo.os_ok;
                 MCPServer.auth_manager := AuthenticationManager.__init__ default_Config |} in
  journal (snd (MCPServer.handle_call_tool Demo.os_ok self "cassandra_status"
                  Samples.with_key initial_World)) = journal initial_World /\
  forall d, fst (MCPServer.handle_call_tool Demo.os_ok self "cassandra_status"
                   Samples.with_key initial_World)
            <> Ok [Responses.TextResult d].
Proof.
  apply (handle_call_tool_no_keys Demo.os_ok (Demo.registry Demo.os_ok) default_Config).
  reflexivity.
Defined.

Section AssembledServer.
Context {C : Type} `{IConfigurationManager C}.
Variable os : Platform.
Variable nodetool : NodeToolExecutor.t C.
Variable auth : AuthenticationManager.t.

(** X22. On a server whose registry is freshly constructed on the nodetool
    executor, a call of "cassandra_<command>" with an accepted key is always
    answered with a result, never with EXECUTION_ERROR, whatever the command
    and the other arguments. Every process the call spawns has the command
    line made of the nodetool path, "-h" and the target host when one is
    given, and <command>: neither the key nor any other argument reaches it. *)
Theorem tool_call_end_to_end (command_name : string) (arguments : gmap string PyVal)
    (w : World) :
  valid_key auth (api_key_of arguments) ->
  exists result w' evs,
    MCPServer.handle_call_tool os (assembled os nodetool auth)
      ("cassandra_" +:+ command_name) arguments w =
    (Ok [Responses.TextResult (Responses.to_dict result)], w') /\
    command result = command_name /\
    journal w' = journal w ++ evs /\
    spawns_only evs
      (expected_argv os nodetool command_name (dict_get arguments "target_host" PyNone)).
Proof.
  intros Hv.
  rewrite (handle_call_tool_authenticated os (assembled os nodetool auth) _ arguments w Hv).
  rewrite startswith_app, (str_from_prefix "cassandra_" command_name), command_args_delete.
  cbn [MCPServer.command_registry assembled].
  set (args := delete "api_key" (delete "client_ip" arguments)).
  set (w1 := {| clock_reads := S (clock_reads w); journal := journal w |}).
  assert (Hhost : dict_get args "target_host" PyNone = dict_get arguments "target_host" PyNone).
  { unfold args, dict_get. rewrite !lookup_delete_ne by discriminate. reflexivity. }
  destruct (dispatch_constructed_returns os nodetool command_name args w1)
    as (r & w' & Hrun & Hname & _ & _).
  destruct (dispatch_spawns_only os nodetool (CommandRegistry._initialize_commands [])
              command_name args w1) as (evs & Hj & Hsp).
  change (system os nodetool (CommandRegistry._initialize_commands []))
    with (CommandRegistry.__init__ (NodeToolExecutor.execute_command os nodetool)) in Hj.
  rewrite Hrun in Hj. cbn [snd] in Hj. rewrite Hhost in Hsp.
  exists r, w', evs. run_M. rewrite Hrun.
  split; [reflexivity|]. split; [exact Hname|]. split; [exact Hj | exact Hsp].
Qed.

End AssembledServer.

Lemma tool_call_end_to_end_witness :
  exists result w' evs,
    MCPServer.handle_call_tool Demo.os_ok (assembled Demo.os_ok Demo.nodetool Samples.auth)
      ("cassandra_" +:+ "status") Samples.with_key initial_World =
    (Ok [Responses.TextResult (Responses.to_dict result)], w') /\
    command result = "status" /\
    journal w' = journal initial_World ++ evs /\
    spawns_only evs
      (expected_argv Demo.os_ok Demo.nodetool "status"
         (dict_get Samples.with_key "target_host" PyNone)).
Proof.
  apply (tool_call_end_to_end Demo.os_ok Demo.nodetool Samples.auth "status" Samples.with_key).
  exists "test-key-123". split; [vm_compute; reflexivity|]. split; [discriminate|].
  apply (bool_decide_unpack _). vm_compute. exact I.
Defined.

(** ** The repository's tests of the server, on the embedding *)

(** [tests/test_mcp_server.py]: a call without a key, with a wrong key, and
    with a name that is no tool. *)
Example test_handle_call_tool_errors :
  let server := Samples.server Demo.os_ok in
  (Responses.error_code <$>
     match fst (MCPServer.handle_call_tool Demo.os_ok server "cassandra_status" ∅
                  initial_World) with
     | Ok [Responses.TextError d] => Some d
     | _ => None
     end) = Some "UNAUTHORIZED" /\
  (Responses.error_code <$>
     match fst (MCPServer.handle_call_tool Demo.os_ok server "cassandra_status"
                  {[ "api_key" := PyStr "invalid" ]} initial_World) with
     | Ok [Responses.TextError d] => Some d
     | _ => None
     end) = Some "FORBIDDEN" /\
  (Responses.error_code <$>
     match fst (MCPServer.handle_call_tool Demo.os_ok server "invalid_tool"
                  Samples.with_key initial_World) with
     | Ok [Responses.TextError d] => Some d
     | _ => None
     end) = Some "INVALID_TOOL".
Proof. repeat split; vm_compute; reflexivity. Qed.

(** [tests/test_authentication.py]: the masks of a long key, a short key and
    the empty key. *)
Example test_mask_api_key :
  AuthenticationManager._mask_api_key <$> ["test-key-123456"; "short"; ""]
  = ["test...3456"; "s****"; "[empty]"].
Proof. vm_compute. reflexivity. Qed.

(** ** The tools of the server *)

Lemma create_tool_definition_name (name : string) (metadata : gmap string PyVal)
    (tool : MCPTool.t) :
  MCPServer._create_tool_definition name metadata = Ok tool ->
  MCPTool.name tool = "cassandra_" +:+ name.
Proof.
  unfold MCPServer._create_tool_definition. cbv zeta.
  unfold mbind, Result_bind, rbind.
  destruct (if _ && _ then _ else _) as [[properties required]|e]; [|discriminate].
  destruct (match metadata !! "optional_args" with Some _ => _ | None => _ end)
    as [properties'|e]; [|discriminate].
  intros [= <-]. reflexivity.
Qed.

Lemma initialize_tools_loop_names (registry : CommandRegistry.t) (cmds : list string) :
  forall tools0 tools,
    MCPServer.initialize_tools_loop registry cmds tools0 = Ok tools ->
    MCPServer.get_tool_names tools =
    MCPServer.get_tool_names tools0 ++
    (String.append "cassandra_" <$> filter (fun cmd => has_metadata registry cmd = true) cmds).
Proof.
  induction cmds as [|cmd cmds IH]; intros tools0 tools Hrun.
  - simpl in Hrun. injection Hrun as <-. rewrite filter_nil, fmap_nil, app_nil_r. reflexivity.
  - cbn [MCPServer.initialize_tools_loop] in Hrun. rewrite filter_cons.
    destruct (decide (has_metadata registry cmd = true)) as [Hm | Hm]; unfold has_metadata in Hm.
    + destruct (CommandRegistry.get_command_metadata registry cmd) as [metadata|];
        [|discriminate].
      rewrite Hm in Hrun.
      destruct (MCPServer._create_tool_definition cmd metadata) as [tool|e] eqn:Htool;
        [|discriminate].
      cbn [mbind Result_bind rbind] in Hrun. apply IH in Hrun. rewrite Hrun.
      unfold MCPServer.get_tool_names. rewrite fmap_app, fmap_cons, fmap_cons, fmap_nil.
      rewrite (create_tool_definition_name _ _ _ Htool).
      rewrite <- app_assoc. reflexivity.
    + apply IH. destruct (CommandRegistry.get_command_metadata registry cmd) as [metadata|];
        [|exact Hrun].
      destruct (truthy (PyDict metadata)); [congruence | exact Hrun].
Qed.

(** X23. The tools a server lists are named after the commands of its
    registry: if the constructor's [_initialize_tools] does not raise, the
    tool names are "cassandra_" followed by each available command that has
    metadata other than the empty dict, in the registry's order. On a freshly
    constructed registry it does not raise, and there are eleven tools, one
    for each command. *)
Theorem initialize_tools_names :
  (forall registry tools,
     MCPServer._initialize_tools registry = Ok tools ->
     MCPServer.get_tool_names tools =
     String.append "cassandra_" <$>
       filter (fun cmd => has_metadata registry cmd = true)
              (CommandRegistry.get_available_commands registry)) /\
  (forall exec,
     exists tools,
       MCPServer._initialize_tools (CommandRegistry.__init__ exec) = Ok tools /\
       MCPServer.get_tool_count tools = 11 /\
       MCPServer.get_tool_names tools =
       String.append "cassandra_" <$>
         CommandRegistry.get_available_commands (CommandRegistry.__init__ exec)).
Proof.
  split.
  - intros registry tools Hrun. unfold MCPServer._initialize_tools in Hrun.
    apply initialize_tools_loop_names in Hrun. exact Hrun.
  - intros exec. eexists. split; [vm_compute; reflexivity|]. split; reflexivity.
Qed.

Section ListedTools.
Import Responses.
Variable os : Platform.
Variable self : MCPServer.t.

(** X24. Every tool the server lists can be called: its name starts with
    "cassandra_", what follows is a command of the registry with metadata,
    and a call of that name with an accepted key is the registry's dispatch
    of that command on the arguments without "api_key" and "client_ip". *)
Theorem listed_tool_is_callable (tools : list MCPTool.t) (tool_name : string)
    (arguments : gmap string PyVal) (w : World) :
  MCPServer._initialize_tools (MCPServer.command_registry self) = Ok tools ->
  tool_name ∈ MCPServer.get_tool_names tools ->
  valid_key (MCPServer.auth_manager self) (api_key_of arguments) ->
  exists command_name metadata,
    tool_name = "cassandra_" +:+ command_name /\
    CommandRegistry.get_command_metadata (MCPServer.command_registry self) command_name
      = Some metadata /\
    MCPServer.handle_call_tool os self tool_name arguments w =
    match CommandRegistry.execute_command os (MCPServer.command_registry self) command_name
            (delete "api_key" (delete "client_ip" arguments))
            {| clock_reads := S (clock_reads w); journal := journal w |} with
    | (Ok result, w') => (Ok [TextResult (to_dict result)], w')
    | (Raise e, w') =>
        (Ok [TextError (error_response "EXECUTION_ERROR"
                          ("Error executing command: " +:+ exn_msg e)
                          (datetime_now os (clock_reads w')))],
         {| clock_reads := S (clock_reads w'); journal := journal w' |})
    end.
Proof.
  intros Hinit Hin Hv. unfold MCPServer._initialize_tools in Hinit.
  apply initialize_tools_loop_names in Hinit. rewrite Hinit in Hin. cbn [app] in Hin.
  change (MCPServer.get_tool_names []) with (@nil string) in Hin. rewrite app_nil_l in Hin.
  apply list_elem_of_fmap in Hin as (cmd & -> & Hcmd).
  apply list_elem_of_filter in Hcmd as [Hmeta _]. unfold has_metadata in Hmeta.
  destruct (CommandRegistry.get_command_metadata (MCPServer.command_registry self) cmd)
    as [metadata|] eqn:Hget; [|discriminate].
  exists cmd, metadata. split; [reflexivity|]. split; [exact Hget|].
  rewrite (handle_call_tool_authenticated os self _ arguments w Hv).
  rewrite startswith_app, (str_from_prefix "cassandra_" cmd), command_args_delete.
  run_M. destruct (CommandRegistry.execute_command _ _ _ _ _) as [[r|e] w']; reflexivity.
Qed.

End ListedTools.

Lemma key_eqb_refl (k : PyVal) : hashable k = true -> key_eqb k k = true.
Proof.
  destruct k as [|b|z|s| |]; try discriminate; intros _; simpl.
  - reflexivity.
  - destruct b; reflexivity.
  - apply Z.eqb_refl.
  - apply String.eqb_refl.
Qed.

Lemma pydict_set_keeps {V} (d : pydict V) (a : PyVal) (v : V) (k : PyVal) :
  (exists k' p, (k', p) ∈ d /\ key_eqb k' k = true) ->
  exists k' p, (k', p) ∈ pydict_set d a v /\ key_eqb k' k = true.
Proof.
  induction d as [|[k0 v0] d IH]; intros (k' & p & Hin & Hk).
  - apply elem_of_nil in Hin. contradiction.
  - simpl. apply elem_of_cons in Hin as [[= -> ->] | Hin].
    + destruct (key_eqb k0 a); eexists k0, _; (split; [left | exact Hk]).
    + destruct (key_eqb k0 a).
      * exists k', p. split; [right; exact Hin | exact Hk].
      * destruct IH as (k'' & p'' & Hin'' & Hk''); [eauto|].
        exists k'', p''. split; [right; exact Hin'' | exact Hk''].
Qed.

Lemma pydict_set_has {V} (d : pydict V) (a : PyVal) (v : V) :
  hashable a = true ->
  exists k' p, (k', p) ∈ pydict_set d a v /\ key_eqb k' a = true.
Proof.
  intros Hh. induction d as [|[k0 v0] d IH]; simpl.
  - exists a, v. split; [left | apply key_eqb_refl; exact Hh].
  - destruct (key_eqb k0 a) eqn:Hk.
    + exists k0, v. split; [left | exact Hk].
    + destruct IH as (k' & p & Hin & Hk'). exists k', p. split; [right; exact Hin | exact Hk'].
Qed.

Lemma describe_args_described (label : string) (args : list PyVal) :
  forall (properties properties' : pydict MCPTool.PropertySchema),
    MCPServer.describe_args label properties args = Ok properties' ->
    (forall k, (exists k' p, (k', p) ∈ properties /\ key_eqb k' k = true) ->
               exists k' p, (k', p) ∈ properties' /\ key_eqb k' k = true) /\
    Forall (fun a => exists k' p, (k', p) ∈ properties' /\ key_eqb k' a = true) args.
Proof.
  induction args as [|arg args IH]; intros properties properties' Hrun.
  - simpl in Hrun. injection Hrun as <-. split; [auto | constructor].
  - cbn [MCPServer.describe_args] in Hrun. unfold MCPServer.describe_arg in Hrun.
    destruct (str_of_key arg) as [text|] eqn:Htext; [|discriminate].
    cbn [mbind Result_bind rbind] in Hrun.
    assert (Hh : hashable arg = true) by (destruct arg; try discriminate; reflexivity).
    destruct (IH _ _ Hrun) as [Hkeep Hall]. split.
    + intros k Hk. apply Hkeep. apply pydict_set_keeps. exact Hk.
    + constructor; [|exact Hall]. apply Hkeep. apply pydict_set_has. exact Hh.
Qed.

(** X25. The schema [_create_tool_definition] makes for a command always
    describes target_host, and describes every argument it lists as
    required. What it lists as required is what validation asks for: a
    request that [validate_command] accepts for a command with this metadata
    supplies every required argument of the schema. *)
Theorem tool_schema_required (name : string) (metadata : gmap string PyVal)
    (tool : MCPTool.t) :
  MCPServer._create_tool_definition name metadata = Ok tool ->
  MCPTool.name tool = "cassandra_" +:+ name /\
  described (MCPTool.input_schema tool) (PyStr "target_host") /\
  Forall (described (MCPTool.input_schema tool)) (MCPTool.required (MCPTool.input_schema tool)) /\
  (forall registry args,
     CommandRegistry.get_command_metadata registry name = Some metadata ->
     CommandRegistry.validate_command registry name args = Ok true ->
     Forall (supplied args) (MCPTool.required (MCPTool.input_schema tool))).
Proof.
  intros Htool. split; [exact (create_tool_definition_name _ _ _ Htool)|].
  unfold MCPServer._create_tool_definition in Htool. cbv zeta in Htool.
  set (start := [(PyStr "target_host", _)]) in Htool.
  assert (Hstart : exists k' p, (k', p) ∈ start /\ key_eqb k' (PyStr "target_host") = true).
  { eexists _, _. split; [left | reflexivity]. }
  destruct (truthy (dict_get metadata "requires_args" PyNone) &&
            bool_decide (is_Some (metadata !! "required_args"))) eqn:Hreq.
  - apply andb_true_iff in Hreq as [Hreq Hkey]. apply bool_decide_eq_true_1 in Hkey.
    destruct Hkey as [v Hv].
    assert (Hget : forall dflt, dict_get metadata "required_args" dflt = v).
    { intros dflt. unfold dict_get. rewrite Hv. reflexivity. }
    rewrite (Hget PyNone) in Htool.
    destruct (CommandRegistry.iterate v) as [args|e] eqn:Hit; [|discriminate].
    cbn [mbind Result_bind rbind] in Htool.
    destruct (MCPServer.describe_args "Required argument: " start args) as [props|e] eqn:Hd;
      [|discriminate].
    cbn [rbind] in Htool. destruct (describe_args_described _ _ _ _ Hd) as [Hkeep Hall].
    assert (Hfinal : exists props',
              tool = {| MCPTool.name := "cassandra_" +:+ name;
                        MCPTool.description :=
                          dict_get metadata "description"
                            (PyStr ("Execute nodetool " +:+ name +:+ " command"));
                        MCPTool.input_schema :=
                          {| MCPTool.schema_type := "object"; MCPTool.properties := props';
                             MCPTool.required := args |} |} /\
              forall k, (exists k' p, (k', p) ∈ props /\ key_eqb k' k = true) ->
                        exists k' p, (k', p) ∈ props' /\ key_eqb k' k = true).
    { destruct (metadata !! "optional_args") as [opt|].
      - destruct (CommandRegistry.iterate opt) as [oargs|e]; [|discriminate].
        cbn [mbind Result_bind rbind] in Htool.
        destruct (MCPServer.describe_args "Optional argument: " props oargs) as [props'|e] eqn:Hd';
          [|discriminate].
        cbn [rbind] in Htool. injection Htool as <-. exists props'. split; [reflexivity|].
        apply (describe_args_described _ _ _ _ Hd').
      - cbn [rbind] in Htool. injection Htool as <-. exists props. split; [reflexivity | auto]. }
    destruct Hfinal as (props' & -> & Hkeep'). cbn [MCPTool.input_schema MCPTool.required].
    unfold described. cbn [MCPTool.properties].
    split; [apply Hkeep', Hkeep; exact Hstart|]. split.
    + eapply Forall_impl; [exact Hall|]. intros a Ha. apply Hkeep'. exact Ha.
    + intros registry args0 Hmeta Hvalid.
      apply validate_command_true_iff in Hvalid as (meta & Hm & _ & Hr & _).
      rewrite Hmeta in Hm. injection Hm as <-.
      assert (Hrq : requires_args metadata).
      { unfold requires_args. unfold dict_get in *.
        destruct (metadata !! "requires_args"); [exact Hreq | discriminate Hreq]. }
      destruct (Hr Hrq) as (names & Hdecl & Hsup). unfold declares_required in Hdecl.
      rewrite (Hget (PyList [])), Hit in Hdecl. injection Hdecl as <-. exact Hsup.
  - cbn [mbind Result_bind rbind] in Htool.
    assert (Hfinal : exists props',
              tool = {| MCPTool.name := "cassandra_" +:+ name;
                        MCPTool.description :=
                          dict_get metadata "description"
                            (PyStr ("Execute nodetool " +:+ name +:+ " command"));
                        MCPTool.input_schema :=
                          {| MCPTool.schema_type := "object"; MCPTool.properties := props';
                             MCPTool.required := [] |} |} /\
              forall k, (exists k' p, (k', p) ∈ start /\ key_eqb k' k = true) ->
                        exists k' p, (k', p) ∈ props' /\ key_eqb k' k = true).
    { destruct (metadata !! "optional_args") as [opt|].
      - destruct (CommandRegistry.iterate opt) as [oargs|e]; [|discriminate].
        cbn [mbind Result_bind rbind] in Htool.
        destruct (MCPServer.describe_args "Optional argument: " start oargs) as [props'|e] eqn:Hd';
          [|discriminate].
        cbn [rbind] in Htool. injection Htool as <-. exists props'. split; [reflexivity|].
        apply (describe_args_described _ _ _ _ Hd').
      - cbn [rbind] in Htool. injection Htool as <-. exists start. split; [reflexivity | auto]. }
    destruct Hfinal as (props' & -> & Hkeep'). cbn [MCPTool.input_schema MCPTool.required].
    unfold described. cbn [MCPTool.properties].
    split; [apply Hkeep'; exact Hstart|]. split; [constructor|]. intros; constructor.
Qed.

Lemma listed_tool_is_callable_witness :
  exists command_name metadata,
    "cassandra_ring" = "cassandra_" +:+ command_name /\
    CommandRegistry.get_command_metadata
      (MCPServer.command_registry (Samples.server Demo.os_ok)) command_name = Some metadata /\
    MCPServer.handle_call_tool Demo.os_ok (Samples.server Demo.os_ok) "cassandra_ring"
      Samples.with_key initial_World =
    match CommandRegistry.execute_command Demo.os_ok
            (MCPServer.command_registry (Samples.server Demo.os_ok)) command_name
            (delete "api_key" (delete "client_ip" Samples.with_key))
            {| clock_reads := S (clock_reads initial_World);
               journal := journal initial_World |} with
    | (Ok result, w') => (Ok [Responses.TextResult (Responses.to_dict result)], w')
    | (Raise e, w') =>
        (Ok [Responses.TextError
               (Responses.error_response "EXECUTION_ERROR"
                  ("Error executing command: " +:+ exn_msg e)
                  (datetime_now Demo.os_ok (clock_reads w')))],
         {| clock_reads := S (clock_reads w'); journal := journal w' |})
    end.
Proof.
  apply (listed_tool_is_callable Demo.os_ok (Samples.server Demo.os_ok) Samples.tools).
  - vm_compute. reflexivity.
  - apply (bool_decide_unpack _). vm_compute. exact I.
  - exists "test-key-123". split; [vm_compute; reflexivity|]. split; [discriminate|].
    apply (bool_decide_unpack _). vm_compute. exact I.
Defined.

Lemma tool_schema_required_witness :
  MCPTool.name Samples.sstables_tool = "cassandra_" +:+ "getsstables" /\
  described (MCPTool.input_schema Samples.sstables_tool) (PyStr "target_host") /\
  Forall (described (MCPTool.input_schema Samples.sstables_tool))
         (MCPTool.required (MCPTool.input_schema Samples.sstables_tool)) /\
  (forall registry args,
     CommandRegistry.get_command_metadata registry "getsstables" = Some Demo.getsstables_meta ->
     CommandRegistry.validate_command registry "getsstables" args = Ok true ->
     Forall (supplied args) (MCPTool.required (MCPTool.input_schema Samples.sstables_tool))).
Proof.
  apply (tool_schema_required "getsstables" Demo.getsstables_meta Samples.sstables_tool).
  vm_compute. reflexivity.
Defined.

(** [tests/test_mcp_server.py]: the names of the tools. *)
Example test_tool_names_format :
  MCPServer.get_tool_names Samples.tools =
  ["cassandra_status"; "cassandra_ring"; "cassandra_info"; "cassandra_netstats";
   "cassandra_repair"; "cassandra_snapshot"; "cassandra_cleanup"; "cassandra_compact";
   "cassandra_getsstables"; "cassandra_getcompactionthroughput";
   "cassandra_getconcurrentcompactors"] /\
  MCPServer.get_tool_count Samples.tools = 11.
Proof. split; vm_compute; reflexivity. Qed.

(** ** The executor and the process: what is done, and in which order *)

Section ExecutorProtocol.
Context {C : Type} `{IConfigurationManager C}.
Variable os : Platform.
Variable self : NodeToolExecutor.t C.

(** X26. Whatever the command and the target host, a call of
    [execute_command] does one of five things to the outside, in this order:
    nothing; a spawn; a spawn and a wait for the output; these and a kill;
    these, the kill and a wait for the process. There is at most one spawn,
    with the expected command line and environment, and the process is
    killed exactly when the wait for its output timed out. *)
Theorem execute_command_protocol (command : string) (target_host : PyVal) (w : World) :
  let spawn := EvSpawn (expected_argv os self command target_host)
                 (NodeToolExecutor._get_environment os self) in
  let comm := EvCommunicate (NodeToolExecutor.timeout self) in
  exists evs,
    journal (snd (NodeToolExecutor.execute_command os self command target_host w)) =
    journal w ++ evs /\
    (evs = [] \/ evs = [spawn] \/ evs = [spawn; comm] \/ evs = [spawn; comm; EvKill] \/
     evs = [spawn; comm; EvKill; EvWait]) /\
    (EvKill ∈ evs <->
     exists p e,
       host_passes target_host /\ spawned os self command target_host = Ok p /\
       communicate p (NodeToolExecutor.timeout self) = Raise e /\
       exn_class e = AsyncioTimeoutError).
Proof.
  cbv zeta.
  assert (Hcases : host_passes target_host \/ (exists ip, host_rejected target_host ip) \/
                   (truthy target_host = true /\ isinstance_str target_host = false)).
  { destruct (truthy target_host) eqn:Ht; [|left; left; exact Ht].
    destruct (isinstance_str target_host) eqn:Hs; [|right; right; auto].
    destruct target_host as [| | |s| |]; try discriminate.
    destruct (optional_str_host (PyStr s)) as [Hp | Hr]; [right; eauto | auto | auto]. }
  destruct Hcases as [Hp | [(ip & Hrej) | [Ht Hs]]].
  2:{ exists []. rewrite (execute_command_host_rejected os self _ _ ip _ Hrej). simpl.
      rewrite app_nil_r. split; [reflexivity|]. split; [auto|].
      split; [intros Hin; apply elem_of_nil in Hin; contradiction|].
      intros (p & e & Hp & _). destruct (host_rejected_not_passes _ _ Hrej Hp). }
  2:{ exists []. rewrite (execute_command_type_error os self _ _ _ Ht Hs). simpl.
      rewrite app_nil_r. split; [reflexivity|]. split; [auto|].
      split; [intros Hin; apply elem_of_nil in Hin; contradiction|].
      intros (p & e & [Hf | (ip & -> & _)] & _); [congruence | discriminate]. }
  rewrite <- argv_expected.
  destruct (spawned os self command target_host) as [p|e] eqn:Hsp.
  2:{ eexists. rewrite (execute_command_spawn_raises os self _ _ e _ Hp Hsp). simpl.
      split; [reflexivity|]. split; [auto|]. split.
      - intros Hin. apply elem_of_cons in Hin as [Hin | Hin]; [discriminate|].
        apply elem_of_nil in Hin. contradiction.
      - intros (p & e' & _ & Hsp' & _). discriminate. }
  destruct (communicate p (NodeToolExecutor.timeout self)) as [[out err]|e] eqn:Hc.
  - eexists. rewrite (execute_command_completed os self _ _ p out err _ Hp Hsp Hc). simpl.
    split; [reflexivity|]. split; [auto|]. split.
    + intros Hin. repeat (apply elem_of_cons in Hin as [Hin | Hin]; [discriminate|]).
      apply elem_of_nil in Hin. contradiction.
    + intros (p' & e' & _ & [= <-] & Hc' & _). congruence.
  - destruct (decide (exn_class e = AsyncioTimeoutError)) as [Hcls | Hcls].
    + eexists. rewrite (execute_command_timed_out os self _ _ p e _ Hp Hsp Hc Hcls). simpl.
      split; [reflexivity|]. split.
      * destruct (kill p); auto 6.
      * split; [intros _; exists p, e; auto|]. intros _.
        right. right. left.
    + eexists. rewrite (execute_command_communicate_raises os self _ _ p e _ Hp Hsp Hc Hcls).
      simpl. split; [reflexivity|]. split; [auto|]. split.
      * intros Hin. repeat (apply elem_of_cons in Hin as [Hin | Hin]; [discriminate|]).
        apply elem_of_nil in Hin. contradiction.
      * intros (p' & e' & _ & [= <-] & Hc' & Hcls'). congruence.
Qed.

End ExecutorProtocol.
